(** * DANGIT backend: a shallow embedding of [src/index.js]

    The service is an Express application: a response normalizer
    ([cleanJSONResponse]), a content extractor ([POST /api/analyze]), a
    source resolver ([POST /api/scrape]), an ingestion orchestrator
    ([POST /api/process-content]), an authentication middleware
    ([authenticateUser]) and a set of owner-scoped CRUD and voting routes
    on top of a row store.

    Modelling conventions.
    - A JavaScript string is a [string]; each character stands for one
      UTF-16 code unit (the model covers code units below 256).
    - A JSON/JavaScript value is a [JS.value].  A number is a double
      that holds an integer; arithmetic and printing round as doubles do.
    - An exception is the [Throw] case of [JS.outcome].  A handler that
      throws sends no response of its own; what its client then gets is
      the framework's business ([Http.delivered]).
    - The language model, the identity provider, [fetch] and the clock are
      collaborators: their replies are arguments of the handlers.
    - A body field that a handler inspects dynamically ([itemId],
      [completed], [content], [contentType], [url], [vote_type],
      [feature_id]) is an arbitrary value; a field a handler only uses as
      text (a title, a description, a path parameter) is a string or
      absent.
    - The row store is a record of tables; every query a handler builds is
      a [Store.query] that is both logged and interpreted.  The store
      carries out the reads, updates and deletes of the item, listing,
      feature and vote routes: there a query fails only in the way its
      shape allows (for instance [single] on a result that is not
      exactly one row).  Whether it takes the row that process-content
      inserts, and whether it carries out the view-count update whose
      reply the detail fetch does not read, is a collaborator's reply
      like any other. *)

From Stdlib Require Import String Ascii List ZArith Lia Bool Arith.
From Stdlib Require Import DecimalString.
From Stdlib Require Import Sorted Permutation.
Import ListNotations.
Local Open Scope string_scope.
Set Warnings "-register-all".

(* ================================================================== *)
(** * Part I.  The embedding *)
(* ================================================================== *)

(** ** Strings: the [String.prototype] methods the handlers call *)
Module Str.

(** [\s] and the characters [trim] removes, below code unit 256. *)
Definition is_space (c : ascii) : bool :=
  let n := nat_of_ascii c in
  ((9 <=? n)%nat && (n <=? 13)%nat) || (n =? 32)%nat || (n =? 160)%nat.

Fixpoint trimStart (s : string) : string :=
  match s with
  | "" => ""
  | String c s' => if is_space c then trimStart s' else s
  end.

Fixpoint trimEnd (s : string) : string :=
  match s with
  | "" => ""
  | String c s' =>
      match trimEnd s' with
      | "" => if is_space c then "" else String c ""
      | r => String c r
      end
  end.

Definition trim (s : string) : string := trimEnd (trimStart s).

(** [s.substring(0, n)] and [s.slice(0, n)] for [n >= 0]. *)
Definition take (n : nat) (s : string) : string := substring 0 n s.

Fixpoint drop (n : nat) (s : string) : string :=
  match n, s with
  | 0, _ => s
  | S k, String _ s' => drop k s'
  | S _, "" => ""
  end.

Definition startsWith (p s : string) : bool := prefix p s.

Fixpoint includes (needle s : string) : bool :=
  prefix needle s ||
  match s with
  | "" => false
  | String _ s' => includes needle s'
  end.

(** Suffix of [s] that starts at the first occurrence of [needle],
    together with what precedes it. *)
Fixpoint split_at (needle : string) (s : string) : option (string * string) :=
  if prefix needle s then Some ("", s)
  else match s with
       | "" => None
       | String c s' =>
           match split_at needle s' with
           | Some (pre, rest) => Some (String c pre, rest)
           | None => None
           end
       end.

(** [s.replace(/pat/g, '')] for a literal, non-empty [pat]: matches are
    taken left to right and do not overlap; [skip] counts the characters
    of the current match still to be dropped. *)
Fixpoint remove_all_from (pat : string) (skip : nat) (s : string) : string :=
  match s with
  | "" => ""
  | String c s' =>
      match skip with
      | S k => remove_all_from pat k s'
      | 0 => if prefix pat s
             then remove_all_from pat (String.length pat - 1) s'
             else String c (remove_all_from pat 0 s')
      end
  end.

Definition remove_all (pat s : string) : string := remove_all_from pat 0 s.

(** [s.endsWith(c)] then drop it: [s.replace(/c$/, '')]. *)
Fixpoint drop_last_if (c : ascii) (s : string) : string :=
  match s with
  | "" => ""
  | String a "" => if Ascii.eqb a c then "" else s
  | String a s' => String a (drop_last_if c s')
  end.

Fixpoint all_chars (p : ascii -> bool) (s : string) : bool :=
  match s with
  | "" => true
  | String c s' => p c && all_chars p s'
  end.

Fixpoint has_char (c : ascii) (s : string) : bool :=
  match s with
  | "" => false
  | String a s' => Ascii.eqb a c || has_char c s'
  end.

Definition in_range (lo hi : nat) (c : ascii) : bool :=
  let n := nat_of_ascii c in (lo <=? n)%nat && (n <=? hi)%nat.

Definition is_digit (c : ascii) : bool := in_range 48 57 c.
Definition is_upper (c : ascii) : bool := in_range 65 90 c.
Definition is_lower (c : ascii) : bool := in_range 97 122 c.

(** Case folding as [ILIKE] applies it to the code units below 256: a
    capital letter, A to Z or one of the capitals of the Latin-1
    supplement (192 to 222 but for the multiplication sign, 215), goes
    to the small letter 32 places on; every other character stays. *)
Definition is_capital (c : ascii) : bool :=
  is_upper c || (in_range 192 222 c && negb (nat_of_ascii c =? 215)%nat).

Definition lower (c : ascii) : ascii :=
  if is_capital c then ascii_of_nat (nat_of_ascii c + 32) else c.

(** [s.split(c)[0]]: the text before the first [c]. *)
Fixpoint first_piece (c : ascii) (s : string) : string :=
  match s with
  | "" => ""
  | String a s' => if Ascii.eqb a c then "" else String a (first_piece c s')
  end.

Fixpoint replicate (n : nat) (c : ascii) : string :=
  match n with
  | 0 => ""
  | S k => String c (replicate k c)
  end.

Definition dquote : ascii := ascii_of_nat 34.
Definition newline : ascii := ascii_of_nat 10.
Definition creturn : ascii := ascii_of_nat 13.

Fixpoint lowercase (s : string) : string :=
  match s with
  | "" => ""
  | String c s' => String (lower c) (lowercase s')
  end.

End Str.

(** ** JavaScript values, truthiness and exceptions *)
Module JS.

Inductive value : Type :=
| VUndef
| VNull
| VBool (b : bool)
| VNum (n : Z)
| VStr (s : string)
| VArr (l : list value)
| VObj (fields : list (string * value)).

Inductive error : Type :=
| TypeError
| ReferenceError
| Error (msg : string).

Inductive outcome (A : Type) : Type :=
| Ok (a : A)
| Throw (e : error).
Arguments Ok {A} a.
Arguments Throw {A} e.

Definition bind {A B} (m : outcome A) (k : A -> outcome B) : outcome B :=
  match m with
  | Ok a => k a
  | Throw e => Throw e
  end.

Definition truthy (v : value) : bool :=
  match v with
  | VUndef | VNull => false
  | VBool b => b
  | VNum n => negb (n =? 0)%Z
  | VStr s => negb (s =? "")
  | VArr _ | VObj _ => true
  end.

(** [a || b] on values. *)
Definition or_else (a b : value) : value := if truthy a then a else b.

Fixpoint lookup (k : string) (fields : list (string * value)) : value :=
  match fields with
  | [] => VUndef
  | (k', v) :: rest => if k' =? k then v else lookup k rest
  end.

Definition nat_value (n : nat) : value := VNum (Z.of_nat n).

(** [v.name] for a data property [name]: reading a property of
    [undefined] or [null] throws; a primitive has no own data property
    but [length]. *)
Definition get (v : value) (name : string) : outcome value :=
  match v with
  | VUndef | VNull => Throw TypeError
  | VObj fields => Ok (lookup name fields)
  | VStr s => Ok (if name =? "length" then nat_value (String.length s) else VUndef)
  | VArr l => Ok (if name =? "length" then nat_value (List.length l) else VUndef)
  | VBool _ | VNum _ => Ok VUndef
  end.

(** [v?.name]. *)
Definition get_opt (v : value) (name : string) : value :=
  match get v name with
  | Ok x => x
  | Throw _ => VUndef
  end.

(** [v.substring(0, n)]: only strings have the method. *)
Definition substring0 (n : nat) (v : value) : outcome value :=
  match v with
  | VStr s => Ok (VStr (Str.take n s))
  | _ => Throw TypeError
  end.

(** [v.slice(0, n)]: strings and arrays have the method. *)
Definition slice0 (n : nat) (v : value) : outcome value :=
  match v with
  | VStr s => Ok (VStr (Str.take n s))
  | VArr l => Ok (VArr (firstn n l))
  | _ => Throw TypeError
  end.

Definition is_str (s : string) (v : value) : bool :=
  match v with
  | VStr t => t =? s
  | _ => false
  end.

(** [v.includes(needle)] for a string needle: substring test on a
    string, strict-equality membership on an array. *)
Definition includes (needle : string) (v : value) : outcome bool :=
  match v with
  | VStr s => Ok (Str.includes needle s)
  | VArr l => Ok (existsb (is_str needle) l)
  | _ => Throw TypeError
  end.

Definition string_of_Z (n : Z) : string :=
  NilZero.string_of_int (Z.to_int n).

(** *** Numbers

    A JavaScript number is a double.  The model carries the integers
    among them, as [Z]: [to_double n] is the integer held by the double
    nearest to [n], ties going to the even significand.  Numbers with a
    fraction, and magnitudes from 2^1024 on, are outside the model. *)
Definition to_double (n : Z) : Z :=
  let a := Z.abs n in
  if (a <=? 2 ^ 53)%Z then n
  else
    let u := (2 ^ (Z.log2 a - 52))%Z in
    let q := (a / u)%Z in
    let r := (a mod u)%Z in
    let q' := if (2 * r <? u)%Z then q
              else if (u <? 2 * r)%Z then (q + 1)%Z
              else if Z.even q then q else (q + 1)%Z in
    (Z.sgn n * (q' * u))%Z.

(** [a + b] on numbers. *)
Definition add (a b : Z) : Z := to_double (to_double a + to_double b).

(** [Number.prototype.toString]: the digits [s] are the fewest, [k] of
    them, for which [s * 10^(n - k)] reads back as the double [x]; of two
    candidates of that length the nearer to [x] is taken, the even one
    on a tie.  Up to [n = 21] the digits are printed with zeros after
    them, beyond that in exponent notation. *)
Fixpoint zeros (n : nat) : string :=
  match n with
  | 0 => ""
  | S k => String "0" (zeros k)
  end.

Definition reads_back (x k : Z) (c : Z * Z) : bool :=
  let '(s, n) := c in
  ((10 ^ (k - 1) <=? s) && (s <? 10 ^ k)
   && (to_double (s * 10 ^ (n - k)) =? x))%Z.

Definition nearer (x k : Z) (c1 c2 : Z * Z) : Z * Z :=
  let dist c := Z.abs (fst c * 10 ^ (snd c - k) - x) in
  if (dist c1 <? dist c2)%Z then c1
  else if (dist c2 <? dist c1)%Z then c2
  else if Z.even (fst c1) then c1 else c2.

Definition shortest_at (x d k : Z) : option (Z * Z) :=
  let lo := (x / 10 ^ (d - k))%Z in
  match filter (reads_back x k)
          [(lo, d); ((lo + 1)%Z, d); ((10 ^ (k - 1))%Z, (d + 1)%Z)] with
  | [] => None
  | c :: cs => Some (fold_left (nearer x k) cs c)
  end.

(** Seventeen digits tell any two doubles apart. *)
Fixpoint shortest_from (fuel : nat) (x d k : Z) : Z * Z :=
  match fuel with
  | 0 => (x, d)
  | S f =>
      match shortest_at x d k with
      | Some c => c
      | None => shortest_from f x d (k + 1)
      end
  end.

(** An integer up to 2^53 prints as its decimal digits: each of them is
    a double of its own, so no shorter run of digits reads back as
    it. *)
Definition positive_to_string (x : Z) : string :=
  if (x <=? 2 ^ 53)%Z then string_of_Z x
  else
    let d := Z.of_nat (String.length (string_of_Z x)) in
    let '(s, n) := shortest_from 17 x d 1 in
    let digits := string_of_Z s in
    let k := Z.of_nat (String.length digits) in
    if (n <=? 21)%Z then digits ++ zeros (Z.to_nat (n - k))
    else
      match digits with
      | String c "" => String c ("e+" ++ string_of_Z (n - 1))
      | String c rest => String c ("." ++ rest ++ "e+" ++ string_of_Z (n - 1))
      | "" => ""
      end.

Definition number_to_string (n : Z) : string :=
  let x := to_double n in
  if (x <? 0)%Z then "-" ++ positive_to_string (- x)
  else positive_to_string x.

Fixpoint has_key (k : string) (fields : list (string * value)) : bool :=
  match fields with
  | [] => false
  | (k', _) :: rest => (k' =? k) || has_key k rest
  end.

(** [String(v)] and template interpolation.  An array joins its
    elements with commas, [null] and [undefined] elements printing as
    the empty string; a plain object prints as [[object Object]] unless
    it carries an own, hence non-callable, [toString]. *)
Fixpoint to_string (v : value) : outcome string :=
  match v with
  | VUndef => Ok "undefined"
  | VNull => Ok "null"
  | VBool b => Ok (if b then "true" else "false")
  | VNum n => Ok (number_to_string n)
  | VStr s => Ok s
  | VArr l =>
      let elt x :=
        match x with
        | VUndef | VNull => Ok ""
        | _ => to_string x
        end in
      (fix join (l : list value) : outcome string :=
         match l with
         | [] => Ok ""
         | [x] => elt x
         | x :: rest =>
             bind (elt x) (fun a => bind (join rest) (fun b => Ok (a ++ "," ++ b)))
         end) l
  | VObj fields =>
      if has_key "toString" fields then Throw TypeError
      else Ok "[object Object]"
  end.

(** [obj.k = v] on an object. *)
Fixpoint set_field (k : string) (v : value) (fields : list (string * value))
  : list (string * value) :=
  match fields with
  | [] => [(k, v)]
  | (k', v') :: rest =>
      if k' =? k then (k, v) :: rest else (k', v') :: set_field k v rest
  end.

Definition set (k : string) (v : value) (o : value) : value :=
  match o with
  | VObj fields => VObj (set_field k v fields)
  | _ => o
  end.

(** Length of a value as the size limits of the spec read it. *)
Definition len (v : value) : option nat :=
  match v with
  | VStr s => Some (String.length s)
  | VArr l => Some (List.length l)
  | _ => None
  end.

End JS.

Declare Scope js_scope.
Delimit Scope js_scope with js.
Notation "x <- m ;; k" := (JS.bind m (fun x => k))
  (at level 61, m at next level, right associativity) : js_scope.
Local Open Scope js_scope.

(** ** Response Normalizer: [cleanJSONResponse] *)
Module Normalizer.

Definition backtick6 : string := "``````".

(** [cleaned.match(/\{[\s\S]*\}/)]: the match starts at the first
    opening brace and, the star being greedy, ends at the last closing
    brace after it. *)
Fixpoint from_first (c : ascii) (s : string) : option string :=
  match s with
  | "" => None
  | String a s' => if Ascii.eqb a c then Some s else from_first c s'
  end.

Fixpoint upto_last (c : ascii) (s : string) : option string :=
  match s with
  | "" => None
  | String a s' =>
      match upto_last c s' with
      | Some r => Some (String a r)
      | None => if Ascii.eqb a c then Some (String a "") else None
      end
  end.

Definition brace_span (s : string) : option string :=
  match from_first "{" s with
  | Some r => upto_last "}" r
  | None => None
  end.

Definition parse_failure : JS.error :=
  JS.Error "Could not parse AI response as JSON".

(** [response.replace(/``````/g, '').trim()], the variable [cleaned]. *)
Definition cleaned (response : string) : string :=
  Str.trim (Str.remove_all backtick6 response).

Section WithParser.

(** [JSON.parse] is the runtime's: [None] stands for its [SyntaxError]. *)
Variable JSON_parse : string -> option JS.value.

Definition cleanJSONResponse (response : JS.value) : JS.outcome JS.value :=
  if negb (JS.truthy response) then JS.Throw (JS.Error "Empty response")
  else
    match response with
    | JS.VStr s =>
        let cleaned := cleaned s in
        match JSON_parse cleaned with
        | Some v => JS.Ok v
        | None =>
            match brace_span cleaned with
            | Some m =>
                match JSON_parse m with
                | Some v => JS.Ok v
                | None => JS.Throw parse_failure
                end
            | None => JS.Throw parse_failure
            end
        end
    | _ => JS.Throw JS.TypeError
    end.

End WithParser.

(** The fallback as the specification words it, for comparison with
    [brace_span]: the first substring that opens with a brace and closes
    where the braces balance.  [close depth s] is the prefix of [s] up to
    the brace that brings [depth] back to zero. *)
Fixpoint close (depth : nat) (s : string) : option string :=
  match s with
  | "" => None
  | String c s' =>
      if Ascii.eqb c "}" then
        match depth with
        | 0 => Some (String c "")
        | S d => option_map (String c) (close d s')
        end
      else if Ascii.eqb c "{" then option_map (String c) (close (S depth) s')
      else option_map (String c) (close depth s')
  end.

Fixpoint first_balanced (s : string) : option string :=
  match s with
  | "" => None
  | String c s' =>
      if Ascii.eqb c "{" then
        match close 0 s' with
        | Some body => Some (String c body)
        | None => first_balanced s'
        end
      else first_balanced s'
  end.

(** The normalizer with the fallback of the specification's wording. *)
Definition normalize_first_balanced (JSON_parse : string -> option JS.value)
    (response : JS.value) : JS.outcome JS.value :=
  if negb (JS.truthy response) then JS.Throw (JS.Error "Empty response")
  else
    match response with
    | JS.VStr s =>
        let cleaned := cleaned s in
        match JSON_parse cleaned with
        | Some v => JS.Ok v
        | None =>
            match first_balanced cleaned with
            | Some m =>
                match JSON_parse m with
                | Some v => JS.Ok v
                | None => JS.Throw parse_failure
                end
            | None => JS.Throw parse_failure
            end
        end
    | _ => JS.Throw JS.TypeError
    end.

(** A parser that agrees with [JSON.parse] on the texts the examples
    below feed it: the empty object parses, the others do not. *)
Definition parse_empty_object (s : string) : option JS.value :=
  if s =? "{}" then Some (JS.VObj []) else None.

End Normalizer.

(** ** HTTP responses *)
Module Http.

Record response : Type := mkResponse { status : nat; body : JS.value }.

(** [res.json(v)] and [res.status(n).json(v)]. *)
Definition json (v : JS.value) : response := mkResponse 200 v.
Definition status_json (n : nat) (v : JS.value) : response := mkResponse n v.

Definition error_body (msg : string) : JS.value :=
  JS.VObj [("error", JS.VStr msg)].

(** What the client of a route gets from an [async] handler: the
    response the handler sent or, when the handler throws and so its
    promise is rejected, what the framework makes of the rejection.
    [unhandled] is that reaction: [None] where the request is left
    without an answer, as Express 4 does, and the answer of the
    framework's error handler where there is one, as in Express 5, whose
    default handler answers with status 500.  Which Express runs the
    service is not part of the sources. *)
Definition delivered (unhandled : option response)
    (o : JS.outcome response) : option response :=
  match o with
  | JS.Ok r => Some r
  | JS.Throw _ => unhandled
  end.

End Http.

(** ** Content Extractor: [POST /api/analyze] *)
Module Analyze.
Import JS.

(** The branding pattern of the title clean-up: a lazy [^.*?], the
    marker [ on Instagram: ] and an optional double quote.  The lazy
    prefix may not cross a line terminator; one double quote after the
    marker goes with it. *)
Definition is_line_end (c : ascii) : bool :=
  Ascii.eqb c Str.newline || Ascii.eqb c Str.creturn.

Definition strip_branding (s : string) : string :=
  match Str.split_at " on Instagram: " s with
  | Some (pre, rest) =>
      if Str.all_chars (fun c => negb (is_line_end c)) pre then
        match Str.drop 15 rest with
        | String c r => if Ascii.eqb c Str.dquote then r else String c r
        | "" => ""
        end
      else s
  | None => s
  end.

(** [url.match(/\/(p|reel|reels)\/([A-Za-z0-9_-]+)/)], first group. *)
Definition is_id_char (c : ascii) : bool :=
  Str.is_upper c || Str.is_lower c || Str.is_digit c
  || Ascii.eqb c "_" || Ascii.eqb c "-".

Definition kind_at (k : string) (s : string) : bool :=
  let marker := "/" ++ k ++ "/" in
  prefix marker s &&
  match Str.drop (String.length marker) s with
  | String c _ => is_id_char c
  | "" => false
  end.

Fixpoint post_kind (s : string) : option string :=
  if kind_at "p" s then Some "p"
  else if kind_at "reel" s then Some "reel"
  else if kind_at "reels" s then Some "reels"
  else match s with
       | "" => None
       | String _ s' => post_kind s'
       end.

Definition is_instagram (url : value) : outcome bool :=
  if truthy url then
    a <- includes "instagram.com" url ;;
    if a then Ok true else includes "instagr.am" url
  else Ok false.

(** The Instagram branch, which answers without calling the model. *)
Definition instagram (content url : value) : outcome Http.response :=
  match url with
  | VStr u =>
      let postType :=
        match post_kind u with Some k => k | None => "post" end in
      t0 <- get content "title" ;;
      d0 <- get content "description" ;;
      let title := or_else t0 (VStr "") in
      let description := or_else d0 (VStr "") in
      branded <- (if is_str "Instagram" title then Ok true
                  else includes "Instagram:" title) ;;
      title <- (if branded then
                  match title with
                  | VStr t =>
                      Ok (VStr (Str.trim
                            (Str.drop_last_if Str.dquote (strip_branding t))))
                  | _ => Throw TypeError
                  end
                else Ok title) ;;
      n <- get title "length" ;;
      let short :=
        negb (truthy title) ||
        match n with VNum k => (k <? 10)%Z | _ => false end in
      author <- get content "author" ;;
      description <- (if short then
                        if truthy author
                        then a <- to_string author ;; Ok (VStr ("Content by " ++ a))
                        else Ok (VStr "Saved from Instagram")
                      else Ok description) ;;
      let title := if short
        then VStr (if postType =? "reel" then "Instagram Reel" else "Instagram Post")
        else title in
      t60 <- substring0 60 title ;;
      let media := VStr (if postType =? "reel" then "video" else "photo") in
      Ok (Http.json (VObj
        [ ("title", t60);
          ("category", VStr "Entertainment");
          ("summary",
           or_else description (VStr "Instagram content saved for later viewing"));
          ("tags", VArr [VStr "instagram"; media; VStr "social-media"]);
          ("content_type", media);
          ("platform", VStr "instagram") ]))
  | _ => Throw TypeError
  end.

(** Validation and cleanup of the parsed model reply. *)
Definition finish (r : value) : outcome Http.response :=
  t <- get r "title" ;;
  c <- get r "category" ;;
  s <- get r "summary" ;;
  if negb (truthy t) || negb (truthy c) || negb (truthy s)
  then Throw (Error "Invalid AI response format")
  else
    t60 <- substring0 60 t ;;
    s300 <- substring0 300 s ;;
    tags <- get r "tags" ;;
    tags5 <- slice0 5 (or_else tags (VArr [])) ;;
    Ok (Http.json (set "tags" tags5 (set "summary" s300 (set "title" t60 r)))).

Section Handler.

Variable JSON_parse : string -> option value.

(** [llm] is the reply of [openai.chat.completions.create] read at
    [choices[0].message.content], or the exception the call raised. *)
Definition analyze_try (content contentType : value) (llm : outcome value)
  : outcome Http.response :=
  if is_str "image" contentType then
    raw <- llm ;;
    r <- Normalizer.cleanJSONResponse JSON_parse raw ;;
    finish r
  else if is_str "url" contentType then
    url <- get content "url" ;;
    insta <- is_instagram url ;;
    if insta then instagram content url
    else
      raw <- llm ;;
      r <- Normalizer.cleanJSONResponse JSON_parse raw ;;
      finish r
  else if is_str "text" contentType then
    raw <- llm ;;
    r <- Normalizer.cleanJSONResponse JSON_parse raw ;;
    finish r
  else finish VUndef.

End Handler.

(** An identifier as the catch block sees it.  [content] and
    [contentType] are declared by [const] inside the [try] block, so the
    catch block, a sibling scope, does not see them: reading an
    undeclared identifier raises [ReferenceError]. *)
Inductive binding : Type :=
| Unbound
| Bound (v : value).

Definition read (b : binding) : outcome value :=
  match b with
  | Unbound => Throw ReferenceError
  | Bound v => Ok v
  end.

Definition nullish (v : value) : bool :=
  match v with
  | VUndef | VNull => true
  | _ => false
  end.

(** [v?.name?.substring(0, n)]. *)
Definition opt_field_prefix (v : value) (name : string) (n : nat)
  : outcome value :=
  let f := get_opt v name in
  if nullish f then Ok VUndef else substring0 n f.

Definition fallback (title summary : value) (tags : list string) : value :=
  VObj [ ("title", title); ("category", VStr "Other");
         ("summary", summary); ("tags", VArr (map VStr tags)) ].

Definition fallback_image : value :=
  fallback (VStr "Saved Screenshot")
    (VStr "Screenshot saved successfully. AI analysis had an issue, but your content is safely stored.")
    ["screenshot"; "saved"].

Definition fallback_other : value :=
  fallback (VStr "Saved Content") (VStr "Content saved successfully.") ["saved"].

(** The catch block: the table [fallbackResponses] is built whole, entry
    by entry, before [contentType] selects one of them.  The table is
    read at its three own keys; keys it would inherit from
    [Object.prototype] are not modelled. *)
Definition analyze_catch (content contentType : binding)
  : outcome Http.response :=
  c <- read content ;;
  url_title <- opt_field_prefix c "title" 60 ;;
  url_summary <- opt_field_prefix c "description" 200 ;;
  let url_entry :=
    fallback (or_else url_title (VStr "Saved Link"))
      (or_else url_summary (VStr "Link saved successfully for later reference."))
      ["link"; "saved"] in
  text_title <- (if nullish c then Ok VUndef
                 else match c with
                      | VStr s => Ok (VStr (Str.take 60 (Str.first_piece Str.newline s)))
                      | _ => Throw TypeError
                      end) ;;
  text_summary <- (if nullish c then Ok VUndef else substring0 200 c) ;;
  let text_entry :=
    fallback (or_else text_title (VStr "Quick Note"))
      (or_else text_summary (VStr "Note saved successfully."))
      ["note"; "saved"] in
  ct <- read contentType ;;
  key <- to_string ct ;;
  Ok (Http.json
        (if key =? "image" then fallback_image
         else if key =? "url" then url_entry
         else if key =? "text" then text_entry
         else fallback_other)).

(** The handler: whatever the [try] block throws lands in the catch
    block, where neither identifier is in scope.  A [Throw] of the
    handler is the rejection of its promise: the handler has sent
    nothing. *)
Definition analyze (JSON_parse : string -> option value)
    (content contentType : value) (llm : outcome value)
  : outcome Http.response :=
  match analyze_try JSON_parse content contentType llm with
  | Ok r => Ok r
  | Throw _ => analyze_catch Unbound Unbound
  end.

(** The size limits of the data model on a response body. *)
Definition within (n : nat) (v : value) : Prop :=
  match len v with
  | Some k => k <= n
  | None => False
  end.

Definition capped (body : value) : Prop :=
  within 60 (get_opt body "title") /\
  within 300 (get_opt body "summary") /\
  within 5 (get_opt body "tags").

(** A scraped Instagram post whose description runs to 301 characters. *)
Definition long_post : value :=
  VObj [ ("url", VStr "https://www.instagram.com/p/Cx1a2b3/");
         ("title", VStr "Sunset timelapse from the pier");
         ("description", VStr (Str.replicate 301 "a")) ].

(** The payload of an image or text request, or none. *)
Definition payload (c : option string) : value :=
  match c with
  | Some s => VStr s
  | None => VUndef
  end.

Definition fallback_text (c : option string) : value :=
  match c with
  | Some s =>
      fallback
        (or_else (VStr (Str.take 60 (Str.first_piece Str.newline s)))
           (VStr "Quick Note"))
        (or_else (VStr (Str.take 200 s)) (VStr "Note saved successfully."))
        ["note"; "saved"]
  | None =>
      fallback (VStr "Quick Note") (VStr "Note saved successfully.")
        ["note"; "saved"]
  end.

Definition fallback_link : value :=
  fallback (VStr "Saved Link")
    (VStr "Link saved successfully for later reference.") ["link"; "saved"].

End Analyze.

(** ** Source Resolver: [POST /api/scrape] *)
Module Scrape.
Import JS.

(** [url.startsWith('http') ? url : `https://${url}`]. *)
Definition full_url (url : string) : string :=
  if Str.startsWith "http" url then url else "https://" ++ url.

(** What [fetch] and the HTML parser hand back for a page: the [ok]
    flag, the final URL, the text of the [title] element and the two
    description metas ([None] when the attribute is absent). *)
Record page : Type := mkPage {
  page_ok : bool;
  page_url : string;
  page_title : string;
  meta_description : option string;
  og_description : option string
}.

(** [x?.trim()?.substring(0, n)] on an optional string. *)
Definition clip (n : nat) (x : option string) : value :=
  match x with
  | Some s => VStr (Str.take n (Str.trim s))
  | None => VUndef
  end.

Definition on_instagram (fullUrl : string) : bool :=
  Str.includes "instagram.com" fullUrl || Str.includes "instagr.am" fullUrl.

Definition degraded (url : value) : outcome Http.response :=
  u <- to_string url ;;
  Ok (Http.json (VObj [ ("title", VStr "Saved Link");
                        ("description", VStr ("Link saved: " ++ u));
                        ("url", url) ])).

Section Handler.

(** [web u] is what fetching and parsing [u] gives, or the exception it
    raised; [relay u] is the JSON body the dedicated Instagram scraper
    answered for [u], or the exception of that call. *)
Variable web : string -> outcome page.
Variable relay : string -> outcome value.

Definition scrape_try (url : value) : outcome Http.response :=
  match url with
  | VStr u =>
      let fullUrl := full_url u in
      if on_instagram fullUrl then
        data <- relay fullUrl ;;
        Ok (Http.json data)
      else
        p <- web fullUrl ;;
        if negb (page_ok p) then Throw (Error "HTTP")
        else
          Ok (Http.json (VObj
            [ ("title", or_else (clip 100 (Some (page_title p))) (VStr "Untitled"));
              ("description",
               or_else (clip 300 (meta_description p))
                 (or_else (clip 300 (og_description p)) (VStr "No description")));
              ("url", VStr (page_url p)) ]))
  | _ => Throw TypeError
  end.

Definition scrape (url : value) : outcome Http.response :=
  match scrape_try url with
  | Ok r => Ok r
  | Throw _ => degraded url
  end.

End Handler.



End Scrape.

(** ** Text metadata of the orchestrator *)
Module TextMeta.

(** [s.split(/\s+/)]: the pieces between maximal runs of whitespace;
    [in_run] tells that the previous character was part of a separator.
    The empty string splits into one empty piece. *)
Fixpoint split_ws_from (in_run : bool) (s : string) : list string :=
  match s with
  | "" => [""]
  | String c s' =>
      if Str.is_space c then
        if in_run then split_ws_from true s'
        else "" :: split_ws_from true s'
      else
        match split_ws_from false s' with
        | p :: ps => String c p :: ps
        | [] => [String c ""]
        end
  end.

Definition split_ws (s : string) : list string := split_ws_from false s.

(** [content.trim().split(/\s+/).length]. *)
Definition words (content : string) : nat :=
  List.length (split_ws (Str.trim content)).

(** [Math.max(1, Math.ceil(words / 200))]: the quotient of two integers
    below 2^53 is rounded up exactly. *)
Definition estimated_read_time (w : nat) : nat :=
  Nat.max 1 ((w + 199) / 200).

Definition metadata (content : string) : JS.value :=
  JS.VObj [ ("word_count", JS.nat_value (words content));
            ("char_count", JS.nat_value (String.length content));
            ("estimated_read_time",
             JS.nat_value (estimated_read_time (words content))) ].

(** The word count as the specification words it: the number of maximal
    runs of characters that are not whitespace. *)
Fixpoint count_words_from (in_word : bool) (s : string) : nat :=
  match s with
  | "" => 0
  | String c s' =>
      if Str.is_space c then count_words_from false s'
      else (if in_word then 0 else 1) + count_words_from true s'
  end.

Definition count_words (s : string) : nat := count_words_from false s.

(** Whether the last character of a string is whitespace. *)
Fixpoint ends_ws (s : string) : bool :=
  match s with
  | "" => false
  | String c "" => Str.is_space c
  | String _ s' => ends_ws s'
  end.

Definition is_empty (s : string) : bool :=
  match s with
  | "" => true
  | _ => false
  end.

End TextMeta.

(** ** Persistence Gateway: tables, queries and their interpretation *)
Module Store.
Import JS.

Record item : Type := mkItem {
  id : string;
  user_id : string;
  title : value;
  content_type : value;
  original_content : value;
  original_image_url : value;
  preview_data : value;
  content_metadata : value;
  ai_summary : value;
  ai_category : value;
  ai_tags : value;
  is_completed : bool;
  view_count : option Z;
  last_viewed_at : option string;
  created_at : string;
  updated_at : option string
}.

Record feature : Type := mkFeature {
  feature_id : string;
  feature_owner : string;
  feature_title : string;
  feature_description : value;
  votes_count : Z;
  feature_status : string;
  feature_category : string
}.

Record vote : Type := mkVote {
  vote_owner : string;
  vote_feature : string;
  vote_type : string
}.

Record db : Type := mkDb {
  saved_items : list item;
  feature_votes : list feature;
  user_votes : list vote
}.

Inductive action : Type := Select | Insert | Update | Delete | Rpc.

Inductive clause : Type :=
| Eq (column operand : string)
| Ilike (column pattern : string).

Record query : Type := mkQuery {
  table : string;
  act : action;
  filters : list clause
}.

(** What a request does outside the process, in order: credential
    checks at the identity provider and queries at the row store. *)
Inductive event : Type :=
| Verify (token : string)
| Query (q : query).

Record world : Type := mkWorld { data : db; log : list event }.

Definition emit (e : event) (w : world) : world :=
  mkWorld (data w) (log w ++ [e]).

Definition with_data (d : db) (w : world) : world := mkWorld d (log w).

(** [ILIKE]: [%] matches any run of characters, [_] any one character,
    a backslash escapes the character after it, and letters compare
    without case.  A pattern that ends in a lone backslash is an error
    at the store and matches nothing here. *)
Fixpoint like (p s : string) {struct p} : bool :=
  match p with
  | "" => match s with "" => true | _ => false end
  | String c p' =>
      if Ascii.eqb c "%" then
        (fix star (s : string) : bool :=
           like p' s ||
           match s with
           | "" => false
           | String _ s' => star s'
           end) s
      else if Ascii.eqb c "_" then
        match s with
        | String _ s' => like p' s'
        | "" => false
        end
      else if Ascii.eqb c "\" then
        match p', s with
        | String e p'', String a s' =>
            Ascii.eqb (Str.lower e) (Str.lower a) && like p'' s'
        | _, _ => false
        end
      else
        match s with
        | String a s' => Ascii.eqb (Str.lower c) (Str.lower a) && like p' s'
        | "" => false
        end
  end.

(** The gateway reads [*] in the operand of a pattern filter as [%]. *)
Fixpoint star_to_percent (p : string) : string :=
  match p with
  | "" => ""
  | String c p' =>
      String (if Ascii.eqb c "*" then "%"%char else c) (star_to_percent p')
  end.

Definition ilike (pattern s : string) : bool := like (star_to_percent pattern) s.

Definition holds (col : string -> option string) (f : clause) : bool :=
  match f with
  | Eq c v => match col c with Some x => x =? v | None => false end
  | Ilike c p => match col c with Some x => ilike p x | None => false end
  end.

Definition keep {R} (col : R -> string -> option string)
    (fs : list clause) (r : R) : bool :=
  forallb (holds (col r)) fs.

Definition item_col (it : item) (c : string) : option string :=
  if c =? "id" then Some (id it)
  else if c =? "user_id" then Some (user_id it)
  else if c =? "ai_category" then
    match ai_category it with VStr x => Some x | _ => None end
  else None.

Definition feature_col (f : feature) (c : string) : option string :=
  if c =? "id" then Some (feature_id f)
  else if c =? "user_id" then Some (feature_owner f)
  else if c =? "feature_title" then Some (feature_title f)
  else None.

Definition vote_col (v : vote) (c : string) : option string :=
  if c =? "user_id" then Some (vote_owner v)
  else if c =? "feature_id" then Some (vote_feature v)
  else None.

(** [.single()]: exactly one row, or the error [PGRST116]. *)
Definition single {R} (rows : list R) : option R :=
  match rows with
  | [r] => Some r
  | _ => None
  end.

Definition amend {R} (hit : R -> bool) (f : R -> R) (rows : list R) : list R :=
  map (fun r => if hit r then f r else r) rows.

Definition set_items (l : list item) (d : db) : db :=
  mkDb l (feature_votes d) (user_votes d).
Definition set_features (l : list feature) (d : db) : db :=
  mkDb (saved_items d) l (user_votes d).
Definition set_votes (l : list vote) (d : db) : db :=
  mkDb (saved_items d) (feature_votes d) l.

(** *** Queries on [saved_items] *)

Definition select_items (fs : list clause) (w : world) : list item * world :=
  (filter (keep item_col fs) (saved_items (data w)),
   emit (Query (mkQuery "saved_items" Select fs)) w).

Definition update_items (fs : list clause) (f : item -> item) (w : world)
  : world :=
  let w' := emit (Query (mkQuery "saved_items" Update fs)) w in
  with_data (set_items (amend (keep item_col fs) f (saved_items (data w)))
               (data w)) w'.

(** [update(...).eq(...).select().single()]: the statement and the read
    of its result are one request; when the result is not exactly one
    row the request fails and leaves the table as it was. *)
Definition update_item_single (fs : list clause) (f : item -> item) (w : world)
  : option item * world :=
  let w' := emit (Query (mkQuery "saved_items" Update fs)) w in
  match single (filter (keep item_col fs) (saved_items (data w))) with
  | Some it =>
      (Some (f it),
       with_data (set_items (amend (keep item_col fs) f (saved_items (data w)))
                    (data w)) w')
  | None => (None, w')
  end.

Definition delete_item_single (fs : list clause) (w : world)
  : option item * world :=
  let w' := emit (Query (mkQuery "saved_items" Delete fs)) w in
  match single (filter (keep item_col fs) (saved_items (data w))) with
  | Some it =>
      (Some it,
       with_data (set_items
                    (filter (fun r => negb (keep item_col fs r))
                       (saved_items (data w)))
                    (data w)) w')
  | None => (None, w')
  end.

(** [insert(...).select().single()]: [accepted] tells whether the store
    takes the row; a refused insert is an error reply and leaves the
    table as it was. *)
Definition insert_item (accepted : bool) (it : item) (w : world)
  : option item * world :=
  let w' := emit (Query (mkQuery "saved_items" Insert [])) w in
  if accepted
  then (Some it,
        with_data (set_items (saved_items (data w) ++ [it]) (data w)) w')
  else (None, w').

(** [.order('created_at', { ascending: false })]. *)
Fixpoint place (it : item) (l : list item) : list item :=
  match l with
  | [] => [it]
  | x :: rest =>
      if String.leb (created_at x) (created_at it) then it :: l
      else x :: place it rest
  end.

Definition newest_first (l : list item) : list item :=
  fold_right place [] l.

Definition opt_value (o : option string) : value :=
  match o with
  | Some x => VStr x
  | None => VNull
  end.

Definition item_json (it : item) : value :=
  VObj [ ("id", VStr (id it));
         ("user_id", VStr (user_id it));
         ("title", title it);
         ("content_type", content_type it);
         ("original_content", original_content it);
         ("original_image_url", original_image_url it);
         ("preview_data", preview_data it);
         ("content_metadata", content_metadata it);
         ("ai_summary", ai_summary it);
         ("ai_category", ai_category it);
         ("ai_tags", ai_tags it);
         ("is_completed", VBool (is_completed it));
         ("view_count",
          match view_count it with Some n => VNum n | None => VNull end);
         ("last_viewed_at", opt_value (last_viewed_at it));
         ("created_at", VStr (created_at it));
         ("updated_at", opt_value (updated_at it)) ].

End Store.

(** ** Access Control Layer: [authenticateUser] *)
Module Auth.
Import JS Store.

Definition denied (msg code : string) : Http.response :=
  Http.status_json 401 (VObj [("error", VStr msg); ("code", VStr code)]).

Definition no_credential : Http.response :=
  denied "Authentication required. Please provide a valid token." "NO_AUTH_TOKEN".

Section Middleware.

(** [supabase.auth.getUser(token)]: the verified e-mail of the user,
    [None] when the provider reports an error or no user, [Throw] when
    the call itself fails. *)
Variable getUser : string -> outcome (option string).

(** The middleware runs [next] with the verified e-mail as [req.userId]
    or answers 401 itself. *)
Definition authenticateUser (authorization : option string)
    (next : string -> world -> Http.response * world) (w : world)
  : Http.response * world :=
  match authorization with
  | Some header =>
      if negb (header =? "") && Str.startsWith "Bearer " header then
        let token := Str.drop 7 header in
        let w1 := emit (Verify token) w in
        match getUser token with
        | Ok (Some email) => next email w1
        | Ok None =>
            (denied "Invalid or expired authentication token. Please sign in again."
               "INVALID_TOKEN", w1)
        | Throw _ =>
            (denied "Authentication failed. Please sign in again." "AUTH_ERROR", w1)
        end
      else (no_credential, w)
  | None => (no_credential, w)
  end.

End Middleware.
End Auth.

(** ** The protected routes on saved items *)
Module Items.
Import JS Store.

(** [/^[0-9a-f]{8}-[0-9a-f]{4}-[0-9a-f]{4}-[0-9a-f]{4}-[0-9a-f]{12}$/i]. *)
Definition is_hex (c : ascii) : bool :=
  Str.is_digit c || Str.in_range 97 102 c || Str.in_range 65 70 c.

Fixpoint hexes (n : nat) (s : string) : option string :=
  match n with
  | 0 => Some s
  | S k =>
      match s with
      | String c s' => if is_hex c then hexes k s' else None
      | "" => None
      end
  end.

Fixpoint groups (gs : list nat) (s : string) : bool :=
  match gs with
  | [] => false
  | [n] => match hexes n s with Some "" => true | _ => false end
  | n :: rest =>
      match hexes n s with
      | Some (String c s') => Ascii.eqb c "-" && groups rest s'
      | _ => false
      end
  end.

Definition uuid_test (s : string) : bool := groups [8; 4; 4; 4; 12] s.

Definition not_found : Http.response :=
  Http.status_json 404
    (VObj [ ("error", VStr "Item not found or access denied");
            ("details", VStr "Either the item does not exist or you do not have permission to modify it") ]).

Definition success (d : value) : Http.response :=
  Http.json (VObj [("success", VBool true); ("data", d)]).

Definition is_bool (v : value) : bool :=
  match v with
  | VBool _ => true
  | _ => false
  end.

Definition owned (itemId userId : string) : list clause :=
  [Eq "id" itemId; Eq "user_id" userId].

(** [GET /api/saved-items]. *)
Definition get_saved_items (category : value) (userId : string) (w : world)
  : Http.response * world :=
  let scoped :=
    if truthy category && negb (is_str "all" category)
    then c <- to_string category ;; Ok [Eq "user_id" userId; Eq "ai_category" c]
    else Ok [Eq "user_id" userId] in
  match scoped with
  | Ok fs =>
      let '(rows, w') := select_items fs w in
      (Http.json (VObj [("data", VArr (map item_json (newest_first rows)))]), w')
  | Throw _ => (Http.status_json 500 (Http.error_body "Failed to fetch items"), w)
  end.

Section Clock.

(** [new Date().toISOString()] at the time of the request. *)
Variable now : string.

Definition invalid_format (received : string) (hint : bool) : Http.response :=
  Http.status_json 400
    (VObj ([ ("error", VStr "Invalid itemId format: must be a valid UUID");
             ("received", VStr received) ]
           ++ if hint
              then [("hint", VStr "Expected format: xxxxxxxx-xxxx-xxxx-xxxx-xxxxxxxxxxxx")]
              else [])).

(** [PATCH /api/toggle-completion].  The 500 bodies of the routes carry
    the engine's message of the exception besides the [error] field; the
    model keeps the [error] field. *)
Definition toggle_completion (itemId completed : value) (userId : string)
    (w : world) : Http.response * world :=
  if negb (truthy itemId) || negb (is_bool completed) then
    (Http.status_json 400
       (Http.error_body "Invalid request: itemId and completed (boolean) are required"), w)
  else
    match to_string itemId with
    | Throw _ =>
        (Http.status_json 500 (Http.error_body "Failed to toggle completion"), w)
    | Ok itemIdString =>
        if negb (uuid_test itemIdString) then (invalid_format itemIdString true, w)
        else
          let flip it :=
            mkItem (id it) (user_id it) (title it) (content_type it)
              (original_content it) (original_image_url it) (preview_data it)
              (content_metadata it) (ai_summary it) (ai_category it) (ai_tags it)
              (truthy completed) (view_count it) (last_viewed_at it)
              (created_at it) (Some now) in
          match update_item_single (owned itemIdString userId) flip w with
          | (Some row, w') => (success (item_json row), w')
          | (None, w') => (not_found, w')
          end
    end.

(** [PATCH /api/update-title]. *)
Definition update_title (itemId : value) (new_title : option string)
    (userId : string) (w : world) : Http.response * world :=
  if negb (truthy itemId) then
    (Http.status_json 400 (Http.error_body "itemId is required"), w)
  else
    match new_title with
    | None | Some "" =>
        (Http.status_json 400 (Http.error_body "Title cannot be empty"), w)
    | Some t =>
        if (100 <? String.length t)%nat then
          (Http.status_json 400
             (Http.error_body "Title too long (max 100 characters)"), w)
        else
          match to_string itemId with
          | Throw _ =>
              (Http.status_json 500 (Http.error_body "Failed to update title"), w)
          | Ok itemIdString =>
              if negb (uuid_test itemIdString)
              then (invalid_format itemIdString false, w)
              else
                let rename it :=
                  mkItem (id it) (user_id it)
                    (VStr (Str.take 100 (Str.trim t))) (content_type it)
                    (original_content it) (original_image_url it)
                    (preview_data it) (content_metadata it) (ai_summary it)
                    (ai_category it) (ai_tags it) (is_completed it)
                    (view_count it) (last_viewed_at it) (created_at it)
                    (Some now) in
                match update_item_single (owned itemIdString userId) rename w with
                | (Some row, w') => (success (item_json row), w')
                | (None, w') => (not_found, w')
                end
          end
    end.

(** [DELETE /api/delete-item]: the filter operand is the interpolation
    of whatever [itemId] is. *)
Definition delete_item (itemId : value) (userId : string) (w : world)
  : Http.response * world :=
  match to_string itemId with
  | Throw _ => (Http.status_json 500 (Http.error_body "Failed to delete item"), w)
  | Ok i =>
      match delete_item_single (owned i userId) w with
      | (Some row, w') => (success (item_json row), w')
      | (None, w') =>
          (Http.status_json 404 (Http.error_body "Item not found or access denied"), w')
      end
  end.

(** [(data.view_count || 0) + 1], an addition of doubles. *)
Definition next_view_count (seen : option Z) : Z :=
  match seen with
  | Some n => JS.add (if (n =? 0)%Z then 0%Z else n) 1
  | None => JS.add 0 1
  end.

(** The view count a detail fetch read, a missing one counting as
    zero. *)
Definition seen_count (it : item) : Z :=
  match view_count it with
  | Some n => n
  | None => 0%Z
  end.

(** [GET /api/item/:itemId].  The handler does not read the reply to
    its update: [counted] tells whether the store carried the update
    out; where it did not, the statement was sent and the table is as it
    was. *)
Definition get_item (counted : bool) (itemId : string) (userId : string)
    (w : world) : Http.response * world :=
  let '(rows, w1) := select_items (owned itemId userId) w in
  match single rows with
  | None =>
      (Http.status_json 404 (Http.error_body "Item not found or access denied"), w1)
  | Some it =>
      let viewed x :=
        mkItem (id x) (user_id x) (title x) (content_type x)
          (original_content x) (original_image_url x) (preview_data x)
          (content_metadata x) (ai_summary x) (ai_category x) (ai_tags x)
          (is_completed x) (Some (next_view_count (view_count it)))
          (Some now) (created_at x) (updated_at x) in
      (success (item_json it),
       if counted then update_items (owned itemId userId) viewed w1
       else emit (Query (mkQuery "saved_items" Update (owned itemId userId))) w1)
  end.

End Clock.
End Items.

(** ** Ingestion Orchestrator: [POST /api/process-content] *)
Module Orchestrator.
Import JS Store.

Section Collaborators.

Variable now : string.
(** The identifier the table gives a new row. *)
Variable fresh_id : string.
(** The JSON bodies the service's own upload, scrape and analyze routes
    answered, or the exception the call raised. *)
Variable upload : outcome value.
Variable scraped : outcome value.
Variable analysis : outcome value.
(** [new URL(x)]: host name and protocol, or the exception. *)
Variable url_parts : value -> outcome (string * string).
(** Whether the store takes the new row. *)
Variable accepted : bool.

(** [Math.round(n * 0.75)]; a length that is not a number gives no
    size. *)
Definition file_size (n : value) : value :=
  match n with
  | VNum k => VNum ((3 * k + 2) / 4)
  | _ => VNull
  end.

Record gathered : Type := mkGathered {
  processedContent : value;
  imageUrl : value;
  previewData : value;
  contentMetadata : value
}.

Definition gather_image (content : value) : outcome gathered :=
  up <- upload ;;
  ok <- get up "success" ;;
  stored <- (if truthy ok then
               u <- get up "url" ;;
               path <- get up "path" ;;
               n <- get content "length" ;;
               Ok (u, VObj [ ("storage_path", path);
                             ("uploaded_at", VStr now);
                             ("file_size", file_size n) ])
             else Ok (VNull, VObj [])) ;;
  pc <- analysis ;;
  Ok (mkGathered pc (fst stored) VNull (snd stored)).

Definition gather_url (content : value) : outcome gathered :=
  sd <- scraped ;;
  let parsed :=
    u <- get sd "url" ;;
    hp <- url_parts u ;;
    t <- get sd "title" ;;
    d <- get sd "description" ;;
    Ok (VObj [ ("url", u);
               ("domain", VStr (fst hp));
               ("title", t);
               ("description", d);
               ("favicon",
                VStr ("https://www.google.com/s2/favicons?domain=" ++ fst hp ++ "&sz=64")) ],
        VObj [ ("domain", VStr (fst hp)); ("protocol", VStr (snd hp)) ]) in
  pm <- match parsed with
        | Ok x => Ok x
        | Throw _ =>
            t <- get sd "title" ;;
            d <- get sd "description" ;;
            Ok (VObj [("url", content); ("title", t); ("description", d)], VObj [])
        end ;;
  pc <- analysis ;;
  Ok (mkGathered pc VNull (fst pm) (snd pm)).

Definition gather_text (content : value) : outcome gathered :=
  pc <- analysis ;;
  match content with
  | VStr s => Ok (mkGathered pc VNull VNull (TextMeta.metadata s))
  | _ => Throw TypeError
  end.

Definition gather (content contentType : value) : outcome gathered :=
  if is_str "image" contentType then gather_image content
  else if is_str "url" contentType then gather_url content
  else gather_text content.

(** The row handed to the table; the columns the insert leaves out take
    the table defaults. *)
Definition new_row (content contentType : value) (userId : string)
    (g : gathered) : outcome item :=
  let pc := processedContent g in
  t <- get pc "title" ;;
  s <- get pc "summary" ;;
  c <- get pc "category" ;;
  tags <- get pc "tags" ;;
  Ok (mkItem fresh_id userId t contentType
        (if is_str "image" contentType then VNull else content)
        (imageUrl g) (previewData g) (contentMetadata g)
        s c tags false (Some 0%Z) None now None).

Definition process_content (content contentType : value) (userId : string)
    (w : world) : Http.response * world :=
  match (g <- gather content contentType ;; new_row content contentType userId g) with
  | Ok row =>
      match insert_item accepted row w with
      | (Some saved, w') => (Items.success (item_json saved), w')
      | (None, w') =>
          (Http.status_json 500
             (VObj [ ("success", VBool false);
                     ("error", VStr "Failed to save to database") ]), w')
      end
  | Throw _ =>
      (Http.status_json 500
         (VObj [ ("success", VBool false);
                 ("error", VStr "Failed to process content") ]), w)
  end.

End Collaborators.
End Orchestrator.

(** ** Feature suggestions and votes *)
Module Features.
Import JS Store.

Definition select_features (fs : list clause) (w : world)
  : list feature * world :=
  (filter (keep feature_col fs) (feature_votes (data w)),
   emit (Query (mkQuery "feature_votes" Select fs)) w).

Definition insert_feature (f : feature) (w : world) : feature * world :=
  let w' := emit (Query (mkQuery "feature_votes" Insert [])) w in
  (f, with_data (set_features (feature_votes (data w) ++ [f]) (data w)) w').

Definition update_features (fs : list clause) (f : feature -> feature)
    (w : world) : world :=
  let w' := emit (Query (mkQuery "feature_votes" Update fs)) w in
  with_data (set_features (amend (keep feature_col fs) f (feature_votes (data w)))
               (data w)) w'.

Definition select_votes (fs : list clause) (w : world) : list vote * world :=
  (filter (keep vote_col fs) (user_votes (data w)),
   emit (Query (mkQuery "user_votes" Select fs)) w).

Definition insert_vote (v : vote) (w : world) : world :=
  let w' := emit (Query (mkQuery "user_votes" Insert [])) w in
  with_data (set_votes (user_votes (data w) ++ [v]) (data w)) w'.

Definition delete_votes (fs : list clause) (w : world) : world :=
  let w' := emit (Query (mkQuery "user_votes" Delete fs)) w in
  with_data (set_votes (filter (fun v => negb (keep vote_col fs v))
                          (user_votes (data w))) (data w)) w'.

Definition update_votes (fs : list clause) (f : vote -> vote) (w : world)
  : world :=
  let w' := emit (Query (mkQuery "user_votes" Update fs)) w in
  with_data (set_votes (amend (keep vote_col fs) f (user_votes (data w)))
               (data w)) w'.

Definition add_votes (k : Z) (f : feature) : feature :=
  mkFeature (feature_id f) (feature_owner f) (feature_title f)
    (feature_description f) (votes_count f + k)%Z
    (feature_status f) (feature_category f).

Definition set_count (k : Z) (f : feature) : feature :=
  mkFeature (feature_id f) (feature_owner f) (feature_title f)
    (feature_description f) k (feature_status f) (feature_category f).

(** Modelled from the spec: the stored procedure [increment_votes] is
    not part of the sources; the specification calls it an atomic
    increment operation at the store, so it adds [increment_by] to the
    count of the feature it is given. *)
Definition increment_votes (fid : string) (increment_by : Z) (w : world)
  : world :=
  let w' := emit (Query (mkQuery "increment_votes" Rpc [Eq "feature_id" fid])) w in
  with_data (set_features
               (amend (keep feature_col [Eq "id" fid]) (add_votes increment_by)
                  (feature_votes (data w))) (data w)) w'.

Definition feature_json (f : feature) : value :=
  VObj [ ("id", VStr (feature_id f));
         ("user_id", VStr (feature_owner f));
         ("feature_title", VStr (feature_title f));
         ("feature_description", feature_description f);
         ("votes_count", VNum (votes_count f));
         ("status", VStr (feature_status f));
         ("category", VStr (feature_category f)) ].

(** [POST /api/features]. *)
Definition submit_feature (fresh_id : string)
    (title description : option string) (userId : string) (w : world)
  : Http.response * world :=
  match title with
  | None =>
      (Http.status_json 400 (Http.error_body "Feature title is required"), w)
  | Some t =>
      if (String.length (Str.trim t) =? 0)%nat then
        (Http.status_json 400 (Http.error_body "Feature title is required"), w)
      else if (100 <? String.length t)%nat then
        (Http.status_json 400
           (Http.error_body "Title too long (max 100 characters)"), w)
      else if match description with
              | Some d => (500 <? String.length d)%nat
              | None => false
              end then
        (Http.status_json 400
           (Http.error_body "Description too long (max 500 characters)"), w)
      else
        let '(existing, w1) :=
          select_features [Ilike "feature_title" ("%" ++ Str.trim t ++ "%")] w in
        match firstn 1 existing with
        | _ :: _ =>
            (Http.status_json 409
               (Http.error_body "Similar feature suggestion already exists"), w1)
        | [] =>
            let described :=
              match description with
              | Some d => or_else (VStr (Str.trim d)) VNull
              | None => VNull
              end in
            let '(row, w2) :=
              insert_feature
                (mkFeature fresh_id userId (Str.trim t) described 1%Z
                   "suggested" "other") w1 in
            let w3 := insert_vote (mkVote userId (feature_id row) "upvote") w2 in
            (Items.success (feature_json row), w3)
        end
  end.

(** The duplicate test as the specification words it: the trimmed new
    title occurs in an existing title, letter case aside. *)
Definition ci_includes (needle hay : string) : bool :=
  Str.includes (Str.lowercase needle) (Str.lowercase hay).

(** The characters a pattern filter reads as themselves. *)
Definition plain_char (c : ascii) : bool :=
  negb (Ascii.eqb c "%" || Ascii.eqb c "_" || Ascii.eqb c "\" || Ascii.eqb c "*").

Definition plain (s : string) : bool := Str.all_chars plain_char s.


Definition described (d : option string) : value :=
  match d with
  | Some x => or_else (VStr (Str.trim x)) VNull
  | None => VNull
  end.

Definition or_zero (n : Z) : Z := if (n =? 0)%Z then 0%Z else n.

(** [POST /api/features/vote]; [rpc_ok] tells whether the call of
    [increment_votes] went through. *)
Definition vote_feature_handler (rpc_ok : bool) (fid_in vote_in : value)
    (userId : string) (w : world) : Http.response * world :=
  if negb (truthy fid_in) then
    (Http.status_json 400 (Http.error_body "feature_id is required"), w)
  else if negb (truthy vote_in)
          || negb (is_str "upvote" vote_in || is_str "downvote" vote_in) then
    (Http.status_json 400
       (Http.error_body "vote_type must be upvote or downvote"), w)
  else
    match to_string fid_in with
    | Throw _ =>
        (Http.status_json 500 (Http.error_body "Failed to process vote"), w)
    | Ok fid =>
        let up := is_str "upvote" vote_in in
        let vt := if up then "upvote" else "downvote" in
        let mine := [Eq "user_id" userId; Eq "feature_id" fid] in
        let '(rows, w1) := select_votes mine w in
        let '(voteChange, w2) :=
          match single rows with
          | Some existingVote =>
              if vote_type existingVote =? vt then
                (if up then (-1)%Z else 1%Z, delete_votes mine w1)
              else
                (if up then 2%Z else (-2)%Z,
                 update_votes mine
                   (fun v => mkVote (vote_owner v) (vote_feature v) vt) w1)
          | None =>
              (if up then 1%Z else (-1)%Z, insert_vote (mkVote userId fid vt) w1)
          end in
        let w3 :=
          if rpc_ok then increment_votes fid voteChange w2
          else
            let w2' :=
              emit (Query (mkQuery "increment_votes" Rpc [Eq "feature_id" fid])) w2 in
            let '(found, w2'') := select_features [Eq "id" fid] w2' in
            match single found with
            | Some featureData =>
                update_features [Eq "id" fid]
                  (set_count (Z.max 0 (or_zero (votes_count featureData) + voteChange)))
                  w2''
            | None => w2''
            end in
        (Http.json (VObj [ ("success", VBool true);
                           ("vote_change", VNum voteChange) ]), w3)
    end.


Definition mine (userId fid : string) : list clause :=
  [Eq "user_id" userId; Eq "feature_id" fid].





End Features.

(** ** The routes: middleware, then handler *)
Module Api.
Import JS Store.

Section Routes.

Variable getUser : string -> outcome (option string).
Variable now : string.

Definition saved_items (authorization : option string) (category : value) :=
  Auth.authenticateUser getUser authorization (Items.get_saved_items category).

Definition process_content (fresh_id : string)
    (upload scraped analysis : outcome value)
    (url_parts : value -> outcome (string * string)) (accepted : bool)
    (authorization : option string) (content contentType : value) :=
  Auth.authenticateUser getUser authorization
    (Orchestrator.process_content now fresh_id upload scraped analysis
       url_parts accepted content contentType).

Definition toggle_completion (authorization : option string)
    (itemId completed : value) :=
  Auth.authenticateUser getUser authorization
    (Items.toggle_completion now itemId completed).

Definition update_title (authorization : option string) (itemId : value)
    (title : option string) :=
  Auth.authenticateUser getUser authorization
    (Items.update_title now itemId title).

Definition delete_item (authorization : option string) (itemId : value) :=
  Auth.authenticateUser getUser authorization (Items.delete_item itemId).

Definition item (counted : bool) (authorization : option string)
    (itemId : string) :=
  Auth.authenticateUser getUser authorization
    (Items.get_item now counted itemId).

Definition submit_feature (fresh_id : string) (authorization : option string)
    (title description : option string) :=
  Auth.authenticateUser getUser authorization
    (Features.submit_feature fresh_id title description).

Definition vote (rpc_ok : bool) (authorization : option string)
    (feature_id vote_type : value) :=
  Auth.authenticateUser getUser authorization
    (Features.vote_feature_handler rpc_ok feature_id vote_type).

End Routes.

(** A request bears no bearer credential when the header is absent or
    does not open with [Bearer ]. *)
Definition no_bearer (authorization : option string) : bool :=
  match authorization with
  | None => true
  | Some header => negb (Str.startsWith "Bearer " header)
  end.

Definition bearer (token : string) : option string := Some ("Bearer " ++ token).

(** The store queries among the events of a world. *)
Fixpoint queries_of (l : list event) : list query :=
  match l with
  | [] => []
  | Query q :: rest => q :: queries_of rest
  | Verify _ :: rest => queries_of rest
  end.

Definition queries (w : world) : list query := queries_of (log w).

(** A read, update or delete is scoped by [(id, owner)] when both
    appear among its equality filters; a listing has no item to name and
    is scoped by the owner. *)
Definition by_owner (owner : string) (q : query) : Prop :=
  act q = Insert \/ In (Eq "user_id" owner) (filters q).





End Api.

(** ** A small deployment used by the examples *)
Module Demo.
Import JS Store.

Definition getUser (token : string) : outcome (option string) :=
  if token =? "token-ann" then Ok (Some "ann@example.com")
  else if token =? "token-bob" then Ok (Some "bob@example.com")
  else Ok None.

Definition now : string := "2025-01-15T10:00:00.000Z".

Definition item_id : string := "550e8400-e29b-41d4-a716-446655440000".

(** A note of Bob's, viewed twice so far. *)
Definition bobs_note : item :=
  mkItem item_id "bob@example.com" (VStr "Groceries") (VStr "text")
    (VStr "Buy milk") VNull VNull (VObj []) (VStr "Need to buy milk")
    (VStr "Shopping") (VArr [VStr "list"]) false (Some 2%Z) None
    "2025-01-10T08:00:00.000Z" None.

Definition world0 : world := mkWorld (mkDb [bobs_note] [] []) [].

(** The same note with 2^53 views on its counter. *)
Definition worn_note : item :=
  mkItem item_id "bob@example.com" (VStr "Groceries") (VStr "text")
    (VStr "Buy milk") VNull VNull (VObj []) (VStr "Need to buy milk")
    (VStr "Shopping") (VArr [VStr "list"]) false (Some (2 ^ 53)%Z) None
    "2025-01-10T08:00:00.000Z" None.

Definition worn_world : world := mkWorld (mkDb [worn_note] [] []) [].

(** Three suggestions of Bob's. *)
Definition dark_mode_support : feature :=
  mkFeature "f-1" "bob@example.com" "Dark Mode Support" VNull 3%Z
    "suggested" "other".
Definition offline_mode : feature :=
  mkFeature "f-2" "bob@example.com" "Offline-Mode" VNull 1%Z
    "suggested" "other".
Definition acdc : feature :=
  mkFeature "f-3" "bob@example.com" "AC\DC playlist import" VNull 1%Z
    "suggested" "other".

Definition world1 : world :=
  mkWorld (mkDb [] [dark_mode_support; offline_mode; acdc] []) [].

(** A suggestion whose title carries a small e with acute accent, code
    unit 233, and the same word in capitals, the accented letter being
    code unit 201. *)
Definition cafe_menu : feature :=
  mkFeature "f-4" "bob@example.com"
    ("caf" ++ String (ascii_of_nat 233) " menu") VNull 1%Z "suggested" "other".

Definition cafe_in_capitals : string := "CAF" ++ String (ascii_of_nat 201) "".

Definition world2 : world := mkWorld (mkDb [] [cafe_menu] []) [].

(** A run of the voting routes from an empty store: Ann suggests a
    feature, then turns her automatic upvote into a downvote while the
    stored procedure works; Bob then upvotes twice while it fails. *)
Definition empty_world : world := mkWorld (mkDb [] [] []) [].

Definition after_suggestion : world :=
  snd (Api.submit_feature getUser "f-1" (Api.bearer "token-ann")
         (Some "Dark Mode") None empty_world).






End Demo.

(** ** Repeated detail fetches *)
Module Journey.
Import Store.

Section Visits.

Variable getUser : string -> JS.outcome (option string).
Variables token itemId : string.

(** The world after one detail fetch of [itemId] at each of the times
    [times], in that order, all with the same credential, the store
    carrying out every update. *)
Definition visits (times : list string) (w : world) : world :=
  fold_left
    (fun w now => snd (Api.item getUser now true (Api.bearer token) itemId w))
    times w.

End Visits.



(** The row [it] with its view count and the time of its last view
    replaced. *)
Definition viewed (n : Z) (now : string) (it : item) : item :=
  mkItem (id it) (user_id it) (title it) (content_type it)
    (original_content it) (original_image_url it) (preview_data it)
    (content_metadata it) (ai_summary it) (ai_category it) (ai_tags it)
    (is_completed it) (Some n) (Some now) (created_at it) (updated_at it).




(** Whether a row is the one of [itemId] and [owner]. *)
Definition is_row (itemId owner : string) (it : item) : bool :=
  (id it =? itemId) && (user_id it =? owner).

End Journey.

(** ** Counting ballots *)
Module Ledger.
Import Store.

(** What a vote row is worth to its feature. *)
Definition weight (v : vote) : Z :=
  if vote_type v =? "upvote" then 1%Z
  else if vote_type v =? "downvote" then (-1)%Z
  else 0%Z.

(** Upvotes minus downvotes among the rows of the feature [fid]. *)
Fixpoint score (fid : string) (votes : list vote) : Z :=
  match votes with
  | [] => 0%Z
  | v :: rest =>
      ((if (vote_feature v =? fid)%string then weight v else 0)
       + score fid rest)%Z
  end.

End Ledger.

(** ** The Instagram scraper: [POST /api/scrape-instagram] *)
Module InstagramScraper.
Import JS.

(** The run of identifier characters at the head of [s]. *)
Fixpoint id_run (s : string) : string :=
  match s with
  | String c s' => if Analyze.is_id_char c then String c (id_run s') else ""
  | "" => ""
  end.

Definition group_at (k : string) (s : string) : option (string * string) :=
  if Analyze.kind_at k s
  then Some (k, id_run (Str.drop (String.length ("/" ++ k ++ "/")) s))
  else None.

(** [url.match(/\/(p|reel|reels)\/([A-Za-z0-9_-]+)/)]: the two groups of
    the leftmost match. *)
Fixpoint post_match (s : string) : option (string * string) :=
  match group_at "p" s with
  | Some m => Some m
  | None =>
      match group_at "reel" s with
      | Some m => Some m
      | None =>
          match group_at "reels" s with
          | Some m => Some m
          | None =>
              match s with
              | "" => None
              | String _ s' => post_match s'
              end
          end
      end
  end.

(** [s.replace(/suf$/, '')] for a literal [suf]. *)
Definition strip_suffix (suf s : string) : string :=
  let n := String.length s - String.length suf in
  if Str.drop n s =? suf then Str.take n s else s.

(** The three replacements and the [trim] applied to the oEmbed
    title. *)
Definition clean_title (t : string) : string :=
  Str.trim
    (strip_suffix "Instagram"
       (Str.drop_last_if Str.dquote (Analyze.strip_branding t))).

(** What the oEmbed call hands back: the [ok] flag of the response and
    the result of reading its body as JSON. *)
Record oembed_reply : Type := mkReply {
  reply_ok : bool;
  reply_json : outcome value
}.

Definition generic (url : value) (postType : string) (postId : value)
  : Http.response :=
  Http.json (VObj
    [ ("title",
       VStr (if postType =? "reel" then "Instagram Reel" else "Instagram Post"));
      ("description",
       VStr ((if postType =? "reel" then "Video" else "Photo")
             ++ " content from Instagram"));
      ("url", url);
      ("thumbnail",
       VStr "https://www.instagram.com/static/images/ico/favicon-192.png/68d99ba29cc8.png");
      ("type", VStr "instagram");
      ("postType", VStr postType);
      ("postId", postId) ]).

Definition last_resort (url : value) : Http.response :=
  Http.json (VObj [ ("title", VStr "Instagram Content");
                    ("description", VStr "Saved from Instagram");
                    ("url", url);
                    ("type", VStr "instagram") ]).

(** The answer built from the oEmbed data. *)
Definition from_oembed (url : value) (postType : string) (postId : value)
    (oembedData : value) : outcome Http.response :=
  t0 <- get oembedData "title" ;;
  match or_else t0 (VStr "") with
  | VStr t =>
      let cleanTitle := clean_title t in
      author <- get oembedData "author_name" ;;
      cleanTitle <-
        (if (cleanTitle =? "") || (String.length cleanTitle <? 10)%nat
            || (cleanTitle =? "Instagram")
         then a <- to_string author ;;
              Ok (a ++ "'s " ++ (if postType =? "reel" then "Reel" else "Post"))
         else Ok cleanTitle) ;;
      thumbnail <- get oembedData "thumbnail_url" ;;
      Ok (Http.json (VObj
        [ ("title", VStr cleanTitle);
          ("description", VStr cleanTitle);
          ("url", url);
          ("thumbnail", thumbnail);
          ("author", author);
          ("type", VStr "instagram");
          ("postType", VStr postType);
          ("postId", postId) ]))
  | _ => Throw TypeError
  end.

Section Handler.

(** [oembed u] is what the oEmbed endpoint answers for the link [u], or
    the exception of the call. *)
Variable oembed : string -> outcome oembed_reply.

Definition scrape_instagram_try (url : value) : outcome Http.response :=
  a <- includes "instagram.com" url ;;
  isInstagram <- (if a then Ok true else includes "instagr.am" url) ;;
  if negb isInstagram then
    Ok (Http.status_json 400 (Http.error_body "Not an Instagram URL"))
  else
    match url with
    | VStr u =>
        let postMatch := post_match u in
        let postType :=
          match postMatch with Some (k, _) => k | None => "post" end in
        let postId :=
          match postMatch with Some (_, i) => VStr i | None => VNull end in
        let attempt :=
          r <- oembed u ;;
          if reply_ok r then
            oembedData <- reply_json r ;;
            resp <- from_oembed url postType postId oembedData ;;
            Ok (Some resp)
          else Ok None in
        match attempt with
        | Ok (Some resp) => Ok resp
        | Ok None | Throw _ => Ok (generic url postType postId)
        end
    | _ => Throw TypeError
    end.

Definition scrape_instagram (url : value) : Http.response :=
  match scrape_instagram_try url with
  | Ok r => r
  | Throw _ => last_resort url
  end.

End Handler.

(** An answer of the scraper that presents a post: status 200, the type
    [instagram], the link as it was submitted and a non-empty title. *)
Definition presents (url : value) (r : Http.response) : Prop :=
  Http.status r = 200 /\
  get_opt (Http.body r) "type" = VStr "instagram" /\
  get_opt (Http.body r) "url" = url /\
  exists t, get_opt (Http.body r) "title" = VStr t /\ t <> "".

End InstagramScraper.

(** ** Image storage: [POST /api/storage/upload-image] *)
Module Storage.
Import JS.

(** [\w]. *)
Definition is_word (c : ascii) : bool :=
  Str.is_upper c || Str.is_lower c || Str.is_digit c || Ascii.eqb c "_".

Fixpoint word_run (s : string) : nat :=
  match s with
  | String c s' => if is_word c then S (word_run s') else 0
  | "" => 0
  end.

(** [s.replace(/^data:image\/\w+;base64,/, '')]: the run of word
    characters is taken whole, since the character after it has to be
    the semicolon. *)
Definition strip_data_url (s : string) : string :=
  if prefix "data:image/" s then
    let rest := Str.drop 11 s in
    let n := word_run rest in
    if (0 <? n)%nat && prefix ";base64," (Str.drop n rest)
    then Str.drop (n + 8) rest
    else s
  else s.




Section Handler.

(** [Buffer.from(_, 'base64')], [Date.now()] in digits and
    [getPublicUrl]. *)
Variable decode : string -> string.
Variable millis : string.
Variable public_url : string -> string.


End Handler.
End Storage.

(** ** Link previews: [GET /api/url-preview] *)
Module Preview.
Import JS.

(** What the HTML parser finds in a fetched page: the [ok] flag of the
    response, the [content] of the metas ([None] when the attribute is
    absent) and the text of the [title] element. *)
Record page : Type := mkPage {
  page_ok : bool;
  og_title : option string;
  twitter_title : option string;
  title_text : string;
  og_description : option string;
  twitter_description : option string;
  meta_description : option string;
  og_image : option string;
  twitter_image : option string;
  og_site_name : option string
}.

(** [attr('content')] as a value. *)
Definition attr (x : option string) : value :=
  match x with
  | Some s => VStr s
  | None => VUndef
  end.

(** [v.trim().substring(0, n)]. *)
Definition tidy (n : nat) (v : value) : outcome value :=
  match v with
  | VStr s => Ok (VStr (Str.take n (Str.trim s)))
  | _ => Throw TypeError
  end.

Definition required : Http.response :=
  Http.status_json 400
    (VObj [("success", VBool false); ("error", VStr "URL is required")]).

Definition answer (preview : value) : Http.response :=
  Http.json (VObj [("success", VBool true); ("preview", preview)]).

Definition basic (siteName : string) (url : value) : value :=
  VObj [ ("title", VStr "Link Preview");
         ("description", VStr "Preview not available for this link");
         ("image", VNull);
         ("siteName", VStr siteName);
         ("url", url) ].

Section Handler.

(** [web u] is what fetching and parsing [u] gives, or the exception it
    raised; [hostname x] is [new URL(x).hostname], or its exception. *)
Variable web : string -> outcome page.
Variable hostname : value -> outcome string.

Definition preview_try (url : value) : outcome Http.response :=
  match url with
  | VStr u =>
      let fullUrl := Scrape.full_url u in
      p <- web fullUrl ;;
      if negb (page_ok p) then Throw (Error "HTTP")
      else
        let title :=
          or_else (attr (og_title p))
            (or_else (attr (twitter_title p))
               (or_else (VStr (title_text p)) (VStr "No title"))) in
        let description :=
          or_else (attr (og_description p))
            (or_else (attr (twitter_description p))
               (or_else (attr (meta_description p))
                  (VStr "No description available"))) in
        let image :=
          or_else (attr (og_image p)) (or_else (attr (twitter_image p)) VNull) in
        siteName <- (if truthy (attr (og_site_name p))
                     then Ok (attr (og_site_name p))
                     else h <- hostname (VStr fullUrl) ;; Ok (VStr h)) ;;
        title <- tidy 100 title ;;
        description <- tidy 200 description ;;
        Ok (answer (VObj [ ("title", title);
                           ("description", description);
                           ("image", image);
                           ("siteName", siteName);
                           ("url", VStr fullUrl) ]))
  | _ => Throw TypeError
  end.

(** A [Throw] of the handler is the rejection of its promise: the
    handler has sent nothing. *)
Definition url_preview (url : value) : outcome Http.response :=
  if negb (truthy url) then Ok required
  else
    match preview_try url with
    | Ok r => Ok r
    | Throw _ =>
        h <- hostname url ;;
        Ok (answer (basic h url))
    end.

End Handler.
End Preview.

(** ** Reading the feedback: [GET /api/feedback] *)
Module Feedback.
Import JS Store.


(** A row of [user_feedback]: its creation time and its JSON. *)
Record entry : Type := mkEntry {
  entry_created_at : string;
  entry_json : value
}.

(** [.order('created_at', { ascending: false })]. *)
Fixpoint place (e : entry) (l : list entry) : list entry :=
  match l with
  | [] => [e]
  | x :: rest =>
      if String.leb (entry_created_at x) (entry_created_at e) then e :: l
      else x :: place e rest
  end.

Definition newest_first (l : list entry) : list entry := fold_right place [] l.

Definition denied : Http.response :=
  Http.status_json 403 (Http.error_body "Access denied. Admin only.").



End Feedback.

(* ================================================================== *)
(** * Part II.  Properties *)
(* ================================================================== *)

(** ** Strings *)

Lemma append_nil_r (s : string) : s ++ "" = s.
Proof. induction s as [|c s IH]; simpl; [reflexivity | now rewrite IH]. Qed.


Lemma length_take (n : nat) (s : string) : String.length (Str.take n s) <= n.
Proof.
  unfold Str.take. revert s.
  induction n as [|n IH]; intros [|c s]; simpl; try lia.
  specialize (IH s). lia.
Qed.

Lemma has_char_append (c : ascii) (a b : string) :
  Str.has_char c (a ++ b) = Str.has_char c a || Str.has_char c b.
Proof.
  induction a as [|x a IH]; simpl; [reflexivity |].
  rewrite IH. now rewrite orb_assoc.
Qed.

(** ** The response normalizer *)

Lemma from_first_some (c : ascii) (s r : string) :
  Normalizer.from_first c s = Some r ->
  exists pre r', s = pre ++ r /\ r = String c r' /\ Str.has_char c pre = false.
Proof.
  induction s as [|a s IH]; simpl; [discriminate |].
  destruct (Ascii.eqb a c) eqn:E.
  - intros [= <-]. apply Ascii.eqb_eq in E. subst a.
    exists "", s. repeat split.
  - intros H. destruct (IH H) as (pre & r' & -> & -> & Hpre).
    exists (String a pre), r'. simpl. rewrite E, Hpre. repeat split.
Qed.

Lemma from_first_found (c : ascii) (pre r : string) :
  Str.has_char c pre = false ->
  Normalizer.from_first c (pre ++ String c r) = Some (String c r).
Proof.
  induction pre as [|a pre IH]; simpl.
  - now rewrite Ascii.eqb_refl.
  - intros H. apply orb_false_iff in H as [-> H]. auto.
Qed.

Lemma upto_last_none (c : ascii) (s : string) :
  Normalizer.upto_last c s = None <-> Str.has_char c s = false.
Proof.
  induction s as [|a s IH]; simpl; [tauto |].
  destruct (Normalizer.upto_last c s) as [r|].
  - split; [discriminate |]. intros H. apply orb_false_iff in H as [_ H].
    apply IH in H. discriminate.
  - destruct IH as [IH _]. rewrite (IH eq_refl), orb_false_r.
    destruct (Ascii.eqb a c); split; congruence.
Qed.

Lemma upto_last_some (c : ascii) (s m : string) :
  Normalizer.upto_last c s = Some m ->
  exists m' post, s = m ++ post /\ m = m' ++ String c "" /\
                  Str.has_char c post = false.
Proof.
  revert m. induction s as [|a s IH]; simpl; intros m; [discriminate |].
  destruct (Normalizer.upto_last c s) as [r|] eqn:E.
  - intros [= <-]. destruct (IH r eq_refl) as (m' & post & -> & -> & Hpost).
    exists (String a m'), post. repeat split; assumption.
  - destruct (Ascii.eqb a c) eqn:Ea; [|discriminate].
    intros [= <-]. apply Ascii.eqb_eq in Ea. subst a.
    exists "", s. repeat split. now apply upto_last_none.
Qed.

Lemma upto_last_found (c : ascii) (m' post : string) :
  Str.has_char c post = false ->
  Normalizer.upto_last c ((m' ++ String c "") ++ post) = Some (m' ++ String c "").
Proof.
  intros Hpost. induction m' as [|a m' IH]; simpl.
  - apply upto_last_none in Hpost. rewrite Hpost. now rewrite Ascii.eqb_refl.
  - now rewrite IH.
Qed.

(** The fallback match is the span from the first opening brace to the
    last closing brace. *)
Lemma brace_span_spec (t m : string) :
  Normalizer.brace_span t = Some m <->
  exists pre body post,
    t = pre ++ m ++ post /\ m = String "{" (body ++ "}") /\
    Str.has_char "{" pre = false /\ Str.has_char "}" post = false.
Proof.
  unfold Normalizer.brace_span. split.
  - destruct (Normalizer.from_first "{" t) as [r|] eqn:E; [|discriminate].
    intros H.
    destruct (from_first_some _ _ _ E) as (pre & r' & -> & -> & Hpre).
    destruct (upto_last_some _ _ _ H) as (m' & post & Hr & -> & Hpost).
    destruct m' as [|a m']; simpl in Hr; [discriminate |].
    injection Hr as <- Hr.
    exists pre, m', post. simpl. rewrite Hr. repeat split; assumption.
  - intros (pre & body & post & -> & -> & Hpre & Hpost).
    simpl. rewrite (from_first_found _ _ _ Hpre).
    change (String "{" ((body ++ "}") ++ post))
      with ((String "{" body ++ String "}" "") ++ post).
    now rewrite (upto_last_found _ _ _ Hpost).
Qed.

(** C4, as the specification words it, fails: on a text with two
    objects the code's fallback takes the span from the first opening
    brace to the last closing brace, which does not parse, and throws;
    the first balanced substring would have parsed. *)
Lemma cleanJSONResponse_not_first_balanced :
  Normalizer.brace_span "{} and {}" = Some "{} and {}" /\
  Normalizer.first_balanced "{} and {}" = Some "{}" /\
  Normalizer.cleanJSONResponse Normalizer.parse_empty_object
    (JS.VStr "Here: {} and {}") = JS.Throw Normalizer.parse_failure /\
  Normalizer.normalize_first_balanced Normalizer.parse_empty_object
    (JS.VStr "Here: {} and {}") = JS.Ok (JS.VObj []).
Proof. repeat split. Qed.

(** C4 (amended): on a text [s] the normalizer parses the text its
    fence-removal step leaves, the cleaned text, and on failure parses
    the span from the first opening brace to the last closing brace of
    the cleaned text.  It throws exactly when [s] is empty ("Empty
    response") or when the direct parse fails and the span is missing or
    does not parse ("Could not parse AI response as JSON").  The result
    is a function of the text alone.  What the fence-removal step takes
    out of the text is not part of this statement. *)
Theorem cleanJSONResponse_behaviour
    (JSON_parse : string -> option JS.value) (s : string) :
  let cleaned := Normalizer.cleaned s in
  let result := Normalizer.cleanJSONResponse JSON_parse (JS.VStr s) in
  (result = JS.Throw (JS.Error "Empty response") <-> s = "") /\
  (forall v, result = JS.Ok v <->
     s <> "" /\
     (JSON_parse cleaned = Some v \/
      JSON_parse cleaned = None /\
      exists m, Normalizer.brace_span cleaned = Some m /\ JSON_parse m = Some v)) /\
  (result = JS.Throw Normalizer.parse_failure <->
     s <> "" /\ JSON_parse cleaned = None /\
     forall m, Normalizer.brace_span cleaned = Some m -> JSON_parse m = None) /\
  (forall m, Normalizer.brace_span cleaned = Some m <->
     exists pre body post,
       cleaned = pre ++ m ++ post /\ m = String "{" (body ++ "}") /\
       Str.has_char "{" pre = false /\ Str.has_char "}" post = false).
Proof.
  intros cleaned result. subst result. unfold Normalizer.cleanJSONResponse.
  fold cleaned. simpl JS.truthy. rewrite negb_involutive.
  unfold Normalizer.parse_failure.
  split; [| split; [| split; [| intro m; apply brace_span_spec]]].
  - destruct (String.eqb_spec s "") as [-> | Hs]; [tauto |].
    split; [| congruence].
    destruct (JSON_parse cleaned); [discriminate |].
    destruct (Normalizer.brace_span cleaned) as [m0|]; [| discriminate].
    destruct (JSON_parse m0); discriminate.
  - intros v. destruct (String.eqb_spec s "") as [-> | Hs].
    { split; [discriminate | intros [H _]; now elim H]. }
    destruct (JSON_parse cleaned) as [v0|] eqn:P.
    { split; [intros [= <-]; auto | intros [_ [[= ->] | [[=] _]]]; reflexivity]. }
    destruct (Normalizer.brace_span cleaned) as [m0|] eqn:B.
    + destruct (JSON_parse m0) as [v1|] eqn:Q.
      * split.
        -- intros [= <-]. split; [assumption |]. right. split; [reflexivity |].
           now exists m0.
        -- intros [_ [[=] | [_ (m & [= <-] & Hm)]]]. congruence.
      * split; [discriminate |].
        intros [_ [[=] | [_ (m & [= <-] & Hm)]]]. congruence.
    + split; [discriminate |].
      intros [_ [[=] | [_ (m & [=] & _)]]].
  - destruct (String.eqb_spec s "") as [-> | Hs].
    { split; [discriminate | intros [H _]; now elim H]. }
    destruct (JSON_parse cleaned) as [v0|] eqn:P.
    { split; [discriminate | intros (_ & [=] & _)]. }
    destruct (Normalizer.brace_span cleaned) as [m0|] eqn:B.
    + destruct (JSON_parse m0) as [v1|] eqn:Q.
      * split; [discriminate |].
        intros (_ & _ & H). specialize (H m0 eq_refl). congruence.
      * split; [| reflexivity].
        intros _. repeat split; try assumption. now intros m [= <-].
    + split; [| reflexivity].
      intros _. repeat split; try assumption. discriminate.
Qed.

(** ** The content extractor *)

Lemma lookup_set_same (k : string) (v : JS.value) (fs : list (string * JS.value)) :
  JS.lookup k (JS.set_field k v fs) = v.
Proof.
  induction fs as [|[k' v'] fs IH]; simpl.
  - now rewrite String.eqb_refl.
  - destruct (k' =? k) eqn:E; simpl.
    + now rewrite String.eqb_refl.
    + now rewrite E.
Qed.

Lemma lookup_set_other (k k' : string) (v : JS.value)
    (fs : list (string * JS.value)) :
  k <> k' -> JS.lookup k (JS.set_field k' v fs) = JS.lookup k fs.
Proof.
  intros Hk. induction fs as [|[k0 v0] fs IH]; simpl.
  - destruct (String.eqb_spec k' k); [congruence | reflexivity].
  - destruct (String.eqb_spec k0 k') as [-> | Hne]; simpl.
    + destruct (String.eqb_spec k' k); [congruence |].
      destruct (String.eqb_spec k' k); [congruence | reflexivity].
    + destruct (String.eqb_spec k0 k); [reflexivity | assumption].
Qed.

Lemma within_substring0 (n : nat) (v r : JS.value) :
  JS.substring0 n v = JS.Ok r -> Analyze.within n r.
Proof.
  destruct v; simpl; try discriminate.
  intros [= <-]. unfold Analyze.within. simpl. apply length_take.
Qed.

Lemma within_slice0 (n : nat) (v r : JS.value) :
  JS.slice0 n v = JS.Ok r -> Analyze.within n r.
Proof.
  destruct v; simpl; try discriminate; intros [= <-]; unfold Analyze.within; simpl.
  - apply length_take.
  - rewrite length_firstn. lia.
Qed.

(** Whatever leaves the validation-and-cleanup step respects the three
    limits. *)
Lemma finish_capped (r : JS.value) (resp : Http.response) :
  Analyze.finish r = JS.Ok resp ->
  Http.status resp = 200 /\ Analyze.capped (Http.body resp).
Proof.
  unfold Analyze.finish.
  destruct r as [ | | b | n | s | l | fs]; simpl;
    try discriminate.
  destruct (negb (JS.truthy (JS.lookup "title" fs))
            || negb (JS.truthy (JS.lookup "category" fs))
            || negb (JS.truthy (JS.lookup "summary" fs))); [discriminate |].
  destruct (JS.substring0 60 (JS.lookup "title" fs)) as [t60|] eqn:T;
    simpl; [| discriminate].
  destruct (JS.substring0 300 (JS.lookup "summary" fs)) as [s300|] eqn:S;
    simpl; [| discriminate].
  destruct (JS.slice0 5 (JS.or_else (JS.lookup "tags" fs) (JS.VArr [])))
    as [tags5|] eqn:G; simpl; [| discriminate].
  intros [= <-]. split; [reflexivity |].
  unfold Analyze.capped, JS.get_opt. simpl.
  rewrite lookup_set_same.
  rewrite !lookup_set_other by discriminate.
  rewrite lookup_set_same.
  rewrite lookup_set_other by discriminate.
  rewrite lookup_set_same.
  split; [| split].
  - eapply within_substring0; eassumption.
  - eapply within_substring0; eassumption.
  - eapply within_slice0; eassumption.
Qed.

(** The Instagram branch keeps the title and the tags within their
    limits; it says nothing of the summary. *)
Lemma instagram_title_tags (content url : JS.value) (resp : Http.response) :
  Analyze.instagram content url = JS.Ok resp ->
  Http.status resp = 200 /\
  Analyze.within 60 (JS.get_opt (Http.body resp) "title") /\
  Analyze.within 5 (JS.get_opt (Http.body resp) "tags").
Proof.
  unfold Analyze.instagram. destruct url; try discriminate.
  repeat match goal with
         | |- context [JS.bind ?m _] =>
             let E := fresh "E" in
             destruct m eqn:E; simpl JS.bind; try discriminate
         end.
  intros [= <-]. split; [reflexivity |].
  unfold JS.get_opt. simpl. split.
  - eauto using within_substring0.
  - unfold Analyze.within. simpl. lia.
Qed.

(** Every answer of the [try] block comes from the cleanup step or from
    the Instagram branch, so its title and tags are within their
    limits. *)
Lemma analyze_try_title_tags (JSON_parse : string -> option JS.value)
    (content contentType : JS.value) (llm : JS.outcome JS.value)
    (resp : Http.response) :
  Analyze.analyze_try JSON_parse content contentType llm = JS.Ok resp ->
  Http.status resp = 200 /\
  Analyze.within 60 (JS.get_opt (Http.body resp) "title") /\
  Analyze.within 5 (JS.get_opt (Http.body resp) "tags").
Proof.
  assert (F : forall r, Analyze.finish r = JS.Ok resp ->
            Http.status resp = 200 /\
            Analyze.within 60 (JS.get_opt (Http.body resp) "title") /\
            Analyze.within 5 (JS.get_opt (Http.body resp) "tags")).
  { intros r H. apply finish_capped in H. unfold Analyze.capped in H. tauto. }
  unfold Analyze.analyze_try.
  destruct (JS.is_str "image" contentType).
  { destruct llm as [raw|]; simpl; [| discriminate].
    destruct (Normalizer.cleanJSONResponse JSON_parse raw); simpl;
      [apply F | discriminate]. }
  destruct (JS.is_str "url" contentType).
  { destruct (JS.get content "url") as [url|]; simpl; [| discriminate].
    destruct (Analyze.is_instagram url) as [[|]|]; simpl; try discriminate.
    - apply instagram_title_tags.
    - destruct llm as [raw|]; simpl; [| discriminate].
      destruct (Normalizer.cleanJSONResponse JSON_parse raw); simpl;
        [apply F | discriminate]. }
  destruct (JS.is_str "text" contentType).
  { destruct llm as [raw|]; simpl; [| discriminate].
    destruct (Normalizer.cleanJSONResponse JSON_parse raw); simpl;
      [apply F | discriminate]. }
  apply F.
Qed.

(** Outside the Instagram branch every answer of the handler respects
    the three limits; the catch block never answers, so every answer is
    one of the [try] block. *)
Lemma analyze_capped_unless_instagram
    (JSON_parse : string -> option JS.value)
    (content contentType : JS.value) (llm : JS.outcome JS.value)
    (resp : Http.response) :
  Analyze.analyze JSON_parse content contentType llm = JS.Ok resp ->
  Analyze.capped (Http.body resp) \/
  (JS.is_str "url" contentType = true /\
   exists url, JS.get content "url" = JS.Ok url /\
               Analyze.is_instagram url = JS.Ok true /\
               Analyze.instagram content url = JS.Ok resp).
Proof.
  unfold Analyze.analyze.
  destruct (Analyze.analyze_try JSON_parse content contentType llm)
    as [r|] eqn:E; [| discriminate].
  intros [= <-]. revert E. unfold Analyze.analyze_try.
  destruct (JS.is_str "image" contentType).
  { destruct llm as [raw|]; simpl; [| discriminate].
    destruct (Normalizer.cleanJSONResponse JSON_parse raw); simpl;
      [| discriminate].
    intros H. left. now apply finish_capped in H. }
  destruct (JS.is_str "url" contentType).
  { destruct (JS.get content "url") as [url|]; simpl; [| discriminate].
    destruct (Analyze.is_instagram url) as [[|]|] eqn:I; simpl;
      try discriminate.
    - intros H. right. split; [reflexivity |]. now exists url.
    - destruct llm as [raw|]; simpl; [| discriminate].
      destruct (Normalizer.cleanJSONResponse JSON_parse raw); simpl;
        [| discriminate].
      intros H. left. now apply finish_capped in H. }
  destruct (JS.is_str "text" contentType).
  { destruct llm as [raw|]; simpl; [| discriminate].
    destruct (Normalizer.cleanJSONResponse JSON_parse raw); simpl;
      [| discriminate].
    intros H. left. now apply finish_capped in H. }
  intros H. left. now apply finish_capped in H.
Qed.

(** C2: the claim fails on the Instagram branch.  For the scraped post
    [Analyze.long_post], whose description has 301 characters, the
    handler answers 200 whatever the model would have said, and the
    summary of the answer is the description in full. *)
Theorem analyze_instagram_summary_over_limit
    (JSON_parse : string -> option JS.value) (llm : JS.outcome JS.value) :
  exists body,
    Analyze.analyze JSON_parse Analyze.long_post (JS.VStr "url") llm
      = JS.Ok (Http.json body) /\
    JS.get_opt body "summary" = JS.VStr (Str.replicate 301 "a") /\
    JS.len (JS.get_opt body "summary") = Some 301 /\
    ~ Analyze.capped body.
Proof.
  eexists. split; [reflexivity |]. split; [reflexivity |].
  split; [reflexivity |].
  unfold Analyze.capped, Analyze.within.
  intros (_ & H & _). vm_compute in H. lia.
Qed.

Lemma within_or_else_take (n : nat) (s d : string) :
  String.length d <= n ->
  Analyze.within n (JS.or_else (JS.VStr (Str.take n s)) (JS.VStr d)).
Proof.
  intros Hd. unfold JS.or_else, Analyze.within.
  destruct (JS.truthy (JS.VStr (Str.take n s))); simpl;
    [apply length_take | assumption].
Qed.

Lemma within_or_else_take_le (n k : nat) (s d : string) :
  k <= n -> String.length d <= n ->
  Analyze.within n (JS.or_else (JS.VStr (Str.take k s)) (JS.VStr d)).
Proof.
  intros Hk Hd. unfold JS.or_else, Analyze.within.
  destruct (JS.truthy (JS.VStr (Str.take k s))); simpl; [| assumption].
  pose proof (length_take k s). lia.
Qed.

(** What the catch block is written to answer.  Read with
    [contentType] standing for the request's type [t] and [content] for
    the payload of an image or text request (a string, or nothing), its
    table gives the fallback record of the type: category "Other", one
    or two tags, a title of at most 60 characters.  For an image the
    record is fixed ("Saved Screenshot"); for a text note the title is
    the first 60 characters of its first line and the summary its first
    200 characters, with "Quick Note" and a fixed sentence when these are
    empty; for a url it is "Saved Link"; for any other type "Saved
    Content" with the single tag "saved".  The handler never gets that
    far, both identifiers being out of the block's scope. *)
Lemma analyze_catch_in_scope (c : option string) (t : string) :
  exists body,
    Analyze.analyze_catch (Analyze.Bound (Analyze.payload c))
      (Analyze.Bound (JS.VStr t)) = JS.Ok (Http.json body) /\
    body = (if t =? "image" then Analyze.fallback_image
            else if t =? "url" then Analyze.fallback_link
            else if t =? "text" then Analyze.fallback_text c
            else Analyze.fallback_other) /\
    JS.get_opt body "category" = JS.VStr "Other" /\
    Analyze.within 60 (JS.get_opt body "title") /\
    Analyze.within 300 (JS.get_opt body "summary") /\
    exists tags, JS.get_opt body "tags" = JS.VArr tags /\
                 1 <= List.length tags <= 2.
Proof.
  eexists. split; [| split; [reflexivity |]].
  - destruct c as [s|]; unfold Analyze.analyze_catch; simpl;
      destruct (t =? "image"); [reflexivity |  | reflexivity |];
      destruct (t =? "url"); [reflexivity |  | reflexivity |];
      destruct (t =? "text"); reflexivity.
  - destruct (t =? "image");
      [| destruct (t =? "url"); [| destruct (t =? "text")]].
    + repeat split; try (unfold Analyze.within; simpl; lia).
      eexists; split; [reflexivity | simpl; lia].
    + repeat split; try (unfold Analyze.within; simpl; lia).
      eexists; split; [reflexivity | simpl; lia].
    + destruct c as [s|]; unfold Analyze.fallback_text, Analyze.fallback,
        JS.get_opt; simpl.
      * repeat split.
        -- apply within_or_else_take. simpl. lia.
        -- apply within_or_else_take_le; simpl; lia.
        -- eexists; split; [reflexivity | simpl; lia].
      * repeat split; try (unfold Analyze.within; simpl; lia).
        eexists; split; [reflexivity | simpl; lia].
    + repeat split; try (unfold Analyze.within; simpl; lia).
      eexists; split; [reflexivity | simpl; lia].
Qed.

(** C3: the code at the failing input.  Whenever the [try] block of the
    extractor throws, be it on a failing model call, on a reply that
    does not parse or on a reply without its fields, the catch block
    does not get to its fallback table: it reads [content], declared by
    [const] inside the [try] block and so out of its scope, and throws
    [ReferenceError] in turn.  The handler sends no fallback record and
    no response of its own; the client gets what the framework makes of
    the rejected handler. *)
Theorem analyze_failure_sends_no_fallback
    (JSON_parse : string -> option JS.value)
    (content contentType : JS.value) (llm : JS.outcome JS.value)
    (e : JS.error) (unhandled : option Http.response) :
  Analyze.analyze_try JSON_parse content contentType llm = JS.Throw e ->
  let o := Analyze.analyze JSON_parse content contentType llm in
  o = JS.Throw JS.ReferenceError /\
  (forall body, o <> JS.Ok (Http.json body)) /\
  Http.delivered unhandled o = unhandled.
Proof.
  intros E o. subst o. unfold Analyze.analyze. rewrite E.
  cbn [Analyze.analyze_catch Analyze.read JS.bind Http.delivered].
  repeat split. discriminate.
Qed.

(** A screenshot is sent for analysis while the model cannot be reached:
    no "Saved Screenshot" record comes back. *)
Lemma screenshot_with_model_down :
  let o := Analyze.analyze Normalizer.parse_empty_object
             (JS.VStr "data:image/png;base64,iVBORw0KGgo=") (JS.VStr "image")
             (JS.Throw (JS.Error "model unavailable")) in
  o = JS.Throw JS.ReferenceError /\
  o <> JS.Ok (Http.json Analyze.fallback_image) /\
  Http.delivered None o = None.
Proof.
  destruct (analyze_failure_sends_no_fallback Normalizer.parse_empty_object
              (JS.VStr "data:image/png;base64,iVBORw0KGgo=") (JS.VStr "image")
              (JS.Throw (JS.Error "model unavailable"))
              (JS.Error "model unavailable") None eq_refl)
    as (H1 & H2 & H3).
  split; [exact H1 | split; [apply H2 | exact H3]].
Defined.

(** ** The source resolver *)



(** The scenario of the specification: [example.com] is fetched as
    [https://example.com], and when that fetch fails the answer is the
    degraded record for the raw input. *)
Example scrape_example_com (relay : string -> JS.outcome JS.value) :
  Scrape.full_url "example.com" = "https://example.com" /\
  Scrape.scrape
    (fun u => if u =? "https://example.com"
              then JS.Throw (JS.Error "fetch failed")
              else JS.Ok (Scrape.mkPage true u "" None None))
    relay (JS.VStr "example.com")
  = JS.Ok (Http.json (JS.VObj [ ("title", JS.VStr "Saved Link");
                                ("description", JS.VStr "Link saved: example.com");
                                ("url", JS.VStr "example.com") ])).
Proof. split; reflexivity. Qed.

(** ** Text metadata *)

Lemma split_ws_from_length (s : string) :
  List.length (TextMeta.split_ws_from false s)
    = 1 + TextMeta.count_words_from true s
        + (if TextMeta.ends_ws s then 1 else 0) /\
  List.length (TextMeta.split_ws_from true s)
    = TextMeta.count_words_from false s
        + (if TextMeta.ends_ws s || TextMeta.is_empty s then 1 else 0).
Proof.
  induction s as [|c s [IHf IHt]]; [split; reflexivity |].
  assert (E : TextMeta.ends_ws (String c s)
              = if TextMeta.is_empty s then Str.is_space c else TextMeta.ends_ws s)
    by (destruct s; reflexivity).
  rewrite E. simpl TextMeta.is_empty. rewrite orb_false_r.
  cbn [TextMeta.split_ws_from TextMeta.count_words_from].
  destruct (Str.is_space c) eqn:Hc.
  - cbn [List.length]. rewrite IHt.
    split; destruct (TextMeta.is_empty s), (TextMeta.ends_ws s); simpl; lia.
  - assert (L : List.length
                  match TextMeta.split_ws_from false s with
                  | [] => [String c ""]
                  | p :: ps => String c p :: ps
                  end = List.length (TextMeta.split_ws_from false s)).
    { destruct (TextMeta.split_ws_from false s) eqn:Es; [| reflexivity].
      simpl in IHf. lia. }
    rewrite L, IHf.
    split; (destruct s; [simpl; lia | cbn [TextMeta.is_empty]; lia]).
Qed.

Lemma ends_ws_trimEnd (s : string) : TextMeta.ends_ws (Str.trimEnd s) = false.
Proof.
  induction s as [|c s IH]; [reflexivity |]. simpl.
  destruct (Str.trimEnd s) as [|a r] eqn:E.
  - destruct (Str.is_space c) eqn:Hc; simpl; [reflexivity | assumption].
  - exact IH.
Qed.

Lemma count_words_cons (c : ascii) (x y : string) :
  (forall b, TextMeta.count_words_from b x = TextMeta.count_words_from b y) ->
  forall b, TextMeta.count_words_from b (String c x)
            = TextMeta.count_words_from b (String c y).
Proof. intros H b. simpl. destruct (Str.is_space c); now rewrite H. Qed.

Lemma count_words_trimEnd (b : bool) (s : string) :
  TextMeta.count_words_from b (Str.trimEnd s) = TextMeta.count_words_from b s.
Proof.
  revert b. induction s as [|c s IH]; intros b; [reflexivity |]. simpl Str.trimEnd.
  destruct (Str.trimEnd s) as [|a r] eqn:E.
  - destruct (Str.is_space c) eqn:Hc.
    + simpl. rewrite Hc. now rewrite <- IH.
    + now apply count_words_cons.
  - now apply count_words_cons.
Qed.

Lemma count_words_trimStart (s : string) :
  TextMeta.count_words_from false (Str.trimStart s)
    = TextMeta.count_words_from false s.
Proof.
  induction s as [|c s IH]; [reflexivity |]. simpl.
  destruct (Str.is_space c) eqn:Hc; [assumption |].
  simpl. now rewrite Hc.
Qed.

Lemma count_words_trim (s : string) :
  TextMeta.count_words (Str.trim s) = TextMeta.count_words s.
Proof.
  unfold TextMeta.count_words, Str.trim.
  now rewrite count_words_trimEnd, count_words_trimStart.
Qed.

Lemma trimStart_head (s : string) :
  match Str.trimStart s with
  | "" => True
  | String c _ => Str.is_space c = false
  end.
Proof.
  induction s as [|c s IH]; simpl; [exact I |].
  destruct (Str.is_space c) eqn:Hc; [assumption | simpl; assumption].
Qed.

Lemma trimEnd_head (c : ascii) (s : string) :
  Str.trimEnd (String c s) = "" \/ exists r, Str.trimEnd (String c s) = String c r.
Proof.
  simpl. destruct (Str.trimEnd s).
  - destruct (Str.is_space c); [now left | right; now eexists].
  - right. now eexists.
Qed.

Lemma trim_head (s : string) :
  match Str.trim s with
  | "" => True
  | String c _ => Str.is_space c = false
  end.
Proof.
  unfold Str.trim. pose proof (trimStart_head s) as H.
  destruct (Str.trimStart s) as [|c r]; [exact I |].
  destruct (trimEnd_head c r) as [-> | [r' ->]]; [exact I | assumption].
Qed.

(** On a note with at least one character that is not whitespace the
    stored word count is the number of its words. *)
Lemma words_of_nonblank (content : string) :
  Str.trim content <> "" ->
  TextMeta.words content = TextMeta.count_words content.
Proof.
  intros Hne. unfold TextMeta.words, TextMeta.split_ws.
  rewrite <- count_words_trim.
  destruct (split_ws_from_length (Str.trim content)) as [-> _].
  unfold Str.trim at 2. rewrite ends_ws_trimEnd.
  fold (Str.trim content).
  pose proof (trim_head content) as H.
  destruct (Str.trim content) as [|c r]; [congruence |].
  unfold TextMeta.count_words. simpl. rewrite H. lia.
Qed.

(** On a note without such a character the stored word count is one. *)
Lemma words_of_blank (content : string) :
  Str.trim content = "" ->
  TextMeta.words content = 1 /\ TextMeta.count_words content = 0.
Proof.
  intros H. unfold TextMeta.words. rewrite <- count_words_trim, H.
  split; reflexivity.
Qed.

(** The read time is the number of started blocks of 200 words, and at
    least one. *)
Lemma estimated_read_time_spec (w : nat) :
  let r := TextMeta.estimated_read_time w in
  1 <= r /\ w <= 200 * r /\ (1 < r -> 200 * (r - 1) < w).
Proof.
  unfold TextMeta.estimated_read_time.
  pose proof (Nat.div_mod_eq (w + 199) 200) as D.
  pose proof (Nat.mod_upper_bound (w + 199) 200 ltac:(lia)) as M.
  cbv zeta. lia.
Qed.

(** For a note with at least one character that is not whitespace the
    orchestrator stores, when the store takes the row, the number of its
    words, its length and the read time of that many words. *)
Lemma text_metadata_of_nonblank
    (now fresh_id : string) (upload scraped : JS.outcome JS.value)
    (url_parts : JS.value -> JS.outcome (string * string))
    (pc : list (string * JS.value)) (content userId : string)
    (w : Store.world) :
  Str.trim content <> "" ->
  exists row w',
    Orchestrator.process_content now fresh_id upload scraped
      (JS.Ok (JS.VObj pc)) url_parts true (JS.VStr content) (JS.VStr "text")
      userId w
      = (Items.success (Store.item_json row), w') /\
    In row (Store.saved_items (Store.data w')) /\
    Store.content_metadata row
      = JS.VObj
          [ ("word_count", JS.nat_value (TextMeta.count_words content));
            ("char_count", JS.nat_value (String.length content));
            ("estimated_read_time",
             JS.nat_value
               (TextMeta.estimated_read_time (TextMeta.count_words content))) ].
Proof.
  intros H. eexists. eexists. split; [reflexivity |].
  split; [apply in_or_app; right; now left |].
  simpl. unfold TextMeta.metadata. now rewrite (words_of_nonblank _ H).
Qed.

(** C9: the claim fails on a note without words.  For the note made of
    three spaces the orchestrator stores the row, the store taking it,
    with a word count of 1, where the note has no word at all; the
    character count (3) and the read time (1) are as claimed. *)
Theorem blank_note_counts_one_word
    (now fresh_id : string) (upload scraped : JS.outcome JS.value)
    (url_parts : JS.value -> JS.outcome (string * string))
    (pc : list (string * JS.value)) (userId : string) (w : Store.world) :
  TextMeta.count_words "   " = 0 /\
  exists row w',
    Orchestrator.process_content now fresh_id upload scraped
      (JS.Ok (JS.VObj pc)) url_parts true (JS.VStr "   ") (JS.VStr "text")
      userId w
      = (Items.success (Store.item_json row), w') /\
    In row (Store.saved_items (Store.data w')) /\
    Store.user_id row = userId /\
    Store.content_metadata row
      = JS.VObj [ ("word_count", JS.VNum 1); ("char_count", JS.VNum 3);
                  ("estimated_read_time", JS.VNum 1) ].
Proof.
  split; [reflexivity |].
  eexists. eexists. split; [reflexivity |].
  simpl. split; [| split; reflexivity].
  apply in_or_app. right. now left.
Qed.

(** ** Access control *)

Lemma prefix_append (p s : string) : prefix p (p ++ s) = true.
Proof.
  induction p as [|c p IH]; simpl; [now destruct s |].
  destruct (ascii_dec c c); [assumption | congruence].
Qed.

Lemma queries_of_app (l l' : list Store.event) :
  Api.queries_of (l ++ l') = (Api.queries_of l ++ Api.queries_of l')%list.
Proof.
  induction l as [|[t|q] l IH]; simpl; [reflexivity | assumption |].
  now rewrite IH.
Qed.

Lemma queries_emit_verify (t : string) (w : Store.world) :
  Api.queries (Store.emit (Store.Verify t) w) = Api.queries w.
Proof.
  unfold Api.queries, Store.emit. simpl. rewrite queries_of_app. simpl.
  now rewrite app_nil_r.
Qed.

Lemma queries_emit_query (q : Store.query) (w : Store.world) :
  Api.queries (Store.emit (Store.Query q) w) = (Api.queries w ++ [q])%list.
Proof.
  unfold Api.queries, Store.emit. simpl. now rewrite queries_of_app.
Qed.


(** A verified credential hands the handler the e-mail of the
    provider's user record. *)
Lemma authenticate_bearer (getUser : string -> JS.outcome (option string))
    (token email : string)
    (next : string -> Store.world -> Http.response * Store.world)
    (w : Store.world) :
  getUser token = JS.Ok (Some email) ->
  Auth.authenticateUser getUser (Api.bearer token) next w
  = next email (Store.emit (Store.Verify token) w).
Proof.
  intros H. unfold Auth.authenticateUser, Api.bearer.
  unfold Str.startsWith. rewrite prefix_append.
  change (Str.drop 7 ("Bearer " ++ token)) with token.
  simpl. now rewrite H.
Qed.

Lemma keep_owned (it : Store.item) (i owner : string) :
  Store.keep Store.item_col (Items.owned i owner) it
  = (Store.id it =? i) && (Store.user_id it =? owner).
Proof.
  unfold Store.keep, Items.owned. simpl. now rewrite andb_true_r.
Qed.

Lemma filter_none {A} (f : A -> bool) (l : list A) :
  (forall x, In x l -> f x = false) -> filter f l = [].
Proof.
  induction l as [|a l IH]; simpl; [reflexivity |].
  intros H. rewrite (H a (or_introl eq_refl)). apply IH. auto.
Qed.



Lemma uuid_nonempty (i : string) : Items.uuid_test i = true -> i <> "".
Proof. intros H ->. discriminate. Qed.

Lemma update_item_single_log (fs : list Store.clause)
    (f : Store.item -> Store.item) (w : Store.world) :
  Api.queries (snd (Store.update_item_single fs f w))
  = (Api.queries w ++ [Store.mkQuery "saved_items" Store.Update fs])%list.
Proof.
  unfold Store.update_item_single.
  destruct (Store.single _); simpl; unfold Api.queries; simpl;
    now rewrite queries_of_app.
Qed.

(** ** Identifier validation of [PATCH /api/toggle-completion] *)

(** C7, as the specification words it, fails on the body of the answer.
    The check of the required fields comes first: Ann's request with the
    identifier [not-a-uuid] and the string [true] in place of a boolean
    is answered 400 with the message about the required fields, without
    the format hint.  And an identifier that has no conversion to a
    string, an object with a [toString] member of its own, is answered
    500. *)
Lemma toggle_completion_hint_missing :
  (let r := Api.toggle_completion Demo.getUser Demo.now (Api.bearer "token-ann")
              (JS.VStr "not-a-uuid") (JS.VStr "true") Demo.world0 in
   JS.to_string (JS.VStr "not-a-uuid") = JS.Ok "not-a-uuid" /\
   Items.uuid_test "not-a-uuid" = false /\
   Http.status (fst r) = 400 /\
   Http.body (fst r)
   = JS.VObj [("error",
               JS.VStr "Invalid request: itemId and completed (boolean) are required")] /\
   JS.get_opt (Http.body (fst r)) "hint" = JS.VUndef) /\
  (let r := Api.toggle_completion Demo.getUser Demo.now (Api.bearer "token-ann")
              (JS.VObj [("toString", JS.VNum 1)]) (JS.VBool true) Demo.world0 in
   Http.status (fst r) = 500 /\ Http.status (fst r) <> 400).
Proof. repeat split. discriminate. Qed.

(** C7 (amended): an authenticated toggle request whose [itemId], once
    converted to a string, does not have the UUID format is answered 400
    and reaches the store with no query.  When the request passed the
    check of its required fields (a truthy [itemId], a boolean
    [completed]) the body is the format error, with the identifier as
    received and the hint [Expected format:
    xxxxxxxx-xxxx-xxxx-xxxx-xxxxxxxxxxxx]; otherwise it is the message
    about the required fields.  An [itemId] that cannot be converted to
    a string reaches the store with no query either, and is answered 500
    once the required fields are there.  Conversely, if the request did
    issue a query, it is the one update, filtered by the identifier and
    the owner, and the identifier has the UUID format. *)
Theorem toggle_completion_validates_uuid
    (getUser : string -> JS.outcome (option string))
    (now token email : string) (itemId completed : JS.value)
    (w : Store.world) :
  getUser token = JS.Ok (Some email) ->
  let r := Api.toggle_completion getUser now (Api.bearer token)
             itemId completed w in
  let required :=
    Http.status_json 400
      (JS.VObj [("error",
                 JS.VStr "Invalid request: itemId and completed (boolean) are required")]) in
  (forall text,
     JS.to_string itemId = JS.Ok text -> Items.uuid_test text = false ->
     Api.queries (snd r) = Api.queries w /\
     Store.data (snd r) = Store.data w /\
     Http.status (fst r) = 400 /\
     fst r
     = if JS.truthy itemId && Items.is_bool completed
       then Http.status_json 400
              (JS.VObj
                 [ ("error", JS.VStr "Invalid itemId format: must be a valid UUID");
                   ("received", JS.VStr text);
                   ("hint",
                    JS.VStr "Expected format: xxxxxxxx-xxxx-xxxx-xxxx-xxxxxxxxxxxx") ])
       else required) /\
  (forall e,
     JS.to_string itemId = JS.Throw e ->
     Api.queries (snd r) = Api.queries w /\
     Store.data (snd r) = Store.data w /\
     if JS.truthy itemId && Items.is_bool completed
     then Http.status (fst r) = 500 /\
          JS.get_opt (Http.body (fst r)) "error"
          = JS.VStr "Failed to toggle completion"
     else fst r = required) /\
  (Api.queries (snd r) <> Api.queries w ->
   exists text,
     JS.to_string itemId = JS.Ok text /\ Items.uuid_test text = true /\
     Api.queries (snd r)
     = (Api.queries w
        ++ [Store.mkQuery "saved_items" Store.Update (Items.owned text email)])%list).
Proof.
  intros Hu r required. subst r required. unfold Api.toggle_completion.
  rewrite (authenticate_bearer _ _ _ _ _ Hu).
  unfold Items.toggle_completion.
  destruct (JS.truthy itemId) eqn:Ht; simpl negb; cbn [orb andb];
    [destruct (Items.is_bool completed) eqn:Hb; simpl negb; cbn [orb] |].
  - destruct (JS.to_string itemId) as [text0|] eqn:Hs.
    + destruct (Items.uuid_test text0) eqn:Hid; simpl negb; cbv iota.
      * split; [| split].
        -- intros text [= <-] Hno. congruence.
        -- discriminate.
        -- intros _. exists text0. split; [reflexivity | split; [assumption |]].
           match goal with
           | |- context [Store.update_item_single ?fs ?f ?w0] =>
               pose proof (update_item_single_log fs f w0) as L;
               destruct (Store.update_item_single fs f w0) as [[row|] w']
           end; simpl in *; rewrite L; now rewrite queries_emit_verify.
      * split; [| split].
        -- intros text [= <-] _. simpl. rewrite queries_emit_verify.
           repeat split.
        -- discriminate.
        -- simpl. rewrite queries_emit_verify. intros H. now elim H.
    + split; [discriminate | split].
      * intros e' _. simpl. rewrite queries_emit_verify. repeat split.
      * simpl. rewrite queries_emit_verify. intros H. now elim H.
  - split; [| split].
    + intros text _ _. simpl. rewrite queries_emit_verify. repeat split.
    + intros e _. simpl. rewrite queries_emit_verify. repeat split.
    + simpl. rewrite queries_emit_verify. intros H. now elim H.
  - split; [| split].
    + intros text _ _. simpl. rewrite queries_emit_verify. repeat split.
    + intros e _. simpl. rewrite queries_emit_verify. repeat split.
    + simpl. rewrite queries_emit_verify. intros H. now elim H.
Qed.

(** The scenario of the specification: [not-a-uuid] is refused with the
    format hint and the store sees no query. *)
Lemma toggle_completion_not_a_uuid :
  let r := Api.toggle_completion Demo.getUser Demo.now (Api.bearer "token-ann")
             (JS.VStr "not-a-uuid") (JS.VBool true) Demo.world0 in
  Api.queries (snd r) = Api.queries Demo.world0 /\
  Store.data (snd r) = Store.data Demo.world0 /\
  Http.status (fst r) = 400 /\
  fst r
  = Http.status_json 400
      (JS.VObj
         [ ("error", JS.VStr "Invalid itemId format: must be a valid UUID");
           ("received", JS.VStr "not-a-uuid");
           ("hint",
            JS.VStr "Expected format: xxxxxxxx-xxxx-xxxx-xxxx-xxxxxxxxxxxx") ]).
Proof.
  exact (proj1 (toggle_completion_validates_uuid Demo.getUser Demo.now
                  "token-ann" "ann@example.com" (JS.VStr "not-a-uuid")
                  (JS.VBool true) Demo.world0 eq_refl)
           "not-a-uuid" eq_refl eq_refl).
Defined.

(** The identifier is converted as [String] prints a number: digits up
    to 21 of them, exponent notation beyond, and a number that is no
    double prints as the double nearest to it.  A number is never a
    UUID: it is refused with its text as the identifier received. *)
Example number_to_string_examples :
  JS.to_string (JS.VNum 42) = JS.Ok "42" /\
  JS.to_string (JS.VNum (-7)) = JS.Ok "-7" /\
  JS.to_string (JS.VNum (2 ^ 53 + 1)) = JS.Ok "9007199254740992" /\
  JS.to_string (JS.VNum (2 ^ 60)) = JS.Ok "1152921504606847000" /\
  JS.to_string (JS.VNum (10 ^ 21 - 1)) = JS.Ok "1e+21" /\
  JS.to_string (JS.VNum (10 ^ 21)) = JS.Ok "1e+21" /\
  JS.to_string (JS.VNum (2 ^ 70)) = JS.Ok "1.1805916207174113e+21" /\
  JS.to_string (JS.VNum (- 10 ^ 23)) = JS.Ok "-1e+23".
Proof. vm_compute. repeat split. Qed.

Example toggle_completion_number_id :
  fst (Api.toggle_completion Demo.getUser Demo.now (Api.bearer "token-ann")
         (JS.VNum (10 ^ 21)) (JS.VBool true) Demo.world0)
  = Http.status_json 400
      (JS.VObj
         [ ("error", JS.VStr "Invalid itemId format: must be a valid UUID");
           ("received", JS.VStr "1e+21");
           ("hint",
            JS.VStr "Expected format: xxxxxxxx-xxxx-xxxx-xxxx-xxxxxxxxxxxx") ]).
Proof. vm_compute. reflexivity. Qed.

(** ** Ownership scoping of the saved-item routes *)







Section Scoping.

Variable getUser : string -> JS.outcome (option string).
Variables now token email : string.
Hypothesis verified : getUser token = JS.Ok (Some email).
Variable w : Store.world.















End Scoping.




(** ** The detail view *)

Lemma single_filter_in {A} (f : A -> bool) (l : list A) (x : A) :
  Store.single (filter f l) = Some x -> In x l /\ f x = true.
Proof.
  intros H. destruct (filter f l) as [|y [|z r]] eqn:E; try discriminate.
  injection H as ->. apply filter_In. rewrite E. now left.
Qed.

Lemma to_double_exact (n : Z) :
  (- 2 ^ 53 <= n <= 2 ^ 53)%Z -> JS.to_double n = n.
Proof.
  intros H. unfold JS.to_double.
  destruct (Z.leb_spec (Z.abs n) (2 ^ 53)); [reflexivity | lia].
Qed.

(** Below 2^53 in magnitude a count plus one is the next integer. *)
Lemma add_one_exact (a : Z) :
  (- 2 ^ 53 <= a < 2 ^ 53)%Z -> JS.add a 1 = (a + 1)%Z.
Proof.
  intros H. unfold JS.add.
  rewrite (to_double_exact a) by lia.
  rewrite (to_double_exact 1) by (change (2 ^ 53)%Z with 9007199254740992%Z; lia).
  apply to_double_exact. lia.
Qed.

Lemma next_view_count_seen (it : Store.item) :
  Items.next_view_count (Store.view_count it) = JS.add (Items.seen_count it) 1.
Proof.
  unfold Items.next_view_count, Items.seen_count.
  destruct (Store.view_count it) as [n|]; [| reflexivity].
  destruct (Z.eqb_spec n 0); [now subst | reflexivity].
Qed.

(** C10, as the specification words it, fails on its last part.  The
    handler adds one to the count as a double: for Bob's note with 2^53
    views on its counter the sum rounds back to 2^53, so the count
    stored after the fetch is the fetched one, not that plus one.  And
    the handler does not read the reply to its update: when the store
    does not carry the update out, the answer is the same 200 and the
    count stays where it was. *)
Lemma view_count_stalls :
  (let r := Api.item Demo.getUser Demo.now true (Api.bearer "token-bob")
              Demo.item_id Demo.worn_world in
   Http.status (fst r) = 200 /\
   JS.get_opt (JS.get_opt (Http.body (fst r)) "data") "view_count"
   = JS.VNum (2 ^ 53) /\
   map Store.view_count (Store.saved_items (Store.data (snd r)))
   = [Some (2 ^ 53)%Z] /\
   Some (2 ^ 53)%Z <> Some (2 ^ 53 + 1)%Z) /\
  (let r := Api.item Demo.getUser Demo.now false (Api.bearer "token-bob")
              Demo.item_id Demo.world0 in
   Http.status (fst r) = 200 /\
   JS.get_opt (JS.get_opt (Http.body (fst r)) "data") "view_count"
   = JS.VNum 2 /\
   map Store.view_count (Store.saved_items (Store.data (snd r))) = [Some 2%Z]).
Proof.
  split.
  - cbv zeta. split; [reflexivity |]. split; [reflexivity |].
    split; [vm_compute; reflexivity | discriminate].
  - cbv zeta. repeat split.
Qed.

(** C10 (amended): a successful detail fetch answers with the row as the
    select read it, so the [view_count] and [last_viewed_at] in the
    [data] of the body are those stored before the request.  When the
    store carries out the update, the row of that identifier and owner
    afterwards carries the time of the request and the fetched count
    plus one as doubles add, a missing count read as zero: for a count
    below 2^53 in magnitude that is the fetched count plus one.  When
    the store does not carry the update out, the tables are as they
    were. *)
Theorem item_view_returns_prior_state
    (getUser : string -> JS.outcome (option string))
    (now token email itemId : string) (counted : bool) (w : Store.world) :
  getUser token = JS.Ok (Some email) ->
  let r := Api.item getUser now counted (Api.bearer token) itemId w in
  Http.status (fst r) = 200 ->
  exists it,
    In it (Store.saved_items (Store.data w)) /\
    Store.id it = itemId /\ Store.user_id it = email /\
    Http.body (fst r)
    = JS.VObj [("success", JS.VBool true); ("data", Store.item_json it)] /\
    JS.get_opt (JS.get_opt (Http.body (fst r)) "data") "view_count"
      = match Store.view_count it with
        | Some n => JS.VNum n
        | None => JS.VNull
        end /\
    JS.get_opt (JS.get_opt (Http.body (fst r)) "data") "last_viewed_at"
      = Store.opt_value (Store.last_viewed_at it) /\
    (counted = true ->
     (exists it', In it' (Store.saved_items (Store.data (snd r))) /\
                  Store.id it' = itemId /\ Store.user_id it' = email) /\
     forall it', In it' (Store.saved_items (Store.data (snd r))) ->
                 Store.id it' = itemId -> Store.user_id it' = email ->
                 Store.view_count it' = Some (JS.add (Items.seen_count it) 1) /\
                 Store.last_viewed_at it' = Some now /\
                 ((- 2 ^ 53 <= Items.seen_count it < 2 ^ 53)%Z ->
                  Store.view_count it' = Some (Items.seen_count it + 1)%Z)) /\
    (counted = false -> Store.data (snd r) = Store.data w).
Proof.
  intros Hu r. subst r. unfold Api.item.
  rewrite (authenticate_bearer _ _ _ _ _ Hu).
  unfold Items.get_item, Store.select_items. cbn [Store.data Store.emit].
  destruct (Store.single _) as [it|] eqn:E; [| discriminate].
  intros _. exists it.
  destruct (single_filter_in _ _ _ E) as [Hin Hk].
  rewrite keep_owned in Hk. apply andb_true_iff in Hk as [Hi Ho].
  apply String.eqb_eq in Hi, Ho.
  repeat (split; [first [assumption | reflexivity] |]).
  split; [| intros ->; reflexivity].
  intros ->.
  cbn [snd]. unfold Store.update_items, Store.with_data, Store.set_items.
  cbn [Store.data Store.emit Store.saved_items].
  match goal with
  | |- context [Store.amend _ ?f _] => set (viewed := f)
  end.
  split.
  - exists (viewed it). split; [| split; assumption].
    unfold Store.amend. apply in_map_iff. exists it. split; [| assumption].
    rewrite keep_owned, Hi, Ho, !String.eqb_refl. reflexivity.
  - intros it' Hin' Hi' Ho'. unfold Store.amend in Hin'.
    apply in_map_iff in Hin' as (x & Hx & _).
    destruct (Store.keep Store.item_col (Items.owned itemId email) x) eqn:K.
    + subst it'. unfold viewed. cbn [Store.view_count Store.last_viewed_at].
      rewrite next_view_count_seen.
      split; [reflexivity | split; [reflexivity |]].
      intros Hb. now rewrite add_one_exact.
    + subst it'. rewrite keep_owned, Hi', Ho', !String.eqb_refl in K.
      discriminate.
Qed.

(** Bob opens his note, viewed twice before: the answer shows two views,
    the table three. *)
Lemma bob_views_his_note :
  let r := Api.item Demo.getUser Demo.now true (Api.bearer "token-bob")
             Demo.item_id Demo.world0 in
  JS.get_opt (JS.get_opt (Http.body (fst r)) "data") "view_count" = JS.VNum 2 /\
  map Store.view_count (Store.saved_items (Store.data (snd r))) = [Some 3%Z].
Proof.
  destruct (item_view_returns_prior_state Demo.getUser Demo.now "token-bob"
              "bob@example.com" Demo.item_id true Demo.world0 eq_refl eq_refl)
    as (it & Hin & _ & _ & _ & Hv & _ & Hc & _).
  destruct Hin as [<- | []].
  split; [exact Hv |].
  destruct (Hc eq_refl) as [_ H].
  destruct (H (Journey.viewed 3 Demo.now Demo.bobs_note)
              (or_introl eq_refl) eq_refl eq_refl) as (_ & _ & H3).
  reflexivity.
Defined.

(** ** Feature suggestions: the duplicate check *)





Lemma prefix_nil (s : string) : prefix "" s = true.
Proof. now destruct s. Qed.









(** Letter case is folded beyond A to Z: the accented capital of
    [Demo.cafe_in_capitals] matches the accented small letter of the
    title on the list, and the suggestion is refused. *)
Example accented_title_is_a_duplicate :
  let r := Api.submit_feature Demo.getUser "f-9" (Api.bearer "token-ann")
             (Some Demo.cafe_in_capitals) None Demo.world2 in
  Features.plain (Str.trim Demo.cafe_in_capitals) = true /\
  Features.ci_includes Demo.cafe_in_capitals (Store.feature_title Demo.cafe_menu)
  = true /\
  Http.status (fst r) = 409 /\
  Store.data (snd r) = Store.data Demo.world2.
Proof. repeat split. Qed.

(** ** Votes *)



Lemma filter_nil_inv {A} (f : A -> bool) (l : list A) :
  filter f l = [] -> forall x, In x l -> f x = false.
Proof.
  intros E x Hin. destruct (f x) eqn:Fx; [| reflexivity].
  assert (In x (filter f l)) by (apply filter_In; auto).
  rewrite E in H. contradiction.
Qed.


Lemma filter_one_inv {A} (f : A -> bool) (l : list A) (y : A) :
  filter f l = [y] -> forall x, In x l -> f x = true -> x = y.
Proof.
  intros E x Hin Fx.
  assert (H : In x (filter f l)) by (apply filter_In; auto).
  rewrite E in H. destruct H as [H | []]. now symmetry.
Qed.

Lemma amend_unique {A} (hit : A -> bool) (g : A -> A) (l : list A) (y : A) :
  filter hit l = [y] ->
  Store.amend hit g l = Store.amend hit (fun _ => g y) l.
Proof.
  intros E. unfold Store.amend. apply map_ext_in. intros x Hin.
  destruct (hit x) eqn:Hx; [| reflexivity].
  now rewrite (filter_one_inv _ _ _ E x Hin Hx).
Qed.









(* ================================================================== *)
(** * Part III.  Further properties of the routes *)
(* ================================================================== *)

(** ** The middleware as a gate *)

Lemma prefix_split (p s : string) :
  prefix p s = true -> s = p ++ Str.drop (String.length p) s.
Proof.
  revert s. induction p as [|c p IH]; intros s H; [reflexivity |].
  destruct s as [|a s]; [discriminate |]. simpl in H.
  destruct (ascii_dec c a) as [<- |]; [| discriminate].
  simpl. f_equal. now apply IH.
Qed.

(** X1: the handler behind [authenticateUser] runs only when the header
    is [Bearer ] followed by a token the identity provider verifies, and
    then it runs once, with the e-mail of the provider's user record as
    the caller's identity.  In every other case the answer is 401, with
    the code [NO_AUTH_TOKEN] when there is no bearer header,
    [INVALID_TOKEN] when the provider rejects the token and [AUTH_ERROR]
    when the call to the provider fails; the store sees no query and its
    tables stay as they were. *)
Theorem authenticateUser_gate
    (getUser : string -> JS.outcome (option string))
    (authorization : option string)
    (next : string -> Store.world -> Http.response * Store.world)
    (w : Store.world) :
  let r := Auth.authenticateUser getUser authorization next w in
  (exists token email,
     authorization = Api.bearer token /\
     getUser token = JS.Ok (Some email) /\
     r = next email (Store.emit (Store.Verify token) w)) \/
  (Http.status (fst r) = 401 /\
   Store.data (snd r) = Store.data w /\
   Api.queries (snd r) = Api.queries w /\
   ((Api.no_bearer authorization = true /\
     JS.get_opt (Http.body (fst r)) "code" = JS.VStr "NO_AUTH_TOKEN" /\
     snd r = w) \/
    (exists token,
       authorization = Api.bearer token /\
       ((getUser token = JS.Ok None /\
         JS.get_opt (Http.body (fst r)) "code" = JS.VStr "INVALID_TOKEN") \/
        ((exists e, getUser token = JS.Throw e) /\
         JS.get_opt (Http.body (fst r)) "code" = JS.VStr "AUTH_ERROR"))))).
Proof.
  unfold Auth.authenticateUser, Api.no_bearer.
  destruct authorization as [h|].
  - unfold Str.startsWith. destruct (prefix "Bearer " h) eqn:P.
    + pose proof (prefix_split _ _ P) as Hh. simpl String.length in Hh.
      assert (Hne : negb (h =? "") = true).
      { destruct h; [discriminate | reflexivity]. }
      rewrite Hne. cbn [andb].
      destruct (getUser (Str.drop 7 h)) as [[email|]|e] eqn:G.
      * left. exists (Str.drop 7 h), email. unfold Api.bearer.
        rewrite <- Hh. auto.
      * right. cbn [fst snd]. rewrite queries_emit_verify.
        repeat split. right. exists (Str.drop 7 h). unfold Api.bearer.
        rewrite <- Hh. split; [reflexivity |]. left. auto.
      * right. cbn [fst snd]. rewrite queries_emit_verify.
        repeat split. right. exists (Str.drop 7 h). unfold Api.bearer.
        rewrite <- Hh. split; [reflexivity |]. right.
        split; [now exists e | reflexivity].
    + rewrite andb_false_r. right. cbn [fst snd]. repeat split.
      left. repeat split.
  - right. cbn [fst snd]. repeat split. left. repeat split.
Qed.

(** ** The orchestrator: all or nothing *)




(** X3: a failed image upload does not block the save.  When the upload
    route answers without a truthy [success], the analysis answers an
    object and the store takes the row, the image item is stored all the
    same, with no image reference, empty metadata and no payload; when
    the store refuses the row the answer is 500 and nothing is stored;
    and when the call of the upload route itself fails, nothing is
    stored and the answer is 500, whatever the analysis and the store
    would have done. *)
Theorem image_saved_without_upload
    (getUser : string -> JS.outcome (option string))
    (now fresh_id token email : string)
    (scraped : JS.outcome JS.value)
    (url_parts : JS.value -> JS.outcome (string * string))
    (up : list (string * JS.value)) (pc : list (string * JS.value))
    (content : JS.value) (w : Store.world) :
  getUser token = JS.Ok (Some email) ->
  JS.truthy (JS.lookup "success" up) = false ->
  (let r := Api.process_content getUser now fresh_id (JS.Ok (JS.VObj up))
              scraped (JS.Ok (JS.VObj pc)) url_parts true (Api.bearer token)
              content (JS.VStr "image") w in
   exists row,
     fst r = Items.success (Store.item_json row) /\
     Store.saved_items (Store.data (snd r))
     = (Store.saved_items (Store.data w) ++ [row])%list /\
     Store.user_id row = email /\
     Store.original_image_url row = JS.VNull /\
     Store.content_metadata row = JS.VObj [] /\
     Store.original_content row = JS.VNull /\
     Store.title row = JS.lookup "title" pc) /\
  (let r := Api.process_content getUser now fresh_id (JS.Ok (JS.VObj up))
              scraped (JS.Ok (JS.VObj pc)) url_parts false (Api.bearer token)
              content (JS.VStr "image") w in
   Http.status (fst r) = 500 /\
   JS.get_opt (Http.body (fst r)) "error" = JS.VStr "Failed to save to database" /\
   Store.data (snd r) = Store.data w) /\
  (forall e analysis accepted,
     let r := Api.process_content getUser now fresh_id (JS.Throw e)
                scraped analysis url_parts accepted (Api.bearer token)
                content (JS.VStr "image") w in
     Http.status (fst r) = 500 /\
     JS.get_opt (Http.body (fst r)) "error" = JS.VStr "Failed to process content" /\
     Store.data (snd r) = Store.data w).
Proof.
  intros Hu Hs. split; [| split].
  - unfold Api.process_content. rewrite (authenticate_bearer _ _ _ _ _ Hu).
    unfold Orchestrator.process_content, Orchestrator.gather,
      Orchestrator.gather_image, Orchestrator.new_row.
    simpl. rewrite Hs. simpl. eexists. repeat split.
  - unfold Api.process_content. rewrite (authenticate_bearer _ _ _ _ _ Hu).
    unfold Orchestrator.process_content, Orchestrator.gather,
      Orchestrator.gather_image, Orchestrator.new_row.
    simpl. rewrite Hs. simpl. repeat split.
  - intros e analysis accepted. unfold Api.process_content.
    rewrite (authenticate_bearer _ _ _ _ _ Hu).
    unfold Orchestrator.process_content, Orchestrator.gather,
      Orchestrator.gather_image. simpl. repeat split.
Qed.

(** The upload route is down; Ann's screenshot is saved without its
    image. *)
Lemma ann_saves_a_screenshot_without_image :
  let r := Api.process_content Demo.getUser Demo.now "item-2"
             (JS.Ok (JS.VObj [("success", JS.VBool false)]))
             (JS.Throw JS.TypeError)
             (JS.Ok (JS.VObj [("title", JS.VStr "Receipt")]))
             (fun _ => JS.Throw JS.TypeError) true (Api.bearer "token-ann")
             (JS.VStr "data:image/png;base64,AAAA") (JS.VStr "image")
             Demo.world0 in
  exists row,
    fst r = Items.success (Store.item_json row) /\
    Store.saved_items (Store.data (snd r))
    = (Store.saved_items (Store.data Demo.world0) ++ [row])%list /\
    Store.user_id row = "ann@example.com" /\
    Store.original_image_url row = JS.VNull /\
    Store.content_metadata row = JS.VObj [] /\
    Store.original_content row = JS.VNull /\
    Store.title row = JS.lookup "title" [("title", JS.VStr "Receipt")].
Proof.
  exact (proj1 (image_saved_without_upload Demo.getUser Demo.now "item-2"
                  "token-ann" "ann@example.com" (JS.Throw JS.TypeError)
                  (fun _ => JS.Throw JS.TypeError)
                  [("success", JS.VBool false)]
                  [("title", JS.VStr "Receipt")]
                  (JS.VStr "data:image/png;base64,AAAA") Demo.world0
                  eq_refl eq_refl)).
Defined.

(** ** The owner's own mutations *)

Lemma keep_owned_is_row (i owner : string) (l : list Store.item) :
  filter (Store.keep Store.item_col (Items.owned i owner)) l
  = filter (Journey.is_row i owner) l.
Proof. apply filter_ext. intros x. apply keep_owned. Qed.

Lemma amend_owned_one (i owner : string) (f : Store.item -> Store.item)
    (l : list Store.item) (it : Store.item) :
  filter (Journey.is_row i owner) l = [it] ->
  Store.amend (Store.keep Store.item_col (Items.owned i owner)) f l
  = map (fun x => if Journey.is_row i owner x then f it else x) l.
Proof.
  intros H. rewrite <- keep_owned_is_row in H.
  rewrite (amend_unique _ _ _ _ H). unfold Store.amend.
  apply map_ext. intros x. now rewrite keep_owned.
Qed.













(** X7: what the rename refuses before it reaches the store.  A missing
    or falsy identifier, a missing or empty title, a title of more than
    100 characters and an identifier that is not a UUID are answered 400,
    checked in that order, each with its own message; and whenever the
    rename answers 400 it has sent no query and the tables are as they
    were. *)
Theorem update_title_rejections
    (getUser : string -> JS.outcome (option string))
    (now token email : string) (itemId : JS.value) (title : option string)
    (w : Store.world) :
  getUser token = JS.Ok (Some email) ->
  let r := Api.update_title getUser now (Api.bearer token) itemId title w in
  let w1 := Store.emit (Store.Verify token) w in
  let bad msg := (Http.status_json 400 (Http.error_body msg), w1) in
  (JS.truthy itemId = false -> r = bad "itemId is required") /\
  (JS.truthy itemId = true -> title = None \/ title = Some "" ->
   r = bad "Title cannot be empty") /\
  (forall t, JS.truthy itemId = true -> title = Some t ->
     100 < String.length t -> r = bad "Title too long (max 100 characters)") /\
  (forall t s, JS.truthy itemId = true -> title = Some t -> t <> "" ->
     String.length t <= 100 -> JS.to_string itemId = JS.Ok s ->
     Items.uuid_test s = false -> r = (Items.invalid_format s false, w1)) /\
  (Http.status (fst r) = 400 ->
   Store.data (snd r) = Store.data w /\ Api.queries (snd r) = Api.queries w).
Proof.
  intros Hu r w1 bad. subst r. unfold Api.update_title.
  rewrite (authenticate_bearer _ _ _ _ _ Hu). fold w1.
  unfold Items.update_title.
  split; [| split; [| split; [| split]]].
  - intros ->. reflexivity.
  - intros -> [-> | ->]; reflexivity.
  - intros t -> -> Hl. simpl negb. cbv iota.
    destruct t as [|c t]; [simpl in Hl; lia |].
    destruct (Nat.ltb_spec 100 (String.length (String c t))); [reflexivity | lia].
  - intros t s -> -> Ht Hl -> Hs. simpl negb. cbv iota.
    destruct t as [|c t]; [congruence |].
    destruct (Nat.ltb_spec 100 (String.length (String c t))); [lia |].
    now rewrite Hs.
  - assert (Q : Api.queries w1 = Api.queries w) by apply queries_emit_verify.
    destruct (JS.truthy itemId); simpl negb; cbv iota; [| intros _; now split].
    destruct title as [[|c t]|]; try (intros _; now split).
    destruct (100 <? String.length (String c t))%nat; [intros _; now split |].
    destruct (JS.to_string itemId) as [s|e]; [| discriminate].
    destruct (Items.uuid_test s); simpl negb; cbv iota; [| intros _; now split].
    unfold Store.update_item_single.
    destruct (Store.single _); discriminate.
Qed.

(** Bob sends a title of 101 characters. *)
Lemma bob_sends_a_long_title :
  let r := Api.update_title Demo.getUser Demo.now (Api.bearer "token-bob")
             (JS.VStr Demo.item_id) (Some (Str.replicate 101 "a")) Demo.world0 in
  Http.status (fst r) = 400 /\
  Store.data (snd r) = Store.data Demo.world0 /\
  Api.queries (snd r) = Api.queries Demo.world0.
Proof.
  pose proof (update_title_rejections Demo.getUser Demo.now "token-bob"
                "bob@example.com" (JS.VStr Demo.item_id)
                (Some (Str.replicate 101 "a")) Demo.world0 eq_refl) as H.
  cbv zeta in H. destruct H as (_ & _ & _ & _ & H).
  split; [reflexivity | exact (H eq_refl)].
Defined.

(** ** Delete, and what follows it *)

Lemma filter_after_removal {A} (f : A -> bool) (l : list A) :
  filter f (filter (fun x => negb (f x)) l) = [].
Proof.
  apply filter_none. intros x Hin. apply filter_In in Hin as [_ H].
  now apply negb_true_iff in H.
Qed.

Lemma delete_item_hit
    (getUser : string -> JS.outcome (option string))
    (token email i : string) (w : Store.world) (it : Store.item) :
  getUser token = JS.Ok (Some email) ->
  filter (Journey.is_row i email) (Store.saved_items (Store.data w)) = [it] ->
  let r := Api.delete_item getUser (Api.bearer token) (JS.VStr i) w in
  fst r = Items.success (Store.item_json it) /\
  Store.saved_items (Store.data (snd r))
  = filter (fun x => negb (Journey.is_row i email x))
      (Store.saved_items (Store.data w)) /\
  Store.feature_votes (Store.data (snd r)) = Store.feature_votes (Store.data w) /\
  Store.user_votes (Store.data (snd r)) = Store.user_votes (Store.data w).
Proof.
  intros Hu Hone r. subst r. unfold Api.delete_item.
  rewrite (authenticate_bearer _ _ _ _ _ Hu).
  unfold Items.delete_item. simpl JS.to_string. cbv iota.
  unfold Store.delete_item_single. cbn [Store.data Store.emit].
  rewrite keep_owned_is_row, Hone. cbn [Store.single fst snd].
  cbn [Store.with_data Store.data Store.set_items Store.saved_items
       Store.feature_votes Store.user_votes].
  repeat split. apply filter_ext. intros x. now rewrite keep_owned.
Qed.

Lemma delete_item_miss
    (getUser : string -> JS.outcome (option string))
    (token email i : string) (w : Store.world) :
  getUser token = JS.Ok (Some email) ->
  filter (Journey.is_row i email) (Store.saved_items (Store.data w)) = [] ->
  let r := Api.delete_item getUser (Api.bearer token) (JS.VStr i) w in
  fst r = Http.status_json 404
            (Http.error_body "Item not found or access denied") /\
  Store.data (snd r) = Store.data w.
Proof.
  intros Hu Hone r. subst r. unfold Api.delete_item.
  rewrite (authenticate_bearer _ _ _ _ _ Hu).
  unfold Items.delete_item. simpl JS.to_string. cbv iota.
  unfold Store.delete_item_single. cbn [Store.data Store.emit].
  rewrite keep_owned_is_row, Hone. now split.
Qed.

Lemma item_miss
    (getUser : string -> JS.outcome (option string))
    (now token email i : string) (counted : bool) (w : Store.world) :
  getUser token = JS.Ok (Some email) ->
  filter (Journey.is_row i email) (Store.saved_items (Store.data w)) = [] ->
  let r := Api.item getUser now counted (Api.bearer token) i w in
  fst r = Http.status_json 404
            (Http.error_body "Item not found or access denied") /\
  Store.data (snd r) = Store.data w /\
  Api.queries (snd r)
  = (Api.queries w
     ++ [Store.mkQuery "saved_items" Store.Select (Items.owned i email)])%list.
Proof.
  intros Hu Hone r. subst r. unfold Api.item.
  rewrite (authenticate_bearer _ _ _ _ _ Hu).
  unfold Items.get_item, Store.select_items. cbn [Store.data Store.emit].
  rewrite keep_owned_is_row, Hone. cbn [Store.single fst snd].
  split; [reflexivity | split; [reflexivity |]].
  now rewrite queries_emit_query, queries_emit_verify.
Qed.

(** X8: the owner's delete of their one row of a given identifier is
    answered 200 with the row as it was; the table loses exactly that
    row, the other rows keeping their order, and the feature and vote
    tables are untouched.  Afterwards the item is gone for its owner
    too: a second delete and a detail fetch of it are answered 404, and
    the second delete changes nothing. *)
Theorem delete_item_by_owner
    (getUser : string -> JS.outcome (option string))
    (now token email i : string) (counted : bool) (w : Store.world)
    (it : Store.item) :
  getUser token = JS.Ok (Some email) ->
  filter (Journey.is_row i email) (Store.saved_items (Store.data w)) = [it] ->
  let a := Api.bearer token in
  let r := Api.delete_item getUser a (JS.VStr i) w in
  let again := Api.delete_item getUser a (JS.VStr i) (snd r) in
  fst r = Items.success (Store.item_json it) /\
  Store.saved_items (Store.data (snd r))
  = filter (fun x => negb (Journey.is_row i email x))
      (Store.saved_items (Store.data w)) /\
  Store.feature_votes (Store.data (snd r)) = Store.feature_votes (Store.data w) /\
  Store.user_votes (Store.data (snd r)) = Store.user_votes (Store.data w) /\
  Http.status (fst again) = 404 /\
  Store.data (snd again) = Store.data (snd r) /\
  Http.status (fst (Api.item getUser now counted a i (snd r))) = 404.
Proof.
  intros Hu Hone a r again.
  destruct (delete_item_hit getUser token email i w it Hu Hone)
    as (H1 & H2 & H3 & H4).
  fold a in H1, H2, H3, H4. fold r in H1, H2, H3, H4.
  assert (Hgone : filter (Journey.is_row i email)
                    (Store.saved_items (Store.data (snd r))) = []).
  { rewrite H2. apply filter_after_removal. }
  destruct (delete_item_miss getUser token email i (snd r) Hu Hgone) as [D1 D2].
  destruct (item_miss getUser now token email i counted (snd r) Hu Hgone)
    as [I1 _].
  fold a in D1, D2, I1. fold again in D1, D2.
  repeat split; try assumption.
  - now rewrite D1.
  - now rewrite I1.
Qed.

(** Bob deletes his note. *)
Lemma bob_deletes_his_note :
  let a := Api.bearer "token-bob" in
  let r := Api.delete_item Demo.getUser a (JS.VStr Demo.item_id) Demo.world0 in
  let again := Api.delete_item Demo.getUser a (JS.VStr Demo.item_id) (snd r) in
  fst r = Items.success (Store.item_json Demo.bobs_note) /\
  Store.saved_items (Store.data (snd r))
  = filter (fun x => negb (Journey.is_row Demo.item_id "bob@example.com" x))
      (Store.saved_items (Store.data Demo.world0)) /\
  Store.feature_votes (Store.data (snd r))
  = Store.feature_votes (Store.data Demo.world0) /\
  Store.user_votes (Store.data (snd r)) = Store.user_votes (Store.data Demo.world0) /\
  Http.status (fst again) = 404 /\
  Store.data (snd again) = Store.data (snd r) /\
  Http.status (fst (Api.item Demo.getUser Demo.now true a Demo.item_id (snd r)))
  = 404.
Proof.
  exact (delete_item_by_owner Demo.getUser Demo.now "token-bob"
           "bob@example.com" Demo.item_id true Demo.world0 Demo.bobs_note
           eq_refl eq_refl).
Defined.

(** ** Detail fetches *)

Lemma item_answer
    (getUser : string -> JS.outcome (option string))
    (now token email i : string) (counted : bool) (w : Store.world)
    (it : Store.item) :
  getUser token = JS.Ok (Some email) ->
  filter (Journey.is_row i email) (Store.saved_items (Store.data w)) = [it] ->
  fst (Api.item getUser now counted (Api.bearer token) i w)
  = Items.success (Store.item_json it).
Proof.
  intros Hu Hone. unfold Api.item.
  rewrite (authenticate_bearer _ _ _ _ _ Hu).
  unfold Items.get_item, Store.select_items. cbn [Store.data Store.emit].
  now rewrite keep_owned_is_row, Hone.
Qed.

Lemma item_hit
    (getUser : string -> JS.outcome (option string))
    (now token email i : string) (w : Store.world) (it : Store.item) :
  getUser token = JS.Ok (Some email) ->
  filter (Journey.is_row i email) (Store.saved_items (Store.data w)) = [it] ->
  let r := Api.item getUser now true (Api.bearer token) i w in
  Store.saved_items (Store.data (snd r))
  = map (fun x => if Journey.is_row i email x
                  then Journey.viewed (JS.add (Items.seen_count it) 1) now it
                  else x)
      (Store.saved_items (Store.data w)).
Proof.
  intros Hu Hone r. subst r. unfold Api.item.
  rewrite (authenticate_bearer _ _ _ _ _ Hu).
  unfold Items.get_item, Store.select_items. cbn [Store.data Store.emit].
  rewrite keep_owned_is_row, Hone. cbn [Store.single fst snd].
  unfold Store.update_items.
  cbn [Store.with_data Store.data Store.emit Store.set_items Store.saved_items
       Store.feature_votes Store.user_votes].
  now rewrite (amend_owned_one _ _ _ _ _ Hone), next_view_count_seen.
Qed.

Lemma is_row_of_filter (i email : string) (l : list Store.item)
    (it : Store.item) :
  filter (Journey.is_row i email) l = [it] -> Journey.is_row i email it = true.
Proof.
  intros H.
  assert (In it (filter (Journey.is_row i email) l)) by (rewrite H; now left).
  now apply filter_In in H0.
Qed.

Lemma filter_map_row (i email : string) (row : Store.item)
    (l : list Store.item) (it : Store.item) :
  Journey.is_row i email row = true ->
  filter (Journey.is_row i email) l = [it] ->
  filter (Journey.is_row i email)
    (map (fun x => if Journey.is_row i email x then row else x) l) = [row].
Proof.
  intros Hrow. revert it. induction l as [|a l IH]; intros it; simpl;
    [discriminate |].
  destruct (Journey.is_row i email a) eqn:Ha.
  - intros H. injection H as _ H. rewrite Hrow. f_equal.
    apply filter_none. intros x Hin. apply in_map_iff in Hin as (y & <- & Hy).
    pose proof (filter_nil_inv _ _ H y Hy) as E. now rewrite E.
  - rewrite Ha. apply IH.
Qed.

(** X9: detail fetches add up.  The store carrying out every update
    and the counts staying within 2^53, the range in which the
    handler's addition is exact: after one fetch of an item by its owner
    at each of [n] times the row carries the view count it had before, a
    missing count read as zero, plus [n], and the last of the times as
    the time of its last view; every other row is as it was, and the
    next fetch answers with that row: the count a fetch reports is the
    number of fetches made before it. *)
Theorem visits_add_up
    (getUser : string -> JS.outcome (option string))
    (token email i : string) (w : Store.world) (it : Store.item)
    (times : list string) (now : string) (counted : bool) :
  getUser token = JS.Ok (Some email) ->
  filter (Journey.is_row i email) (Store.saved_items (Store.data w)) = [it] ->
  (- 2 ^ 53 <= Items.seen_count it)%Z ->
  (Items.seen_count it + Z.of_nat (List.length times) <= 2 ^ 53)%Z ->
  let w' := Journey.visits getUser token i times w in
  let n := Z.of_nat (List.length times) in
  let row := match rev times with
             | [] => it
             | last :: _ => Journey.viewed (Items.seen_count it + n) last it
             end in
  Store.saved_items (Store.data w')
  = map (fun x => if Journey.is_row i email x then row else x)
      (Store.saved_items (Store.data w)) /\
  Items.seen_count row = (Items.seen_count it + n)%Z /\
  fst (Api.item getUser now counted (Api.bearer token) i w')
  = Items.success (Store.item_json row).
Proof.
  intros Hu Hone Hlo Hhi. pose proof (is_row_of_filter _ _ _ _ Hone) as Hit.
  assert (Inv : forall ts,
    (Items.seen_count it + Z.of_nat (List.length ts) <= 2 ^ 53)%Z ->
    let row := match rev ts with
               | [] => it
               | last :: _ =>
                   Journey.viewed
                     (Items.seen_count it + Z.of_nat (List.length ts)) last it
               end in
    Store.saved_items (Store.data (Journey.visits getUser token i ts w))
    = map (fun x => if Journey.is_row i email x then row else x)
        (Store.saved_items (Store.data w)) /\
    Items.seen_count row = (Items.seen_count it + Z.of_nat (List.length ts))%Z /\
    Journey.is_row i email row = true).
  { induction ts as [|t ts IH] using rev_ind; intros Hb.
    - cbn zeta. split; [| split; [simpl; lia | exact Hit]].
      simpl. symmetry. erewrite map_ext_in; [apply map_id |].
      intros x Hin. cbn beta.
      destruct (Journey.is_row i email x) eqn:Hx; [| reflexivity].
      symmetry. exact (filter_one_inv _ _ _ Hone x Hin Hx).
    - rewrite length_app in Hb. cbn [List.length] in Hb.
      assert (Hb' : (Items.seen_count it + Z.of_nat (List.length ts) < 2 ^ 53)%Z)
        by lia.
      cbn zeta in IH. destruct (IH ltac:(lia)) as (Ht & Hc & Hr).
      set (prev := match rev ts with
                   | [] => it
                   | last :: _ =>
                       Journey.viewed
                         (Items.seen_count it + Z.of_nat (List.length ts))
                         last it
                   end) in *.
      pose proof (filter_map_row i email prev _ it Hr Hone) as Hone'.
      rewrite <- Ht in Hone'.
      pose proof (item_hit getUser t token email i _ prev Hu Hone') as Hs.
      cbn zeta in Hs.
      cbn zeta. rewrite rev_unit, length_app. cbn [List.length].
      split; [| split; [reflexivity | exact Hit]].
      unfold Journey.visits. rewrite fold_left_app. cbn [fold_left].
      fold (Journey.visits getUser token i ts w).
      rewrite Hs, Ht, map_map. apply map_ext.
      intros x. destruct (Journey.is_row i email x) eqn:Hx.
      + rewrite Hr, Hc, add_one_exact by lia.
        replace (Items.seen_count it + Z.of_nat (List.length ts) + 1)%Z
          with (Items.seen_count it + Z.of_nat (List.length ts + 1))%Z by lia.
        subst prev. now destruct (rev ts).
      + now rewrite Hx. }
  intros w' n row. destruct (Inv times Hhi) as (Ht & Hc & Hr).
  fold n in Ht, Hc, Hr. fold row in Ht, Hc, Hr.
  split; [exact Ht | split; [exact Hc |]].
  pose proof (filter_map_row i email row _ it Hr Hone) as Hone'.
  rewrite <- Ht in Hone'.
  exact (item_answer getUser now token email i counted _ row Hu Hone').
Qed.

(** Bob opens his note three times. *)
Lemma bob_opens_his_note_three_times :
  let times := [ "2025-01-15T10:00:00.000Z"; "2025-01-15T10:05:00.000Z";
                 "2025-01-16T08:30:00.000Z" ] in
  let w' := Journey.visits Demo.getUser "token-bob" Demo.item_id times
              Demo.world0 in
  let row := Journey.viewed 5 "2025-01-16T08:30:00.000Z" Demo.bobs_note in
  Store.saved_items (Store.data w') = [row] /\
  Items.seen_count row = 5%Z /\
  fst (Api.item Demo.getUser "2025-01-17T09:00:00.000Z" true
         (Api.bearer "token-bob") Demo.item_id w')
  = Items.success (Store.item_json row).
Proof.
  refine (visits_add_up Demo.getUser "token-bob" "bob@example.com"
            Demo.item_id Demo.world0 Demo.bobs_note
            [ "2025-01-15T10:00:00.000Z"; "2025-01-15T10:05:00.000Z";
              "2025-01-16T08:30:00.000Z" ]
            "2025-01-17T09:00:00.000Z" true eq_refl eq_refl _ _);
    vm_compute; discriminate.
Defined.

(** X10: a detail fetch of an item the caller has no row of, be it
    missing or somebody else's, is answered by one and the same 404
    body in both cases; it sends the one select scoped by identifier and
    owner, no update, and leaves every table as it was: no view is
    counted. *)
Theorem item_hidden_from_others
    (getUser : string -> JS.outcome (option string))
    (now token email i : string) (counted : bool) (w : Store.world) :
  getUser token = JS.Ok (Some email) ->
  (forall it, In it (Store.saved_items (Store.data w)) ->
              Store.id it = i -> Store.user_id it <> email) ->
  let r := Api.item getUser now counted (Api.bearer token) i w in
  fst r = Http.status_json 404
            (Http.error_body "Item not found or access denied") /\
  Store.data (snd r) = Store.data w /\
  Api.queries (snd r)
  = (Api.queries w
     ++ [Store.mkQuery "saved_items" Store.Select (Items.owned i email)])%list.
Proof.
  intros Hu Hnone. apply item_miss; [exact Hu |].
  apply filter_none. intros x Hin. unfold Journey.is_row.
  destruct (String.eqb_spec (Store.id x) i) as [Hi|]; [| reflexivity].
  destruct (String.eqb_spec (Store.user_id x) email) as [Ho|]; [| reflexivity].
  now destruct (Hnone x Hin Hi).
Qed.

(** Ann asks for the note of Bob. *)
Lemma ann_cannot_read_bobs_note :
  let r := Api.item Demo.getUser Demo.now true (Api.bearer "token-ann")
             Demo.item_id Demo.world0 in
  fst r = Http.status_json 404
            (Http.error_body "Item not found or access denied") /\
  Store.data (snd r) = Store.data Demo.world0 /\
  Api.queries (snd r)
  = (Api.queries Demo.world0
     ++ [Store.mkQuery "saved_items" Store.Select
           (Items.owned Demo.item_id "ann@example.com")])%list.
Proof.
  refine (item_hidden_from_others Demo.getUser Demo.now "token-ann"
            "ann@example.com" Demo.item_id true Demo.world0 eq_refl _).
  intros it [<- | []] _. discriminate.
Defined.

(** ** The listing *)








(** ** The extractor, further *)

(** X12: the extractor sends a 200 answer or none.  When its [try]
    block succeeds, the client gets the answer of the block, with status
    200, a title of at most 60 characters and at most five tags; when
    the block throws, for whatever reason (the model call, the parse of
    its reply, a missing field), the catch block throws
    [ReferenceError] in turn, and the client gets what the framework
    makes of a handler that threw: the handler itself sends neither an
    error status nor a fallback record. *)
Theorem analyze_answers_200_or_throws
    (JSON_parse : string -> option JS.value)
    (content contentType : JS.value) (llm : JS.outcome JS.value)
    (unhandled : option Http.response) :
  let o := Analyze.analyze JSON_parse content contentType llm in
  (exists resp,
     Analyze.analyze_try JSON_parse content contentType llm = JS.Ok resp /\
     o = JS.Ok resp /\
     Http.delivered unhandled o = Some resp /\
     Http.status resp = 200 /\
     Analyze.within 60 (JS.get_opt (Http.body resp) "title") /\
     Analyze.within 5 (JS.get_opt (Http.body resp) "tags")) \/
  (exists e,
     Analyze.analyze_try JSON_parse content contentType llm = JS.Throw e /\
     o = JS.Throw JS.ReferenceError /\
     Http.delivered unhandled o = unhandled).
Proof.
  intros o. subst o. unfold Analyze.analyze.
  destruct (Analyze.analyze_try JSON_parse content contentType llm)
    as [resp|e'] eqn:E.
  - left. exists resp. repeat split; try reflexivity;
      apply (analyze_try_title_tags _ _ _ _ _ E).
  - right. exists e'. now repeat split.
Qed.

(** X13: what the validation-and-cleanup step does to a parsed reply.
    It lets a reply through only if it is an object whose title and
    summary are non-empty strings and whose category is truthy; the
    answer carries the first 60 characters of the title and the first
    300 of the summary, and every field other than title, summary and
    tags exactly as the model gave it: the category is not checked
    against the list of categories, and fields such as
    [extracted_info] are relayed. *)
Theorem finish_cuts_and_relays (r : JS.value) (resp : Http.response) :
  Analyze.finish r = JS.Ok resp ->
  exists fs t s,
    r = JS.VObj fs /\
    JS.lookup "title" fs = JS.VStr t /\ t <> "" /\
    JS.lookup "summary" fs = JS.VStr s /\ s <> "" /\
    JS.truthy (JS.lookup "category" fs) = true /\
    Http.status resp = 200 /\
    JS.get_opt (Http.body resp) "title" = JS.VStr (Str.take 60 t) /\
    JS.get_opt (Http.body resp) "summary" = JS.VStr (Str.take 300 s) /\
    forall k, k <> "title" -> k <> "summary" -> k <> "tags" ->
              JS.get_opt (Http.body resp) k = JS.lookup k fs.
Proof.
  unfold Analyze.finish.
  destruct r as [ | | b | n | s0 | l | fs]; simpl; try discriminate.
  destruct (JS.truthy (JS.lookup "title" fs)) eqn:Tt; simpl; [| discriminate].
  destruct (JS.truthy (JS.lookup "category" fs)) eqn:Tc; simpl; [| discriminate].
  destruct (JS.truthy (JS.lookup "summary" fs)) eqn:Ts; simpl; [| discriminate].
  destruct (JS.lookup "title" fs) as [ | | | | t | | ] eqn:Lt; simpl;
    try discriminate.
  destruct (JS.lookup "summary" fs) as [ | | | | s | | ] eqn:Ls; simpl;
    try discriminate.
  destruct (JS.slice0 5 (JS.or_else (JS.lookup "tags" fs) (JS.VArr [])))
    as [tags5|] eqn:G; simpl; [| discriminate].
  intros [= <-]. exists fs, t, s.
  split; [reflexivity |]. split; [exact Lt |].
  split; [intros ->; discriminate |]. split; [exact Ls |].
  split; [intros ->; discriminate |]. split; [exact Tc |].
  split; [reflexivity |].
  unfold JS.get_opt, JS.set. simpl.
  split; [| split].
  - rewrite lookup_set_other by discriminate.
    rewrite lookup_set_other by discriminate. apply lookup_set_same.
  - rewrite lookup_set_other by discriminate. apply lookup_set_same.
  - intros k K1 K2 K3. now rewrite !lookup_set_other by congruence.
Qed.

(** A reply with a category of the model's own making and a field the
    handler does not know. *)
Lemma reply_with_extra_fields :
  let fs := [ ("title", JS.VStr "Tiramisu Recipe");
              ("category", JS.VStr "Desserts");
              ("summary", JS.VStr "Coffee and mascarpone dessert.");
              ("extracted_info", JS.VObj [("price", JS.VNull)]) ] in
  exists resp,
    Analyze.finish (JS.VObj fs) = JS.Ok resp /\
    JS.get_opt (Http.body resp) "category" = JS.VStr "Desserts" /\
    JS.get_opt (Http.body resp) "extracted_info"
    = JS.VObj [("price", JS.VNull)].
Proof.
  intros fs. eexists. split; [reflexivity |].
  destruct (finish_cuts_and_relays (JS.VObj fs) _ eq_refl)
    as (fs' & t & s & E & _ & _ & _ & _ & _ & _ & _ & _ & H).
  injection E as <-.
  split; (rewrite H; [reflexivity | discriminate ..]).
Defined.

Lemma length_take_min (n : nat) (s : string) :
  String.length (Str.take n s) = Nat.min n (String.length s).
Proof.
  unfold Str.take. revert s.
  induction n as [|n IH]; intros [|c s]; simpl; try reflexivity.
  now rewrite IH.
Qed.

(** X14: the shape of an answer of the Instagram branch.  The title is
    a string of 10 to 60 characters, the category is Entertainment, the
    summary is truthy, the platform is instagram, and the three tags are
    instagram, the media kind and social-media.  The media kind is video
    only when the first post marker of the link is [/reel/]: a [/reels/]
    link, like a [/p/] link or a link without marker, is labelled
    photo. *)
Theorem instagram_answer_shape (content : JS.value) (u : string)
    (resp : Http.response) :
  Analyze.instagram content (JS.VStr u) = JS.Ok resp ->
  let media := match Analyze.post_kind u with
               | Some k => if k =? "reel" then "video" else "photo"
               | None => "photo"
               end in
  Http.status resp = 200 /\
  (exists t, JS.get_opt (Http.body resp) "title" = JS.VStr t /\
             10 <= String.length t <= 60) /\
  JS.get_opt (Http.body resp) "category" = JS.VStr "Entertainment" /\
  JS.truthy (JS.get_opt (Http.body resp) "summary") = true /\
  JS.get_opt (Http.body resp) "tags"
  = JS.VArr [JS.VStr "instagram"; JS.VStr media; JS.VStr "social-media"] /\
  JS.get_opt (Http.body resp) "content_type" = JS.VStr media /\
  JS.get_opt (Http.body resp) "platform" = JS.VStr "instagram" /\
  (Analyze.post_kind u = Some "reels" -> media = "photo").
Proof.
  intros H media. revert H. unfold Analyze.instagram.
  set (postType := match Analyze.post_kind u with
                   | Some k => k
                   | None => "post"
                   end).
  assert (Hm : (if postType =? "reel" then "video" else "photo") = media).
  { subst postType media. now destruct (Analyze.post_kind u). }
  rewrite Hm.
  destruct (JS.get content "title") as [t0|] eqn:E0; simpl JS.bind;
    [| discriminate].
  destruct (JS.get content "description") as [d0|] eqn:E1; simpl JS.bind;
    [| discriminate].
  match goal with
  | |- context [JS.bind ?m _] => destruct m as [branded|] eqn:E2
  end; simpl JS.bind; [| discriminate].
  match goal with
  | |- context [JS.bind ?m _] => destruct m as [title|] eqn:E3
  end; simpl JS.bind; [| discriminate].
  destruct (JS.get title "length") as [n|] eqn:E4; simpl JS.bind;
    [| discriminate].
  set (short := negb (JS.truthy title)
                || match n with JS.VNum k => (k <? 10)%Z | _ => false end).
  destruct (JS.get content "author") as [author|] eqn:E5; simpl JS.bind;
    [| discriminate].
  match goal with
  | |- context [JS.bind ?m _] => destruct m as [description|] eqn:E6
  end; simpl JS.bind; [| discriminate].
  match goal with
  | |- context [JS.bind ?m _] => destruct m as [t60|] eqn:E7
  end; simpl JS.bind; [| discriminate].
  intros [= <-]. unfold JS.get_opt. simpl.
  split; [reflexivity |]. split; [| split; [reflexivity | split]].
  - destruct short eqn:Hs.
    + simpl in E7. injection E7 as <-. eexists. split; [reflexivity |].
      destruct (postType =? "reel"); simpl; lia.
    + subst short. apply orb_false_iff in Hs as [_ Hn].
      destruct title as [ | | | | s | | ]; simpl in E7; try discriminate.
      injection E7 as <-. eexists. split; [reflexivity |].
      simpl in E4. injection E4 as <-. unfold JS.nat_value in Hn.
      apply Z.ltb_ge in Hn. split; [| apply length_take].
      rewrite length_take_min. lia.
  - unfold JS.or_else. destruct (JS.truthy description) eqn:Td;
      [exact Td | reflexivity].
  - split; [reflexivity |]. split; [reflexivity |]. split; [reflexivity |].
    intros K. subst media. now rewrite K.
Qed.

(** A link to a reel under [/reels/], scraped with the bare site name as
    its title. *)
Lemma a_reels_link_is_labelled_photo :
  let u := "https://www.instagram.com/reels/Cx1a2b3/" in
  let content := JS.VObj [("url", JS.VStr u); ("title", JS.VStr "Instagram")] in
  exists resp,
    Analyze.instagram content (JS.VStr u) = JS.Ok resp /\
    JS.get_opt (Http.body resp) "content_type" = JS.VStr "photo" /\
    JS.get_opt (Http.body resp) "category" = JS.VStr "Entertainment".
Proof.
  intros u content. eexists. split; [reflexivity |].
  destruct (instagram_answer_shape content u _ eq_refl)
    as (_ & _ & Hc & _ & _ & Hm & _).
  split; [exact Hm | exact Hc].
Defined.

(** ** The source resolver, on a page it can read *)

(** X15: for a link outside Instagram whose page is fetched with an
    [ok] status, the resolver answers 200 with a title of 1 to 100
    characters and a description of 1 to 300 characters, both strings,
    and with the address the fetch ended at, not the one submitted.  The
    title is the trimmed page title cut to 100 characters, or
    [Untitled] when that is empty; the description is the trimmed
    [description] meta cut to 300 characters, else the trimmed
    [og:description], else [No description]. *)
Theorem scrape_page_bounds
    (web : string -> JS.outcome Scrape.page)
    (relay : string -> JS.outcome JS.value) (u : string) (p : Scrape.page) :
  Scrape.on_instagram (Scrape.full_url u) = false ->
  web (Scrape.full_url u) = JS.Ok p ->
  Scrape.page_ok p = true ->
  let cut n s := Str.take n (Str.trim s) in
  exists t d,
    Scrape.scrape web relay (JS.VStr u)
    = JS.Ok (Http.json (JS.VObj [ ("title", JS.VStr t);
                                  ("description", JS.VStr d);
                                  ("url", JS.VStr (Scrape.page_url p)) ])) /\
    1 <= String.length t <= 100 /\
    1 <= String.length d <= 300 /\
    t = (if cut 100 (Scrape.page_title p) =? "" then "Untitled"
         else cut 100 (Scrape.page_title p)) /\
    d = match Scrape.meta_description p, Scrape.og_description p with
        | Some m, Some o =>
            if cut 300 m =? "" then
              if cut 300 o =? "" then "No description" else cut 300 o
            else cut 300 m
        | Some m, None =>
            if cut 300 m =? "" then "No description" else cut 300 m
        | None, Some o =>
            if cut 300 o =? "" then "No description" else cut 300 o
        | None, None => "No description"
        end.
Proof.
  intros Hi Hw Hok cut. unfold Scrape.scrape, Scrape.scrape_try.
  rewrite Hi, Hw. simpl JS.bind. rewrite Hok. simpl negb. cbv iota.
  assert (B : forall n s, cut n s <> "" -> 1 <= String.length (cut n s) <= n).
  { intros n s H. pose proof (length_take n (Str.trim s)). fold (cut n s) in H0.
    destruct (cut n s); [congruence | simpl in *; lia]. }
  unfold Scrape.clip, JS.or_else. simpl JS.truthy.
  fold (cut 100 (Scrape.page_title p)).
  destruct (Scrape.meta_description p) as [m|];
    destruct (Scrape.og_description p) as [o|]; simpl JS.truthy;
    try fold (cut 300 m); try fold (cut 300 o);
    repeat match goal with
           | |- context [?x =? ""] =>
               destruct (String.eqb_spec x "") as [? | ?]
           end;
    simpl negb; cbv iota;
    eexists; eexists; (split; [reflexivity |]);
    repeat split; try (apply B; assumption); simpl; lia.
Qed.

(** A page with a blank [description] meta and an [og:description]. *)
Lemma a_page_is_scraped :
  let p := Scrape.mkPage true "https://example.com/" "  Example Domain  "
             (Some "   ") (Some "An example page") in
  exists t d,
    Scrape.scrape (fun _ => JS.Ok p) (fun _ => JS.Throw JS.TypeError)
      (JS.VStr "example.com")
    = JS.Ok (Http.json (JS.VObj [ ("title", JS.VStr t);
                                  ("description", JS.VStr d);
                                  ("url", JS.VStr "https://example.com/") ])) /\
    t = "Example Domain" /\ d = "An example page".
Proof.
  intros p.
  destruct (scrape_page_bounds (fun _ => JS.Ok p)
              (fun _ => JS.Throw JS.TypeError) "example.com" p
              eq_refl eq_refl eq_refl)
    as (t & d & E & _ & _ & Ht & Hd).
  exists t, d. split; [exact E |]. split; [exact Ht | exact Hd].
Defined.

(** ** Votes and counts *)







Lemma score_elsewhere (fid g : string) (l : list Store.vote) :
  g <> fid ->
  (forall v, In v l -> Store.vote_feature v = fid) ->
  Ledger.score g l = 0%Z.
Proof.
  intros Hg. induction l as [|a l IH]; intros H; simpl; [reflexivity |].
  rewrite IH by (intros v Hv; apply H; now right).
  rewrite (H a (or_introl eq_refl)).
  destruct (String.eqb_spec fid g); [congruence | reflexivity].
Qed.







(** X17: what the vote route refuses before it reaches the store.  A
    missing or falsy [feature_id] and a [vote_type] that is not exactly
    the string [upvote] or [downvote] are answered 400, in that order;
    whenever the route answers 400 it has sent no query and the tables
    are as they were; and it answers 200 only to one of the two vote
    types. *)
Theorem vote_rejections
    (getUser : string -> JS.outcome (option string))
    (token email : string) (rpc_ok : bool) (fid_in vote_in : JS.value)
    (w : Store.world) :
  getUser token = JS.Ok (Some email) ->
  let r := Api.vote getUser rpc_ok (Api.bearer token) fid_in vote_in w in
  let w1 := Store.emit (Store.Verify token) w in
  let bad msg := (Http.status_json 400 (Http.error_body msg), w1) in
  (JS.truthy fid_in = false -> r = bad "feature_id is required") /\
  (JS.truthy fid_in = true ->
   vote_in <> JS.VStr "upvote" -> vote_in <> JS.VStr "downvote" ->
   r = bad "vote_type must be upvote or downvote") /\
  (Http.status (fst r) = 400 ->
   Store.data (snd r) = Store.data w /\ Api.queries (snd r) = Api.queries w) /\
  (Http.status (fst r) = 200 ->
   vote_in = JS.VStr "upvote" \/ vote_in = JS.VStr "downvote").
Proof.
  intros Hu r w1 bad. subst r. unfold Api.vote.
  rewrite (authenticate_bearer _ _ _ _ _ Hu). fold w1.
  unfold Features.vote_feature_handler.
  assert (V : forall s, JS.is_str s vote_in = true -> vote_in = JS.VStr s).
  { intros s H. destruct vote_in; try discriminate. simpl in H.
    apply String.eqb_eq in H. now subst. }
  assert (Q : Api.queries w1 = Api.queries w) by apply queries_emit_verify.
  split; [| split; [| split]].
  - intros ->. reflexivity.
  - intros -> N1 N2. simpl negb. cbv iota.
    destruct (JS.is_str "upvote" vote_in) eqn:E1; [now apply V in E1 |].
    destruct (JS.is_str "downvote" vote_in) eqn:E2; [now apply V in E2 |].
    simpl. now rewrite orb_true_r.
  - destruct (JS.truthy fid_in); simpl negb; cbv iota; [| intros _; now split].
    destruct (negb (JS.truthy vote_in)
              || negb (JS.is_str "upvote" vote_in || JS.is_str "downvote" vote_in));
      [intros _; now split |].
    destruct (JS.to_string fid_in) as [fid|]; [| discriminate].
    unfold Features.select_votes.
    destruct (Store.single _) as [v|]; [destruct (_ =? _) |]; discriminate.
  - destruct (JS.truthy fid_in); simpl negb; cbv iota; [| discriminate].
    destruct (JS.is_str "upvote" vote_in) eqn:E1; [intros _; left; now apply V |].
    destruct (JS.is_str "downvote" vote_in) eqn:E2;
      [intros _; right; now apply V |].
    simpl. rewrite orb_true_r. discriminate.
Qed.

(** Bob votes [yes]. *)
Lemma bob_votes_yes :
  let r := Api.vote Demo.getUser true (Api.bearer "token-bob") (JS.VStr "f-1")
             (JS.VStr "yes") Demo.after_suggestion in
  Http.status (fst r) = 400 /\
  Store.data (snd r) = Store.data Demo.after_suggestion /\
  Api.queries (snd r) = Api.queries Demo.after_suggestion.
Proof.
  pose proof (vote_rejections Demo.getUser "token-bob" "bob@example.com" true
                (JS.VStr "f-1") (JS.VStr "yes") Demo.after_suggestion eq_refl)
    as H.
  cbv zeta in H. destruct H as (_ & _ & H & _).
  split; [reflexivity | exact (H eq_refl)].
Defined.






(** ** The Instagram scraper *)

Lemma append_nonempty (a : string) (c : ascii) (b : string) :
  a ++ String c b <> "".
Proof. destruct a; discriminate. Qed.

Lemma from_oembed_shape (url : JS.value) (postType : string)
    (postId data : JS.value) (resp : Http.response) :
  InstagramScraper.from_oembed url postType postId data = JS.Ok resp ->
  Http.status resp = 200 /\
  JS.get_opt (Http.body resp) "type" = JS.VStr "instagram" /\
  JS.get_opt (Http.body resp) "url" = url /\
  exists t, JS.get_opt (Http.body resp) "title" = JS.VStr t /\ t <> "" /\
            JS.get_opt (Http.body resp) "description" = JS.VStr t.
Proof.
  unfold InstagramScraper.from_oembed.
  destruct (JS.get data "title") as [t0|]; simpl JS.bind; [| discriminate].
  destruct (JS.or_else t0 (JS.VStr "")) as [ | | | | t | | ]; try discriminate.
  destruct (JS.get data "author_name") as [author|]; simpl JS.bind;
    [| discriminate].
  set (c := InstagramScraper.clean_title t).
  destruct ((c =? "") || (String.length c <? 10)%nat || (c =? "Instagram"))
    eqn:G.
  - destruct (JS.to_string author) as [a|]; simpl JS.bind; [| discriminate].
    destruct (JS.get data "thumbnail_url") as [th|]; simpl JS.bind;
      [| discriminate].
    intros [= <-]. repeat split. eexists. split; [reflexivity |].
    split; [| reflexivity]. apply append_nonempty.
  - simpl JS.bind.
    destruct (JS.get data "thumbnail_url") as [th|]; simpl JS.bind;
      [| discriminate].
    intros [= <-]. repeat split. exists c. split; [reflexivity |].
    split; [| reflexivity].
    apply orb_false_iff in G as [G _]. apply orb_false_iff in G as [G _].
    now apply String.eqb_neq in G.
Qed.

Lemma generic_presents (url : JS.value) (postType : string) (postId : JS.value) :
  InstagramScraper.presents url (InstagramScraper.generic url postType postId).
Proof.
  repeat split. eexists. split; [reflexivity |].
  destruct (postType =? "reel"); discriminate.
Qed.

Lemma last_resort_presents (url : JS.value) :
  InstagramScraper.presents url (InstagramScraper.last_resort url).
Proof. repeat split. eexists. split; [reflexivity | discriminate]. Qed.

Lemma scrape_instagram_marked
    (oembed : string -> JS.outcome InstagramScraper.oembed_reply) (u : string) :
  Str.includes "instagram.com" u || Str.includes "instagr.am" u = true ->
  InstagramScraper.presents (JS.VStr u)
    (InstagramScraper.scrape_instagram oembed (JS.VStr u)).
Proof.
  intros H.
  unfold InstagramScraper.scrape_instagram,
    InstagramScraper.scrape_instagram_try.
  cbn [JS.includes JS.bind].
  assert (E : (if Str.includes "instagram.com" u then JS.Ok true
               else JS.Ok (Str.includes "instagr.am" u)) = JS.Ok true).
  { destruct (Str.includes "instagram.com" u); [reflexivity |].
    simpl in H. now rewrite H. }
  rewrite E. cbn [JS.bind negb].
  destruct (oembed u) as [rp|]; cbn [JS.bind]; [| apply generic_presents].
  destruct (InstagramScraper.reply_ok rp); [| apply generic_presents].
  destruct (InstagramScraper.reply_json rp) as [d|]; cbn [JS.bind];
    [| apply generic_presents].
  destruct (InstagramScraper.from_oembed _ _ _ d) as [resp|] eqn:F;
    cbn [JS.bind]; [| apply generic_presents].
  apply from_oembed_shape in F as (F1 & F2 & F3 & t & F4 & F5 & _).
  repeat split; try assumption. exists t. now split.
Qed.

Lemma scrape_instagram_cases
    (oembed : string -> JS.outcome InstagramScraper.oembed_reply)
    (url : JS.value) :
  let r := InstagramScraper.scrape_instagram oembed url in
  (r = Http.status_json 400 (Http.error_body "Not an Instagram URL") /\
   JS.includes "instagram.com" url = JS.Ok false /\
   JS.includes "instagr.am" url = JS.Ok false) \/
  ((JS.includes "instagram.com" url = JS.Ok false ->
    JS.includes "instagr.am" url <> JS.Ok false) /\
   InstagramScraper.presents url r).
Proof.
  intros r. subst r.
  destruct url as [ | | b | n | u | l | fs];
    try (right; split; [discriminate | apply last_resort_presents]).
  - destruct (Str.includes "instagram.com" u || Str.includes "instagr.am" u)
      eqn:M.
    + right. split; [| now apply scrape_instagram_marked].
      cbn [JS.includes]. intros [= A] [= B]. now rewrite A, B in M.
    + left. apply orb_false_iff in M as [A B].
      unfold InstagramScraper.scrape_instagram,
        InstagramScraper.scrape_instagram_try.
      cbn [JS.includes JS.bind]. rewrite A, B. repeat split.
  - unfold InstagramScraper.scrape_instagram,
      InstagramScraper.scrape_instagram_try.
    cbn [JS.includes JS.bind].
    destruct (existsb (JS.is_str "instagram.com") l) eqn:A; cbn [JS.bind negb].
    + right. split; [discriminate | apply last_resort_presents].
    + destruct (existsb (JS.is_str "instagr.am") l) eqn:B; cbn [negb].
      * right. split; [discriminate | apply last_resort_presents].
      * left. repeat split.
Qed.

(** X20: the Instagram scraper answers every request, with 400 or 200.
    It answers 400, with the message [Not an Instagram URL], exactly when
    the submitted [url] is a string or an array in which neither
    [instagram.com] nor [instagr.am] is found; every other request, a
    missing or malformed [url] and a failing oEmbed call included, is
    answered 200 with the type [instagram], the [url] as submitted and a
    non-empty title. *)
Theorem scrape_instagram_answers
    (oembed : string -> JS.outcome InstagramScraper.oembed_reply)
    (url : JS.value) :
  let r := InstagramScraper.scrape_instagram oembed url in
  let unmarked := JS.includes "instagram.com" url = JS.Ok false /\
                  JS.includes "instagr.am" url = JS.Ok false in
  (unmarked ->
   r = Http.status_json 400 (Http.error_body "Not an Instagram URL")) /\
  (~ unmarked -> InstagramScraper.presents url r) /\
  (Http.status r = 400 \/ Http.status r = 200).
Proof.
  intros r unmarked. subst r unmarked.
  destruct (scrape_instagram_cases oembed url) as [(E & A & B) | (N & P)].
  - split; [intros _; exact E |]. split; [intros H; now destruct H |].
    left. now rewrite E.
  - split; [intros [A B]; now destruct (N A) |]. split; [intros _; exact P |].
    right. apply P.
Qed.

(** X21: the source resolver and the Instagram scraper, composed.  The
    resolver hands a link to the scraper only after finding one of the
    two Instagram markers in it, so the scraper never refuses what it is
    handed: with the scraper as the relay, the resolver answers an
    Instagram link with the scraper's record of type [instagram], with a
    non-empty title and, as [url], the link it fetched, which is the
    submitted one with [https://] in front unless that began with
    [http]. *)
Theorem scrape_relays_instagram
    (web : string -> JS.outcome Scrape.page)
    (oembed : string -> JS.outcome InstagramScraper.oembed_reply) (u : string) :
  Scrape.on_instagram (Scrape.full_url u) = true ->
  let relay x :=
    JS.Ok (Http.body (InstagramScraper.scrape_instagram oembed (JS.VStr x))) in
  exists r,
    Scrape.scrape web relay (JS.VStr u) = JS.Ok r /\
    Http.body r
    = Http.body (InstagramScraper.scrape_instagram oembed
                   (JS.VStr (Scrape.full_url u))) /\
    InstagramScraper.presents (JS.VStr (Scrape.full_url u)) r.
Proof.
  intros H relay. unfold Scrape.scrape, Scrape.scrape_try. rewrite H.
  subst relay. cbn [JS.bind]. eexists. split; [reflexivity |].
  split; [reflexivity |].
  pose proof (scrape_instagram_marked oembed (Scrape.full_url u) H)
    as (P1 & P2 & P3 & P4).
  repeat split; assumption.
Qed.

(** A reel is resolved while the oEmbed endpoint is down. *)
Lemma a_reel_is_resolved_offline :
  let relay x :=
    JS.Ok (Http.body (InstagramScraper.scrape_instagram
                        (fun _ => JS.Throw (JS.Error "fetch failed"))
                        (JS.VStr x))) in
  exists r,
    Scrape.scrape (fun _ => JS.Throw (JS.Error "fetch failed")) relay
      (JS.VStr "instagram.com/reel/Cx1a2b3/") = JS.Ok r /\
    JS.get_opt (Http.body r) "title" = JS.VStr "Instagram Reel" /\
    JS.get_opt (Http.body r) "postId" = JS.VStr "Cx1a2b3" /\
    JS.get_opt (Http.body r) "url"
    = JS.VStr "https://instagram.com/reel/Cx1a2b3/".
Proof.
  intros relay.
  destruct (scrape_relays_instagram
              (fun _ => JS.Throw (JS.Error "fetch failed"))
              (fun _ => JS.Throw (JS.Error "fetch failed"))
              "instagram.com/reel/Cx1a2b3/" eq_refl) as (r & E & B & _ & _ & U & _).
  exists r. split; [exact E |]. rewrite B. repeat split.
Defined.

(** ** Ingestion of a link *)

(** X22: a link is saved even when its address cannot be parsed.  For
    the type [url], with the resolver's record and the extractor's
    record at hand and the store taking the row, the ingestion answers
    200 and appends one row that keeps the submitted payload, has no
    image, and takes title, summary, category and tags from the
    extractor's record as they are; when the store refuses the row, the
    answer is 500 with the message [Failed to save to database] and no
    table changes.  If the resolved address parses, the preview carries
    the address, its host as domain, the resolver's title and
    description and a favicon link built from the host, and the metadata
    carry host and protocol; if it does not parse, the preview carries
    the submitted payload in place of the address, no domain and no
    favicon, and the metadata are empty. *)
Theorem link_saved_with_preview
    (getUser : string -> JS.outcome (option string))
    (now fresh_id token email : string)
    (upload scraped analysis : JS.outcome JS.value)
    (url_parts : JS.value -> JS.outcome (string * string))
    (content : JS.value) (sd pc : list (string * JS.value)) (w : Store.world) :
  getUser token = JS.Ok (Some email) ->
  scraped = JS.Ok (JS.VObj sd) ->
  analysis = JS.Ok (JS.VObj pc) ->
  let r accepted :=
    Api.process_content getUser now fresh_id upload scraped analysis
      url_parts accepted (Api.bearer token) content (JS.VStr "url") w in
  (fst (r false)
   = Http.status_json 500
       (JS.VObj [("success", JS.VBool false);
                 ("error", JS.VStr "Failed to save to database")]) /\
   Store.data (snd (r false)) = Store.data w) /\
  let r := r true in
  exists row,
    fst r = Items.success (Store.item_json row) /\
    Store.saved_items (Store.data (snd r))
    = (Store.saved_items (Store.data w) ++ [row])%list /\
    Store.original_content row = content /\
    Store.original_image_url row = JS.VNull /\
    Store.title row = JS.lookup "title" pc /\
    Store.ai_summary row = JS.lookup "summary" pc /\
    Store.ai_category row = JS.lookup "category" pc /\
    Store.ai_tags row = JS.lookup "tags" pc /\
    match url_parts (JS.lookup "url" sd) with
    | JS.Ok (host, protocol) =>
        Store.preview_data row
        = JS.VObj [ ("url", JS.lookup "url" sd);
                    ("domain", JS.VStr host);
                    ("title", JS.lookup "title" sd);
                    ("description", JS.lookup "description" sd);
                    ("favicon",
                     JS.VStr ("https://www.google.com/s2/favicons?domain="
                              ++ host ++ "&sz=64")) ] /\
        Store.content_metadata row
        = JS.VObj [("domain", JS.VStr host); ("protocol", JS.VStr protocol)]
    | JS.Throw _ =>
        Store.preview_data row
        = JS.VObj [ ("url", content);
                    ("title", JS.lookup "title" sd);
                    ("description", JS.lookup "description" sd) ] /\
        Store.content_metadata row = JS.VObj []
    end.
Proof.
  intros Hu -> -> r. subst r. cbv beta zeta. unfold Api.process_content.
  rewrite !(authenticate_bearer _ _ _ _ _ Hu).
  unfold Orchestrator.process_content, Orchestrator.gather,
    Orchestrator.gather_url, Orchestrator.new_row.
  cbn [JS.is_str JS.bind JS.get]. simpl ("url" =? "image"). cbv iota.
  simpl ("url" =? "url"). cbv iota.
  destruct (url_parts (JS.lookup "url" sd)) as [[host protocol]|e];
    cbn [JS.bind JS.get fst snd Orchestrator.processedContent
         Orchestrator.imageUrl Orchestrator.previewData
         Orchestrator.contentMetadata];
    unfold Store.insert_item;
    cbn [fst snd Store.data Store.with_data Store.set_items Store.saved_items];
    (split; [now split |]); eexists; repeat split.
Qed.

(** Ann saves a link that was resolved to an address without scheme. *)
Lemma ann_saves_an_unparsable_link :
  let sd := [ ("title", JS.VStr "Saved Link");
              ("description", JS.VStr "Link saved: example.com/a");
              ("url", JS.VStr "example.com/a") ] in
  let pc := [ ("title", JS.VStr "Example"); ("category", JS.VStr "Other");
              ("summary", JS.VStr "An example."); ("tags", JS.VArr []) ] in
  let r := Api.process_content Demo.getUser Demo.now "id-1"
             (JS.Throw JS.TypeError) (JS.Ok (JS.VObj sd)) (JS.Ok (JS.VObj pc))
             (fun _ => JS.Throw JS.TypeError) true (Api.bearer "token-ann")
             (JS.VStr "example.com/a") (JS.VStr "url") Demo.world0 in
  exists row,
    fst r = Items.success (Store.item_json row) /\
    Store.saved_items (Store.data (snd r)) = [Demo.bobs_note; row] /\
    Store.preview_data row
    = JS.VObj [ ("url", JS.VStr "example.com/a");
                ("title", JS.VStr "Saved Link");
                ("description", JS.VStr "Link saved: example.com/a") ] /\
    Store.content_metadata row = JS.VObj [].
Proof.
  intros sd pc r.
  destruct (link_saved_with_preview Demo.getUser Demo.now "id-1" "token-ann"
              "ann@example.com" (JS.Throw JS.TypeError) (JS.Ok (JS.VObj sd))
              (JS.Ok (JS.VObj pc)) (fun _ => JS.Throw JS.TypeError)
              (JS.VStr "example.com/a") sd pc Demo.world0
              eq_refl eq_refl eq_refl)
    as (_ & row & H1 & H2 & _ & _ & _ & _ & _ & _ & H3 & H4).
  exists row. repeat split; assumption.
Defined.

(** ** Image storage *)

Lemma word_run_append (kind rest : string) :
  Str.all_chars Storage.is_word kind = true ->
  Storage.word_run (kind ++ String ";" rest) = String.length kind.
Proof.
  induction kind as [|c k IH]; simpl; [reflexivity |].
  intros H. apply andb_true_iff in H as [Hc Hk]. rewrite Hc. f_equal. auto.
Qed.

Lemma drop_append (a b : string) : Str.drop (String.length a) (a ++ b) = b.
Proof. induction a as [|c a IH]; simpl; [now destruct b | exact IH]. Qed.

Lemma drop_drop (n m : nat) (x : string) :
  Str.drop (n + m) x = Str.drop n (Str.drop m x).
Proof.
  revert x. induction m as [|m IH]; intros x.
  - now rewrite Nat.add_0_r.
  - rewrite Nat.add_succ_r. destruct x as [|c x]; simpl; [now destruct n |].
    apply IH.
Qed.

(** X23: the data-URL header is taken off an image payload before it is
    decoded.  A payload that opens with [data:image/], a non-empty run
    of word characters and [;base64,] is stored without that header,
    whatever follows it; a payload that does not open with
    [data:image/] is stored as it is. *)
Theorem strip_data_url_header (kind payload s : string) :
  (kind <> "" -> Str.all_chars Storage.is_word kind = true ->
   Storage.strip_data_url ("data:image/" ++ kind ++ ";base64," ++ payload)
   = payload) /\
  (prefix "data:image/" s = false -> Storage.strip_data_url s = s).
Proof.
  split.
  - intros Hk Hw. unfold Storage.strip_data_url.
    change (prefix "data:image/" ("data:image/" ++ kind ++ ";base64," ++ payload))
      with (prefix "" (kind ++ ";base64," ++ payload)).
    rewrite prefix_nil.
    change (Str.drop 11 ("data:image/" ++ kind ++ ";base64," ++ payload))
      with (kind ++ ";base64," ++ payload).
    change (";base64," ++ payload) with (String ";" ("base64," ++ payload)).
    rewrite (word_run_append kind _ Hw).
    assert (L : (0 <? String.length kind)%nat = true).
    { destruct kind; [congruence | reflexivity]. }
    rewrite L, drop_append. cbn [andb].
    change (prefix ";base64," (String ";" ("base64," ++ payload)))
      with (prefix "" payload).
    rewrite prefix_nil.
    replace (String.length kind + 8) with (8 + String.length kind) by lia.
    rewrite drop_drop, drop_append. reflexivity.
  - intros H. unfold Storage.strip_data_url. now rewrite H.
Qed.


(** ** Link previews *)

Lemma tidy_bound (n : nat) (v r : JS.value) :
  Preview.tidy n v = JS.Ok r ->
  exists t, r = JS.VStr t /\ String.length t <= n.
Proof.
  destruct v; simpl; try discriminate. intros [= <-].
  eexists. split; [reflexivity | apply length_take].
Qed.

(** X25: the answers of the preview route.  A missing or empty [url] is
    answered 400.  Otherwise the handler sends no error status of its
    own: whatever it answers is 200 with [success] true and a preview
    whose title is a string of at most 100 and whose description is a
    string of at most 200 characters.  When reading the page fails, the
    answer is the basic preview, whose site name is the host of the
    [url] as submitted; and if that [url] does not parse as an address,
    the handler throws out of its catch block: it sends nothing, and the
    client gets what the framework makes of a handler that threw. *)
Theorem url_preview_answers
    (web : string -> JS.outcome Preview.page)
    (hostname : JS.value -> JS.outcome string) (url : JS.value)
    (unhandled : option Http.response) :
  let r := Preview.url_preview web hostname url in
  let got := Http.delivered unhandled r in
  (JS.truthy url = false ->
   r = JS.Ok Preview.required /\ got = Some Preview.required) /\
  (JS.truthy url = true -> forall resp, r = JS.Ok resp ->
     Http.status resp = 200 /\
     JS.get_opt (Http.body resp) "success" = JS.VBool true /\
     exists t d,
       JS.get_opt (JS.get_opt (Http.body resp) "preview") "title" = JS.VStr t /\
       String.length t <= 100 /\
       JS.get_opt (JS.get_opt (Http.body resp) "preview") "description"
       = JS.VStr d /\
       String.length d <= 200) /\
  (JS.truthy url = true ->
   forall e, Preview.preview_try web hostname url = JS.Throw e ->
     (forall h, hostname url = JS.Ok h ->
        r = JS.Ok (Preview.answer (Preview.basic h url)) /\
        got = Some (Preview.answer (Preview.basic h url))) /\
     (forall e', hostname url = JS.Throw e' ->
        r = JS.Throw e' /\ got = unhandled)).
Proof.
  intros r got. subst got r. unfold Preview.url_preview.
  split; [intros ->; now split |]. split.
  - intros -> resp. cbn [negb].
    destruct (Preview.preview_try web hostname url) as [r0|e] eqn:T.
    + intros [= <-]. revert T. unfold Preview.preview_try.
      destruct url as [ | | | | u | | ]; try discriminate.
      destruct (web (Scrape.full_url u)) as [p|]; cbn [JS.bind];
        [| discriminate].
      destruct (negb (Preview.page_ok p)); [discriminate |].
      match goal with
      | |- context [JS.bind ?m _] => destruct m as [site|]
      end; cbn [JS.bind]; [| discriminate].
      match goal with
      | |- context [JS.bind ?m _] => destruct m as [t|] eqn:Tt
      end; cbn [JS.bind]; [| discriminate].
      match goal with
      | |- context [JS.bind ?m _] => destruct m as [d|] eqn:Td
      end; cbn [JS.bind]; [| discriminate].
      intros [= <-].
      apply tidy_bound in Tt as (t' & -> & Lt).
      apply tidy_bound in Td as (d' & -> & Ld).
      split; [reflexivity |]. split; [reflexivity |].
      exists t', d'. repeat split; assumption.
    + destruct (hostname url) as [h|]; cbn [JS.bind]; [| discriminate].
      intros [= <-]. split; [reflexivity |]. split; [reflexivity |].
      eexists. eexists. repeat split; simpl; lia.
  - intros -> e T. rewrite T. cbn [negb]. split.
    + intros h ->. now split.
    + intros e' ->. now split.
Qed.

(** ** Reading the feedback *)





(** ** Further edges of the saved-item routes *)

(** X27: the toggle wants a boolean.  Whatever the identifier, a
    [completed] that is not one of the two booleans, such as the string
    [true], a number or nothing at all, is answered 400 with the message
    on required fields; no query is sent and the tables are as they
    were. *)
Theorem toggle_completion_requires_boolean
    (getUser : string -> JS.outcome (option string))
    (now token email : string) (itemId completed : JS.value)
    (w : Store.world) :
  getUser token = JS.Ok (Some email) ->
  (forall b, completed <> JS.VBool b) ->
  let r := Api.toggle_completion getUser now (Api.bearer token)
             itemId completed w in
  fst r = Http.status_json 400
            (Http.error_body
               "Invalid request: itemId and completed (boolean) are required") /\
  Api.queries (snd r) = Api.queries w /\
  Store.data (snd r) = Store.data w.
Proof.
  intros Hu Hb r. subst r. unfold Api.toggle_completion.
  rewrite (authenticate_bearer _ _ _ _ _ Hu). unfold Items.toggle_completion.
  assert (B : Items.is_bool completed = false).
  { destruct completed; try reflexivity. now destruct (Hb b). }
  rewrite B. cbn [negb]. rewrite orb_true_r. cbn [fst snd].
  repeat split. apply queries_emit_verify.
Qed.

(** Bob sends the string [true]. *)
Lemma bob_sends_true_as_text :
  let r := Api.toggle_completion Demo.getUser Demo.now (Api.bearer "token-bob")
             (JS.VStr Demo.item_id) (JS.VStr "true") Demo.world0 in
  fst r = Http.status_json 400
            (Http.error_body
               "Invalid request: itemId and completed (boolean) are required") /\
  Api.queries (snd r) = Api.queries Demo.world0 /\
  Store.data (snd r) = Store.data Demo.world0.
Proof.
  refine (toggle_completion_requires_boolean Demo.getUser Demo.now "token-bob"
            "bob@example.com" (JS.VStr Demo.item_id) (JS.VStr "true")
            Demo.world0 eq_refl _).
  intros b. discriminate.
Defined.

(** X28: the content type is not checked.  Every type other than
    [image] and [url], a missing one included, is ingested as a text
    note: with the extractor's record at hand, a payload that is a string
    with at least one character that is not whitespace is, the store
    taking the row, stored in a new row under the type as declared,
    without image or preview, with its word count, its length and its
    read time as metadata, and is answered 500 with the message
    [Failed to save to database], nothing being stored, when the store
    refuses the row; a payload that is not a string is answered 500 and
    nothing is stored. *)
Theorem any_other_type_is_a_note
    (getUser : string -> JS.outcome (option string))
    (now fresh_id token email : string)
    (upload scraped analysis : JS.outcome JS.value)
    (url_parts : JS.value -> JS.outcome (string * string))
    (content contentType : JS.value) (pc : list (string * JS.value))
    (w : Store.world) :
  getUser token = JS.Ok (Some email) ->
  contentType <> JS.VStr "image" -> contentType <> JS.VStr "url" ->
  analysis = JS.Ok (JS.VObj pc) ->
  let r accepted :=
    Api.process_content getUser now fresh_id upload scraped analysis
      url_parts accepted (Api.bearer token) content contentType w in
  (forall s, content = JS.VStr s -> Str.trim s <> "" ->
     (fst (r false)
      = Http.status_json 500
          (JS.VObj [("success", JS.VBool false);
                    ("error", JS.VStr "Failed to save to database")]) /\
      Store.data (snd (r false)) = Store.data w) /\
     exists row,
       fst (r true) = Items.success (Store.item_json row) /\
       Store.saved_items (Store.data (snd (r true)))
       = (Store.saved_items (Store.data w) ++ [row])%list /\
       Store.content_type row = contentType /\
       Store.original_content row = JS.VStr s /\
       Store.original_image_url row = JS.VNull /\
       Store.preview_data row = JS.VNull /\
       Store.content_metadata row
       = JS.VObj
           [ ("word_count", JS.nat_value (TextMeta.count_words s));
             ("char_count", JS.nat_value (String.length s));
             ("estimated_read_time",
              JS.nat_value
                (TextMeta.estimated_read_time (TextMeta.count_words s))) ]) /\
  ((forall s, content <> JS.VStr s) ->
   forall accepted,
     fst (r accepted)
     = Http.status_json 500
         (JS.VObj [("success", JS.VBool false);
                   ("error", JS.VStr "Failed to process content")]) /\
     Store.data (snd (r accepted)) = Store.data w).
Proof.
  intros Hu Hi Hl -> r. subst r. cbv beta. unfold Api.process_content.
  rewrite !(authenticate_bearer _ _ _ _ _ Hu).
  assert (I : JS.is_str "image" contentType = false).
  { destruct contentType; try reflexivity. simpl.
    destruct (String.eqb_spec s "image"); [now subst | reflexivity]. }
  assert (L : JS.is_str "url" contentType = false).
  { destruct contentType; try reflexivity. simpl.
    destruct (String.eqb_spec s "url"); [now subst | reflexivity]. }
  unfold Orchestrator.process_content, Orchestrator.gather,
    Orchestrator.gather_text, Orchestrator.new_row.
  rewrite I, L. cbn [JS.bind]. split.
  - intros s -> Hs.
    cbn [JS.bind JS.get Orchestrator.processedContent Orchestrator.imageUrl
         Orchestrator.previewData Orchestrator.contentMetadata].
    unfold Store.insert_item.
    cbn [fst snd Store.data Store.with_data Store.set_items Store.saved_items].
    split; [now split |]. eexists. repeat split.
    cbn [Store.content_metadata]. unfold TextMeta.metadata.
    now rewrite (words_of_nonblank _ Hs).
  - intros Hn accepted. rewrite (authenticate_bearer _ _ _ _ _ Hu).
    destruct content as [| |b|n|s|l|fs]; try (split; reflexivity).
    now destruct (Hn s).
Qed.

(** Ann saves a note under a type of her own. *)
Lemma ann_saves_a_video_note :
  let pc := [ ("title", JS.VStr "Call mom"); ("category", JS.VStr "Other");
              ("summary", JS.VStr "Call mom."); ("tags", JS.VArr []) ] in
  let r := Api.process_content Demo.getUser Demo.now "id-2"
             (JS.Throw JS.TypeError) (JS.Throw JS.TypeError)
             (JS.Ok (JS.VObj pc)) (fun _ => JS.Throw JS.TypeError) true
             (Api.bearer "token-ann") (JS.VStr "Call mom") (JS.VStr "video")
             Demo.world0 in
  exists row,
    fst r = Items.success (Store.item_json row) /\
    Store.content_type row = JS.VStr "video" /\
    JS.get_opt (Store.content_metadata row) "word_count" = JS.VNum 2.
Proof.
  intros pc r.
  destruct (any_other_type_is_a_note Demo.getUser Demo.now "id-2" "token-ann"
              "ann@example.com" (JS.Throw JS.TypeError) (JS.Throw JS.TypeError)
              (JS.Ok (JS.VObj pc)) (fun _ => JS.Throw JS.TypeError)
              (JS.VStr "Call mom") (JS.VStr "video") pc Demo.world0
              eq_refl ltac:(discriminate) ltac:(discriminate) eq_refl)
    as [H _].
  destruct (H "Call mom" eq_refl ltac:(discriminate))
    as (_ & row & H1 & _ & H3 & _ & _ & _ & H7).
  exists row. split; [exact H1 |]. split; [exact H3 |]. now rewrite H7.
Defined.

(** ** Suggestions that are turned away *)

(** X29: what the suggestion route refuses before it reaches the store.
    A missing title and a title that is empty once trimmed, so also one
    made of whitespace only, are answered 400; then a title of more than
    100 characters, counted before trimming; then a description of more
    than 500 characters.  Whenever the route answers 400 it has sent no
    query and the tables are as they were. *)
Theorem submit_feature_rejections
    (getUser : string -> JS.outcome (option string))
    (fresh_id token email : string) (title description : option string)
    (w : Store.world) :
  getUser token = JS.Ok (Some email) ->
  let r := Api.submit_feature getUser fresh_id (Api.bearer token)
             title description w in
  let w1 := Store.emit (Store.Verify token) w in
  let bad msg := (Http.status_json 400 (Http.error_body msg), w1) in
  (title = None -> r = bad "Feature title is required") /\
  (forall t, title = Some t -> Str.trim t = "" ->
     r = bad "Feature title is required") /\
  (forall t, title = Some t -> Str.trim t <> "" -> 100 < String.length t ->
     r = bad "Title too long (max 100 characters)") /\
  (forall t d, title = Some t -> Str.trim t <> "" -> String.length t <= 100 ->
     description = Some d -> 500 < String.length d ->
     r = bad "Description too long (max 500 characters)") /\
  (Http.status (fst r) = 400 ->
   Store.data (snd r) = Store.data w /\ Api.queries (snd r) = Api.queries w).
Proof.
  intros Hu r w1 bad. subst r. unfold Api.submit_feature.
  rewrite (authenticate_bearer _ _ _ _ _ Hu). fold w1.
  unfold Features.submit_feature.
  assert (Z : forall t, Str.trim t <> "" ->
                (String.length (Str.trim t) =? 0)%nat = false).
  { intros t H. destruct (Str.trim t); [congruence | reflexivity]. }
  split; [| split; [| split; [| split]]].
  - intros ->. reflexivity.
  - intros t -> E. now rewrite E.
  - intros t -> Ht Hl. rewrite (Z t Ht).
    destruct (Nat.ltb_spec 100 (String.length t)); [reflexivity | lia].
  - intros t d -> Ht Hl -> Hd. rewrite (Z t Ht).
    destruct (Nat.ltb_spec 100 (String.length t)); [lia |].
    destruct (Nat.ltb_spec 500 (String.length d)); [reflexivity | lia].
  - assert (Q : Api.queries w1 = Api.queries w) by apply queries_emit_verify.
    destruct title as [t|]; [| intros _; now split].
    destruct (String.length (Str.trim t) =? 0)%nat; [intros _; now split |].
    destruct (100 <? String.length t)%nat; [intros _; now split |].
    destruct (match description with
              | Some d => (500 <? String.length d)%nat
              | None => false
              end); [intros _; now split |].
    unfold Features.select_features. cbn [Store.data Store.emit].
    destruct (firstn 1 _); discriminate.
Qed.

(** Ann suggests three blanks. *)
Lemma ann_suggests_blanks :
  let r := Api.submit_feature Demo.getUser "f-9" (Api.bearer "token-ann")
             (Some "   ") None Demo.world1 in
  fst r = Http.status_json 400 (Http.error_body "Feature title is required") /\
  Store.data (snd r) = Store.data Demo.world1 /\
  Api.queries (snd r) = Api.queries Demo.world1.
Proof.
  pose proof (submit_feature_rejections Demo.getUser "f-9" "token-ann"
                "ann@example.com" (Some "   ") None Demo.world1 eq_refl) as H.
  cbv zeta in H. destruct H as (_ & H1 & _ & _ & H2).
  split; [now rewrite (H1 "   " eq_refl eq_refl) |].
  apply H2. now rewrite (H1 "   " eq_refl eq_refl).
Defined.

(** ** The fences of a model reply *)

Lemma remove_all_absent (pat s : string) :
  Str.includes pat s = false -> Str.remove_all pat s = s.
Proof.
  unfold Str.remove_all. induction s as [|c s IH]; [reflexivity |].
  intros H. cbn [Str.includes] in H. apply orb_false_iff in H as [P I].
  cbn [Str.remove_all_from]. rewrite P. f_equal. now apply IH.
Qed.

Lemma remove_all_run (a b : string) :
  Str.has_char "`" a = false ->
  Str.remove_all Normalizer.backtick6 (a ++ Normalizer.backtick6 ++ b)
  = a ++ Str.remove_all Normalizer.backtick6 b.
Proof.
  unfold Str.remove_all. induction a as [|c a IH]; intros H.
  - unfold Normalizer.backtick6. simpl. now destruct b.
  - cbn [Str.has_char] in H. apply orb_false_iff in H as [Hc Ha].
    change ((String c a ++ Normalizer.backtick6 ++ b))
      with (String c (a ++ Normalizer.backtick6 ++ b)).
    cbn [Str.remove_all_from].
    assert (P : prefix Normalizer.backtick6
                  (String c (a ++ Normalizer.backtick6 ++ b)) = false).
    { unfold Normalizer.backtick6. cbn [prefix].
      destruct (ascii_dec "`" c) as [<- | _]; [| reflexivity].
      now rewrite Ascii.eqb_refl in Hc. }
    rewrite P. cbn [append]. f_equal. now apply IH.
Qed.

(** X30: the fence removal of the normalizer takes out runs of six
    backticks and nothing else.  A reply without six backticks in a row
    is only trimmed, so the three-backtick fences of a markdown code
    block stay in the text that is parsed: such a reply is read through
    the brace span alone, and if it has no brace span, as a fenced array
    has none, the normalizer throws whenever the parser refuses the
    fenced text.  Where a run of six backticks follows a text free of
    backticks, the run goes and the text around it stays, whitespace
    included; the trim is of the two ends of the whole. *)
Theorem fences_of_three_stay
    (JSON_parse : string -> option JS.value) (s : string) :
  Str.includes Normalizer.backtick6 s = false ->
  Normalizer.cleaned s = Str.trim s /\
  (s <> "" ->
   Normalizer.cleanJSONResponse JSON_parse (JS.VStr s)
   = match JSON_parse (Str.trim s) with
     | Some v => JS.Ok v
     | None =>
         match Normalizer.brace_span (Str.trim s) with
         | Some m =>
             match JSON_parse m with
             | Some v => JS.Ok v
             | None => JS.Throw Normalizer.parse_failure
             end
         | None => JS.Throw Normalizer.parse_failure
         end
     end) /\
  (forall b, Str.has_char "`" s = false ->
     Str.remove_all Normalizer.backtick6 (s ++ Normalizer.backtick6 ++ b)
     = s ++ Str.remove_all Normalizer.backtick6 b /\
     Normalizer.cleaned (s ++ Normalizer.backtick6 ++ b)
     = Str.trim (s ++ Str.remove_all Normalizer.backtick6 b)).
Proof.
  intros H.
  assert (C : Normalizer.cleaned s = Str.trim s).
  { unfold Normalizer.cleaned. now rewrite (remove_all_absent _ _ H). }
  split; [exact C | split].
  - intros Hs. unfold Normalizer.cleanJSONResponse.
    destruct s as [|c s']; [now elim Hs |]. cbn [JS.truthy negb].
    simpl (negb _). cbv iota zeta. now rewrite C.
  - intros b Hb. unfold Normalizer.cleaned.
    now rewrite (remove_all_run _ _ Hb).
Qed.

(** A fenced array is refused, a fenced object is read through its
    braces, and the blanks around a run of six backticks stay. *)
Lemma a_fenced_array_is_refused :
  let fenced := "```json [1, 2] ```" in
  Normalizer.cleaned fenced = fenced /\
  Normalizer.cleanJSONResponse Normalizer.parse_empty_object (JS.VStr fenced)
  = JS.Throw Normalizer.parse_failure /\
  Normalizer.cleanJSONResponse Normalizer.parse_empty_object
    (JS.VStr "```json {} ```") = JS.Ok (JS.VObj []) /\
  Normalizer.cleaned ("{ " ++ Normalizer.backtick6 ++ " }") = "{  }".
Proof.
  intros fenced.
  destruct (fences_of_three_stay Normalizer.parse_empty_object fenced eq_refl)
    as (H1 & H2 & _).
  split; [exact H1 |]. split; [now rewrite H2 |].
  split; [reflexivity |].
  now destruct (fences_of_three_stay Normalizer.parse_empty_object "{ "
                  eq_refl) as (_ & _ & H3);
    destruct (H3 " }" eq_refl) as [_ ->].
Defined.
